(** * Raiders3D on the Arduino UNO R3: a shallow embedding of the game loop

    The sketch [Raiders3D.ino] runs on an ATmega328P: [int] is 16 bits wide,
    [int8_t] and [int16_t] wrap around on conversion (avr-gcc), and [float]
    is IEEE-754 binary32.  Integers are modelled as [Z] with the wrap-around
    written out, floats by the Standard Library's executable specification
    [SpecFloat] at precision 24 and maximal exponent 128, arrays as lists
    read and updated by index, [rand()] as a stream of non-negative values
    that the session consumes in call order, and the display as the list of
    drawing commands a frame sends to it. *)

From Stdlib Require Import String.
From Stdlib Require Import ZArith Lia Bool List.
From Stdlib Require Import Floats.SpecFloat.
From stdpp Require Import base list.
Import ListNotations.

Local Open Scope Z_scope.

(** ** Machine integers *)

Definition to_int8 (z : Z) : Z := (z + 128) mod 256 - 128.
Definition to_uint8 (z : Z) : Z := z mod 256.
Definition to_int16 (z : Z) : Z := (z + 32768) mod 65536 - 32768.
Definition to_uint16 (z : Z) : Z := z mod 65536.

(** [int] arithmetic of the AVR: 16 bits, two's complement. *)
Definition int_add (a b : Z) : Z := to_int16 (a + b).
Definition int_shl (a n : Z) : Z := to_int16 (Z.shiftl a n).
Definition int_shr (a n : Z) : Z := Z.shiftr a n.

(** ** binary32 floats *)

Module F32.

Definition prec : Z := 24.
Definition emax : Z := 128.

Definition float32 : Type := spec_float.

(** Conversion of an integer to [float] (round to nearest even). *)
Definition of_int (z : Z) : float32 := binary_normalize prec emax z 0 false.

Definition add : float32 -> float32 -> float32 := SFadd prec emax.
Definition sub : float32 -> float32 -> float32 := SFsub prec emax.
Definition mul : float32 -> float32 -> float32 := SFmul prec emax.
Definition div : float32 -> float32 -> float32 := SFdiv prec emax.
Definition ltb : float32 -> float32 -> bool := SFltb.
Definition leb : float32 -> float32 -> bool := SFleb.

(** Conversion of a [float] to an integer type truncates toward zero.  C
    leaves it undefined for infinities, NaN and values out of the range of
    the target type; here those give 0 or are wrapped by the caller. *)
Definition trunc (f : float32) : Z :=
  match f with
  | S754_finite s m e => cond_Zopp s (Z.shiftl (Zpos m) e)
  | _ => 0
  end.

Definition is_nan (f : float32) : bool :=
  match f with S754_nan => true | _ => false end.

(** Zeros and finite numbers: what [of_int] produces on small integers. *)
Definition is_finite (f : float32) : bool :=
  match f with S754_zero _ | S754_finite _ _ _ => true | _ => false end.

End F32.

Abbreviation float32 := F32.float32.

Definition float_of_int (z : Z) : float32 := F32.of_int z.
Definition int_of_float (f : float32) : Z := to_int16 (F32.trunc f).
Definition uint8_of_float (f : float32) : Z := to_uint8 (F32.trunc f).

(** ** Defines and constants *)

Definition WINDOW_WIDTH : Z := 128.
Definition WINDOW_HEIGHT : Z := 160.
Definition NUM_STARS : nat := 24.
Definition NUM_TIES : nat := 2.
Definition TIES_MISSED_END_GAME : Z := 16.
Definition NEAR_Z : Z := 10.
Definition FAR_Z : Z := 1000.
Definition VIEW_DISTANCE : Z := 64.
Definition CROSS_VEL : Z := 6.
Definition PLAYER_Z_VEL : Z := 8.
Definition NUM_TIE_VERTS : nat := 10.
Definition NUM_TIE_EDGES : nat := 8.
Definition NUM_EXPLOSIONS : nat := NUM_TIES.
Definition GAME_RUNNING : Z := 1.
Definition GAME_OVER : Z := 0.

(** Colours of the display driver's header (Adafruit_ST77xx.h). *)
Definition ST77XX_BLACK : Z := 0.
Definition ST77XX_GREEN : Z := 2016.
Definition ST77XX_WHITE : Z := 65535.
Definition ST77XX_RED : Z := 63488.
Definition ST77XX_BLUE : Z := 31.

(** ** RGB16Bit *)

(** [uint8_t] operands are promoted to [int]; the sum is converted to
    [uint16_t] on return. *)
Definition RGB16Bit (r g b : Z) : Z :=
  let r := to_uint8 r in
  let g := to_uint8 g in
  let b := to_uint8 b in
  to_uint16
    (int_add (int_add (int_shr b 3) (int_shl (int_shr g 2) 5))
             (int_shl (int_shr r 3) 11)).

(** ** Types *)

#[local] Set Primitive Projections.

Record POINT3D : Type := Build_POINT3D {
  pt_color : Z;
  pt_x : float32;
  pt_y : float32;
  pt_z : float32
}.

Record LINE3D : Type := Build_LINE3D {
  ln_color : Z;
  ln_v1 : Z;
  ln_v2 : Z
}.

Record TIE : Type := Build_TIE {
  tie_state : Z;
  tie_x : float32;
  tie_y : float32;
  tie_z : float32;
  tie_xv : float32;
  tie_yv : float32;
  tie_zv : float32
}.

Record VEC3D : Type := Build_VEC3D {
  vec_x : float32;
  vec_y : float32;
  vec_z : float32
}.

Record EXPL : Type := Build_EXPL {
  expl_state : Z;
  expl_counter : Z;
  expl_color : Z;
  expl_p1 : list POINT3D;
  expl_p2 : list POINT3D;
  expl_vel : list VEC3D
}.

(** The seven buttons; [true] is a pressed button ([digitalRead] gives LOW). *)
Record Buttons : Type := Build_Buttons {
  btn_right : bool;
  btn_left : bool;
  btn_up : bool;
  btn_down : bool;
  btn_fire : bool;
  btn_fast : bool;
  btn_slow : bool
}.

(** What a frame sends to the display, and the perspective divisions it
    evaluates on the way: [PerspDiv who num den] records that the projection
    code of [who] computed [num / den]. *)
Inductive Projected : Type := OfStar | OfTie | OfExplosion.

Inductive Event : Type :=
| PerspDiv (who : Projected) (num den : float32)
| fillScreen (color : Z)
| drawPixel (x y color : Z)
| drawLine (x0 y0 x1 y1 color : Z)
| DrawText (text : String.string) (color x y : Z).

(** ** Globals

    [rand_seq] is the sequence of values that [rand()] returns in this
    session (fixed by [srand]); [rand_calls] counts the calls made so far. *)

Record Game : Type := Build_Game {
  tie_vlist : list POINT3D;
  tie_shape : list LINE3D;
  ties : list TIE;
  stars : list POINT3D;
  rgb_green : Z;
  rgb_white : Z;
  rgb_red : Z;
  rgb_blue : Z;
  cross_x : float32;
  cross_y : float32;
  cross_x_screen : Z;
  cross_y_screen : Z;
  target_x_screen : Z;
  target_y_screen : Z;
  player_z_vel : Z;
  cannon_state : Z;
  cannon_count : Z;
  explosions : list EXPL;
  misses : Z;
  hits : Z;
  score : Z;
  game_state : Z;
  rand_seq : nat -> N;
  rand_calls : nat
}.

#[local] Unset Primitive Projections.

Definition set_tie_vlist (v : list POINT3D) (g : Game) : Game :=
  Build_Game v (tie_shape g) (ties g) (stars g) (rgb_green g) (rgb_white g)
    (rgb_red g) (rgb_blue g) (cross_x g) (cross_y g) (cross_x_screen g)
    (cross_y_screen g) (target_x_screen g) (target_y_screen g)
    (player_z_vel g) (cannon_state g) (cannon_count g) (explosions g)
    (misses g) (hits g) (score g) (game_state g) (rand_seq g) (rand_calls g).

Definition set_tie_shape (v : list LINE3D) (g : Game) : Game :=
  Build_Game (tie_vlist g) v (ties g) (stars g) (rgb_green g) (rgb_white g)
    (rgb_red g) (rgb_blue g) (cross_x g) (cross_y g) (cross_x_screen g)
    (cross_y_screen g) (target_x_screen g) (target_y_screen g)
    (player_z_vel g) (cannon_state g) (cannon_count g) (explosions g)
    (misses g) (hits g) (score g) (game_state g) (rand_seq g) (rand_calls g).

Definition set_ties (v : list TIE) (g : Game) : Game :=
  Build_Game (tie_vlist g) (tie_shape g) v (stars g) (rgb_green g)
    (rgb_white g) (rgb_red g) (rgb_blue g) (cross_x g) (cross_y g)
    (cross_x_screen g) (cross_y_screen g) (target_x_screen g)
    (target_y_screen g) (player_z_vel g) (cannon_state g) (cannon_count g)
    (explosions g) (misses g) (hits g) (score g) (game_state g) (rand_seq g)
    (rand_calls g).

Definition set_stars (v : list POINT3D) (g : Game) : Game :=
  Build_Game (tie_vlist g) (tie_shape g) (ties g) v (rgb_green g)
    (rgb_white g) (rgb_red g) (rgb_blue g) (cross_x g) (cross_y g)
    (cross_x_screen g) (cross_y_screen g) (target_x_screen g)
    (target_y_screen g) (player_z_vel g) (cannon_state g) (cannon_count g)
    (explosions g) (misses g) (hits g) (score g) (game_state g) (rand_seq g)
    (rand_calls g).

Definition set_rgb_green (v : Z) (g : Game) : Game :=
  Build_Game (tie_vlist g) (tie_shape g) (ties g) (stars g) v (rgb_white g)
    (rgb_red g) (rgb_blue g) (cross_x g) (cross_y g) (cross_x_screen g)
    (cross_y_screen g) (target_x_screen g) (target_y_screen g)
    (player_z_vel g) (cannon_state g) (cannon_count g) (explosions g)
    (misses g) (hits g) (score g) (game_state g) (rand_seq g) (rand_calls g).

Definition set_rgb_white (v : Z) (g : Game) : Game :=
  Build_Game (tie_vlist g) (tie_shape g) (ties g) (stars g) (rgb_green g) v
    (rgb_red g) (rgb_blue g) (cross_x g) (cross_y g) (cross_x_screen g)
    (cross_y_screen g) (target_x_screen g) (target_y_screen g)
    (player_z_vel g) (cannon_state g) (cannon_count g) (explosions g)
    (misses g) (hits g) (score g) (game_state g) (rand_seq g) (rand_calls g).

Definition set_rgb_red (v : Z) (g : Game) : Game :=
  Build_Game (tie_vlist g) (tie_shape g) (ties g) (stars g) (rgb_green g)
    (rgb_white g) v (rgb_blue g) (cross_x g) (cross_y g) (cross_x_screen g)
    (cross_y_screen g) (target_x_screen g) (target_y_screen g)
    (player_z_vel g) (cannon_state g) (cannon_count g) (explosions g)
    (misses g) (hits g) (score g) (game_state g) (rand_seq g) (rand_calls g).

Definition set_rgb_blue (v : Z) (g : Game) : Game :=
  Build_Game (tie_vlist g) (tie_shape g) (ties g) (stars g) (rgb_green g)
    (rgb_white g) (rgb_red g) v (cross_x g) (cross_y g) (cross_x_screen g)
    (cross_y_screen g) (target_x_screen g) (target_y_screen g)
    (player_z_vel g) (cannon_state g) (cannon_count g) (explosions g)
    (misses g) (hits g) (score g) (game_state g) (rand_seq g) (rand_calls g).

Definition set_cross_x (v : float32) (g : Game) : Game :=
  Build_Game (tie_vlist g) (tie_shape g) (ties g) (stars g) (rgb_green g)
    (rgb_white g) (rgb_red g) (rgb_blue g) v (cross_y g) (cross_x_screen g)
    (cross_y_screen g) (target_x_screen g) (target_y_screen g)
    (player_z_vel g) (cannon_state g) (cannon_count g) (explosions g)
    (misses g) (hits g) (score g) (game_state g) (rand_seq g) (rand_calls g).

Definition set_cross_y (v : float32) (g : Game) : Game :=
  Build_Game (tie_vlist g) (tie_shape g) (ties g) (stars g) (rgb_green g)
    (rgb_white g) (rgb_red g) (rgb_blue g) (cross_x g) v (cross_x_screen g)
    (cross_y_screen g) (target_x_screen g) (target_y_screen g)
    (player_z_vel g) (cannon_state g) (cannon_count g) (explosions g)
    (misses g) (hits g) (score g) (game_state g) (rand_seq g) (rand_calls g).

Definition set_cross_x_screen (v : Z) (g : Game) : Game :=
  Build_Game (tie_vlist g) (tie_shape g) (ties g) (stars g) (rgb_green g)
    (rgb_white g) (rgb_red g) (rgb_blue g) (cross_x g) (cross_y g) v
    (cross_y_screen g) (target_x_screen g) (target_y_screen g)
    (player_z_vel g) (cannon_state g) (cannon_count g) (explosions g)
    (misses g) (hits g) (score g) (game_state g) (rand_seq g) (rand_calls g).

Definition set_cross_y_screen (v : Z) (g : Game) : Game :=
  Build_Game (tie_vlist g) (tie_shape g) (ties g) (stars g) (rgb_green g)
    (rgb_white g) (rgb_red g) (rgb_blue g) (cross_x g) (cross_y g)
    (cross_x_screen g) v (target_x_screen g) (target_y_screen g)
    (player_z_vel g) (cannon_state g) (cannon_count g) (explosions g)
    (misses g) (hits g) (score g) (game_state g) (rand_seq g) (rand_calls g).

Definition set_target_x_screen (v : Z) (g : Game) : Game :=
  Build_Game (tie_vlist g) (tie_shape g) (ties g) (stars g) (rgb_green g)
    (rgb_white g) (rgb_red g) (rgb_blue g) (cross_x g) (cross_y g)
    (cross_x_screen g) (cross_y_screen g) v (target_y_screen g)
    (player_z_vel g) (cannon_state g) (cannon_count g) (explosions g)
    (misses g) (hits g) (score g) (game_state g) (rand_seq g) (rand_calls g).

Definition set_target_y_screen (v : Z) (g : Game) : Game :=
  Build_Game (tie_vlist g) (tie_shape g) (ties g) (stars g) (rgb_green g)
    (rgb_white g) (rgb_red g) (rgb_blue g) (cross_x g) (cross_y g)
    (cross_x_screen g) (cross_y_screen g) (target_x_screen g) v
    (player_z_vel g) (cannon_state g) (cannon_count g) (explosions g)
    (misses g) (hits g) (score g) (game_state g) (rand_seq g) (rand_calls g).

Definition set_player_z_vel (v : Z) (g : Game) : Game :=
  Build_Game (tie_vlist g) (tie_shape g) (ties g) (stars g) (rgb_green g)
    (rgb_white g) (rgb_red g) (rgb_blue g) (cross_x g) (cross_y g)
    (cross_x_screen g) (cross_y_screen g) (target_x_screen g)
    (target_y_screen g) v (cannon_state g) (cannon_count g) (explosions g)
    (misses g) (hits g) (score g) (game_state g) (rand_seq g) (rand_calls g).

Definition set_cannon_state (v : Z) (g : Game) : Game :=
  Build_Game (tie_vlist g) (tie_shape g) (ties g) (stars g) (rgb_green g)
    (rgb_white g) (rgb_red g) (rgb_blue g) (cross_x g) (cross_y g)
    (cross_x_screen g) (cross_y_screen g) (target_x_screen g)
    (target_y_screen g) (player_z_vel g) v (cannon_count g) (explosions g)
    (misses g) (hits g) (score g) (game_state g) (rand_seq g) (rand_calls g).

Definition set_cannon_count (v : Z) (g : Game) : Game :=
  Build_Game (tie_vlist g) (tie_shape g) (ties g) (stars g) (rgb_green g)
    (rgb_white g) (rgb_red g) (rgb_blue g) (cross_x g) (cross_y g)
    (cross_x_screen g) (cross_y_screen g) (target_x_screen g)
    (target_y_screen g) (player_z_vel g) (cannon_state g) v (explosions g)
    (misses g) (hits g) (score g) (game_state g) (rand_seq g) (rand_calls g).

Definition set_explosions (v : list EXPL) (g : Game) : Game :=
  Build_Game (tie_vlist g) (tie_shape g) (ties g) (stars g) (rgb_green g)
    (rgb_white g) (rgb_red g) (rgb_blue g) (cross_x g) (cross_y g)
    (cross_x_screen g) (cross_y_screen g) (target_x_screen g)
    (target_y_screen g) (player_z_vel g) (cannon_state g) (cannon_count g) v
    (misses g) (hits g) (score g) (game_state g) (rand_seq g) (rand_calls g).

Definition set_misses (v : Z) (g : Game) : Game :=
  Build_Game (tie_vlist g) (tie_shape g) (ties g) (stars g) (rgb_green g)
    (rgb_white g) (rgb_red g) (rgb_blue g) (cross_x g) (cross_y g)
    (cross_x_screen g) (cross_y_screen g) (target_x_screen g)
    (target_y_screen g) (player_z_vel g) (cannon_state g) (cannon_count g)
    (explosions g) v (hits g) (score g) (game_state g) (rand_seq g)
    (rand_calls g).

Definition set_hits (v : Z) (g : Game) : Game :=
  Build_Game (tie_vlist g) (tie_shape g) (ties g) (stars g) (rgb_green g)
    (rgb_white g) (rgb_red g) (rgb_blue g) (cross_x g) (cross_y g)
    (cross_x_screen g) (cross_y_screen g) (target_x_screen g)
    (target_y_screen g) (player_z_vel g) (cannon_state g) (cannon_count g)
    (explosions g) (misses g) v (score g) (game_state g) (rand_seq g)
    (rand_calls g).

Definition set_score (v : Z) (g : Game) : Game :=
  Build_Game (tie_vlist g) (tie_shape g) (ties g) (stars g) (rgb_green g)
    (rgb_white g) (rgb_red g) (rgb_blue g) (cross_x g) (cross_y g)
    (cross_x_screen g) (cross_y_screen g) (target_x_screen g)
    (target_y_screen g) (player_z_vel g) (cannon_state g) (cannon_count g)
    (explosions g) (misses g) (hits g) v (game_state g) (rand_seq g)
    (rand_calls g).

Definition set_game_state (v : Z) (g : Game) : Game :=
  Build_Game (tie_vlist g) (tie_shape g) (ties g) (stars g) (rgb_green g)
    (rgb_white g) (rgb_red g) (rgb_blue g) (cross_x g) (cross_y g)
    (cross_x_screen g) (cross_y_screen g) (target_x_screen g)
    (target_y_screen g) (player_z_vel g) (cannon_state g) (cannon_count g)
    (explosions g) (misses g) (hits g) (score g) v (rand_seq g) (rand_calls g).

Definition set_rand_calls (v : nat) (g : Game) : Game :=
  Build_Game (tie_vlist g) (tie_shape g) (ties g) (stars g) (rgb_green g)
    (rgb_white g) (rgb_red g) (rgb_blue g) (cross_x g) (cross_y g)
    (cross_x_screen g) (cross_y_screen g) (target_x_screen g)
    (target_y_screen g) (player_z_vel g) (cannon_state g) (cannon_count g)
    (explosions g) (misses g) (hits g) (score g) (game_state g) (rand_seq g) v.

(** ** Helpers for arrays, loops and [rand()] *)

(** [a[i]]; an index out of range (undefined in C, and never produced by
    the loops below) reads the default. *)
Definition item {A : Type} (d : A) (l : list A) (i : nat) : A :=
  default d (l !! i).

(** [for (index = 0; index < n; index++) body]. *)
Definition for_loop {S : Type} (n : nat) (body : nat -> S -> S) (s : S) : S :=
  fold_left (fun s index => body index s) (seq 0 n) s.

Definition rand (g : Game) : Z * Game :=
  (Z.of_N (rand_seq g (rand_calls g)), set_rand_calls (S (rand_calls g)) g).

(** C's [%] on [int]. *)
Definition int_rem (a b : Z) : Z := Z.rem a b.
Definition int_sub (a b : Z) : Z := to_int16 (a - b).

Definition fzero : float32 := S754_zero false.
Definition zero_point : POINT3D := Build_POINT3D 0 fzero fzero fzero.
Definition zero_line : LINE3D := Build_LINE3D 0 0 0.
Definition zero_tie : TIE := Build_TIE 0 fzero fzero fzero fzero fzero fzero.
Definition zero_vec : VEC3D := Build_VEC3D fzero fzero fzero.
Definition zero_expl : EXPL :=
  Build_EXPL 0 0 0 (replicate NUM_TIE_EDGES zero_point)
    (replicate NUM_TIE_EDGES zero_point) (replicate NUM_TIE_EDGES zero_vec).

(** The globals as the C start-up code leaves them: arrays zeroed, the rest
    from their initialisers. *)
Definition Game_start (rs : nat -> N) : Game :=
  Build_Game
    (replicate NUM_TIE_VERTS zero_point)
    (replicate NUM_TIE_EDGES zero_line)
    (replicate NUM_TIES zero_tie)
    (replicate NUM_STARS zero_point)
    ST77XX_GREEN ST77XX_WHITE ST77XX_RED ST77XX_BLUE
    fzero fzero
    (WINDOW_WIDTH / 2) (WINDOW_HEIGHT / 2) (WINDOW_WIDTH / 2) (WINDOW_HEIGHT / 2)
    8 0 0
    (replicate NUM_EXPLOSIONS zero_expl)
    0 0 0 GAME_RUNNING
    rs 0%nat.

(** ** Init_Tie *)

Definition Init_Tie (index : nat) (g : Game) : Game :=
  let '(r1, g) := rand g in
  let '(r2, g) := rand g in
  let '(r3, g) := rand g in
  let '(r4, g) := rand g in
  let '(r5, g) := rand g in
  let t :=
    Build_TIE 1
      (float_of_int (int_add (- WINDOW_WIDTH) (int_rem r1 (2 * WINDOW_WIDTH))))
      (float_of_int (int_add (- WINDOW_HEIGHT) (int_rem r2 (2 * WINDOW_HEIGHT))))
      (float_of_int (2 * FAR_Z))
      (float_of_int (int_add (-4) (int_rem r3 8)))
      (float_of_int (int_add (-4) (int_rem r4 8)))
      (float_of_int (int_sub (-8) (int_rem r5 64))) in
  set_ties (<[index := t]> (ties g)) g.

(** ** Game_Init *)

Definition init_star (index : nat) (g : Game) : Game :=
  let '(r1, g) := rand g in
  let '(r2, g) := rand g in
  let '(r3, g) := rand g in
  let s :=
    Build_POINT3D (rgb_white g)
      (float_of_int (int_add (-2 * WINDOW_WIDTH) (int_rem r1 (WINDOW_WIDTH * 4))))
      (float_of_int (int_add (-2 * WINDOW_HEIGHT) (int_rem r2 (WINDOW_HEIGHT * 4))))
      (float_of_int (int_add NEAR_Z (int_rem r3 (FAR_Z / 2 - NEAR_Z)))) in
  set_stars (<[index := s]> (stars g)) g.

Definition vertex (color x y z : Z) : POINT3D :=
  Build_POINT3D color (float_of_int x) (float_of_int y) (float_of_int z).

Definition temp_tie_vlist (g : Game) : list POINT3D :=
  [ vertex (rgb_white g) (-40) 40 0;
    vertex (rgb_white g) (-40) 0 0;
    vertex (rgb_white g) (-40) (-40) 0;
    vertex (rgb_white g) (-10) 0 0;
    vertex (rgb_white g) 0 20 0;
    vertex (rgb_white g) 10 0 0;
    vertex (rgb_white g) 0 (-20) 0;
    vertex (rgb_white g) 40 40 0;
    vertex (rgb_white g) 40 0 0;
    vertex (rgb_white g) 40 (-40) 0 ].

Definition temp_tie_shape (g : Game) : list LINE3D :=
  [ Build_LINE3D (rgb_green g) 0 2;
    Build_LINE3D (rgb_green g) 1 3;
    Build_LINE3D (rgb_green g) 3 4;
    Build_LINE3D (rgb_green g) 4 5;
    Build_LINE3D (rgb_green g) 5 6;
    Build_LINE3D (rgb_green g) 6 3;
    Build_LINE3D (rgb_green g) 5 8;
    Build_LINE3D (rgb_green g) 7 9 ].

Definition Game_Init (g : Game) : Game :=
  let g := set_rgb_green (RGB16Bit 0 255 0) g in
  let g := set_rgb_white (RGB16Bit 255 255 255) g in
  let g := set_rgb_blue (RGB16Bit 0 0 255) g in
  let g := set_rgb_red (RGB16Bit 255 0 0) g in
  let g := for_loop NUM_STARS init_star g in
  let g :=
    for_loop NUM_TIE_VERTS
      (fun index g =>
         set_tie_vlist
           (<[index := item zero_point (temp_tie_vlist g) index]> (tie_vlist g)) g)
      g in
  let g :=
    for_loop NUM_TIE_EDGES
      (fun index g =>
         set_tie_shape
           (<[index := item zero_line (temp_tie_shape g) index]> (tie_shape g)) g)
      g in
  for_loop NUM_TIES Init_Tie g.

(** ** Start_Explosion *)

(** One pass of the edge loop: copies edge [edge] of the model, translated
    to the tie's position, and draws the shrapnel velocity. *)
Definition explosion_edge (tie index edge : nat) (g : Game) : Game :=
  let t := item zero_tie (ties g) tie in
  let ln := item zero_line (tie_shape g) edge in
  let a := item zero_point (tie_vlist g) (Z.to_nat (ln_v1 ln)) in
  let b := item zero_point (tie_vlist g) (Z.to_nat (ln_v2 ln)) in
  let '(r1, g) := rand g in
  let '(r2, g) := rand g in
  let '(r3, g) := rand g in
  let vel :=
    Build_VEC3D
      (F32.add (F32.sub (tie_xv t) (float_of_int 16)) (float_of_int (int_rem r1 32)))
      (F32.add (F32.sub (tie_yv t) (float_of_int 16)) (float_of_int (int_rem r2 32)))
      (float_of_int (int_add (-7) (int_rem r3 8))) in
  let place (v : POINT3D) (p : POINT3D) : POINT3D :=
    Build_POINT3D (pt_color p)
      (F32.add (tie_x t) (pt_x v))
      (F32.add (tie_y t) (pt_y v))
      (F32.add (tie_z t) (pt_z v)) in
  set_explosions
    (alter
       (fun e =>
          Build_EXPL (expl_state e) (expl_counter e) (expl_color e)
            (alter (place a) edge (expl_p1 e))
            (alter (place b) edge (expl_p2 e))
            (<[edge := vel]> (expl_vel e)))
       index (explosions g))
    g.

Definition start_explosion_at (tie index : nat) (g : Game) : Game :=
  let g :=
    set_explosions
      (alter
         (fun e =>
            Build_EXPL 1 0 (rgb_green g) (expl_p1 e) (expl_p2 e) (expl_vel e))
         index (explosions g))
      g in
  for_loop NUM_TIE_EDGES (explosion_edge tie index) g.

(** The hunt for a free explosion, with its early [return]. *)
Fixpoint Start_Explosion_hunt (tie : nat) (indices : list nat) (g : Game) : Game :=
  match indices with
  | [] => g
  | index :: rest =>
      if expl_state (item zero_expl (explosions g) index) =? 0
      then start_explosion_at tie index g
      else Start_Explosion_hunt tie rest g
  end.

Definition Start_Explosion (tie : nat) (g : Game) : Game :=
  Start_Explosion_hunt tie (seq 0 NUM_EXPLOSIONS) g.

(** ** Process_Explosions *)

Definition move_point (v : VEC3D) (p : POINT3D) : POINT3D :=
  Build_POINT3D (pt_color p)
    (F32.add (pt_x p) (vec_x v))
    (F32.add (pt_y p) (vec_y v))
    (F32.add (pt_z p) (vec_z v)).

Definition move_edge (edge : nat) (e : EXPL) : EXPL :=
  let v := item zero_vec (expl_vel e) edge in
  Build_EXPL (expl_state e) (expl_counter e) (expl_color e)
    (alter (move_point v) edge (expl_p1 e))
    (alter (move_point v) edge (expl_p2 e))
    (expl_vel e).

Definition process_explosion (e : EXPL) : EXPL :=
  if expl_state e =? 0 then e
  else
    let e := for_loop NUM_TIE_EDGES move_edge e in
    let counter := to_int8 (expl_counter e + 1) in
    if 100 <? counter
    then Build_EXPL 0 0 (expl_color e) (expl_p1 e) (expl_p2 e) (expl_vel e)
    else Build_EXPL (expl_state e) counter (expl_color e)
           (expl_p1 e) (expl_p2 e) (expl_vel e).

Definition Process_Explosions (g : Game) : Game :=
  for_loop NUM_EXPLOSIONS
    (fun index g =>
       set_explosions (alter process_explosion index (explosions g)) g)
    g.

(** ** Perspective transform and screen coordinates *)

(** [VIEW_DISTANCE*c], the numerator of a perspective division. *)
Definition persp_num (c : float32) : float32 :=
  F32.mul (float_of_int VIEW_DISTANCE) c.

(** [int sx = WINDOW_WIDTH/2 + per], [int sy = WINDOW_HEIGHT/2 - per]. *)
Definition screen_x (per : float32) : Z :=
  int_of_float (F32.add (float_of_int (WINDOW_WIDTH / 2)) per).
Definition screen_y (per : float32) : Z :=
  int_of_float (F32.sub (float_of_int (WINDOW_HEIGHT / 2)) per).

(** ** Draw_Explosions *)

Definition draw_explosion_edge (e : EXPL) (edge : nat) : list Event :=
  let p1 := item zero_point (expl_p1 e) edge in
  let p2 := item zero_point (expl_p2 e) edge in
  if F32.ltb (pt_z p1) (float_of_int NEAR_Z)
     && F32.ltb (pt_z p2) (float_of_int NEAR_Z)
  then []
  else
    let p1_per_x := F32.div (persp_num (pt_x p1)) (pt_z p1) in
    let p1_per_y := F32.div (persp_num (pt_y p1)) (pt_z p1) in
    let p2_per_x := F32.div (persp_num (pt_x p2)) (pt_z p2) in
    let p2_per_y := F32.div (persp_num (pt_y p2)) (pt_z p2) in
    [ PerspDiv OfExplosion (persp_num (pt_x p1)) (pt_z p1);
      PerspDiv OfExplosion (persp_num (pt_y p1)) (pt_z p1);
      PerspDiv OfExplosion (persp_num (pt_x p2)) (pt_z p2);
      PerspDiv OfExplosion (persp_num (pt_y p2)) (pt_z p2);
      drawLine (screen_x p1_per_x) (screen_y p1_per_y)
        (screen_x p2_per_x) (screen_y p2_per_y) (expl_color e) ].

Definition draw_explosion (e : EXPL) : list Event :=
  if expl_state e =? 0 then []
  else flat_map (draw_explosion_edge e) (seq 0 NUM_TIE_EDGES).

Definition Draw_Explosions (g : Game) : list Event :=
  flat_map (fun index => draw_explosion (item zero_expl (explosions g) index))
    (seq 0 NUM_EXPLOSIONS).

(** ** Move_Starfield *)

Definition move_star (vel : Z) (s : POINT3D) : POINT3D :=
  let z := F32.sub (pt_z s) (float_of_int vel) in
  let z := if F32.leb z (float_of_int NEAR_Z) then float_of_int FAR_Z else z in
  Build_POINT3D (pt_color s) (pt_x s) (pt_y s) z.

Definition Move_Starfield (g : Game) : Game :=
  for_loop NUM_STARS
    (fun index g =>
       set_stars (alter (move_star (player_z_vel g)) index (stars g)) g)
    g.

(** ** Draw_Starfield *)

Definition draw_star (s : POINT3D) : list Event :=
  let x_per := F32.div (persp_num (pt_x s)) (pt_z s) in
  let y_per := F32.div (persp_num (pt_y s)) (pt_z s) in
  let x_screen := screen_x x_per in
  let y_screen := screen_y y_per in
  [ PerspDiv OfStar (persp_num (pt_x s)) (pt_z s);
    PerspDiv OfStar (persp_num (pt_y s)) (pt_z s) ]
  ++ (if (WINDOW_WIDTH <=? x_screen) || (x_screen <? 0)
         || (WINDOW_HEIGHT <=? y_screen) || (y_screen <? 0)
      then []
      else [ drawPixel x_screen y_screen (pt_color s) ]).

Definition Draw_Starfield (g : Game) : list Event :=
  flat_map (fun index => draw_star (item zero_point (stars g) index))
    (seq 0 NUM_STARS).

(** ** Process_Ties *)

Definition move_tie (t : TIE) : TIE :=
  Build_TIE (tie_state t)
    (F32.add (tie_x t) (tie_xv t))
    (F32.add (tie_y t) (tie_yv t))
    (F32.add (tie_z t) (tie_zv t))
    (tie_xv t) (tie_yv t) (tie_zv t).

Definition process_tie (index : nat) (g : Game) : Game :=
  if tie_state (item zero_tie (ties g) index) =? 0 then g
  else
    let g := set_ties (alter move_tie index (ties g)) g in
    if F32.leb (tie_z (item zero_tie (ties g) index)) (float_of_int NEAR_Z)
    then
      let g := Init_Tie index g in
      set_misses (to_int8 (misses g + 1)) g
    else g.

Definition Process_Ties (g : Game) : Game :=
  for_loop NUM_TIES process_tie g.

(** ** Draw_Ties *)

Record BBox : Type := Build_BBox {
  bmin_x : Z;
  bmin_y : Z;
  bmax_x : Z;
  bmax_y : Z
}.

(** The bounding box reset "to impossible values". *)
Definition empty_box : BBox := Build_BBox 4000 4000 (-4000) (-4000).

(** One pass of the edge loop: the four perspective divisions, the line, and
    the bounding box grown by the two projected end points. *)
Definition draw_tie_edge (g : Game) (t : TIE) (color : Z) (edge : nat)
    (acc : BBox * list Event) : BBox * list Event :=
  let '(box, evs) := acc in
  let ln := item zero_line (tie_shape g) edge in
  let a := item zero_point (tie_vlist g) (Z.to_nat (ln_v1 ln)) in
  let b := item zero_point (tie_vlist g) (Z.to_nat (ln_v2 ln)) in
  let n1x := persp_num (F32.add (tie_x t) (pt_x a)) in
  let n1y := persp_num (F32.add (tie_y t) (pt_y a)) in
  let d1 := F32.add (pt_z a) (tie_z t) in
  let n2x := persp_num (F32.add (tie_x t) (pt_x b)) in
  let n2y := persp_num (F32.add (tie_y t) (pt_y b)) in
  let d2 := F32.add (pt_z b) (tie_z t) in
  let p1_screen_x := screen_x (F32.div n1x d1) in
  let p1_screen_y := screen_y (F32.div n1y d1) in
  let p2_screen_x := screen_x (F32.div n2x d2) in
  let p2_screen_y := screen_y (F32.div n2y d2) in
  let min_x := Z.min p1_screen_x p2_screen_x in
  let max_x := Z.max p1_screen_x p2_screen_x in
  let min_y := Z.min p1_screen_y p2_screen_y in
  let max_y := Z.max p1_screen_y p2_screen_y in
  (Build_BBox (Z.min (bmin_x box) min_x) (Z.min (bmin_y box) min_y)
     (Z.max (bmax_x box) max_x) (Z.max (bmax_y box) max_y),
   evs ++ [ PerspDiv OfTie n1x d1; PerspDiv OfTie n1y d1;
            PerspDiv OfTie n2x d2; PerspDiv OfTie n2y d2;
            drawLine p1_screen_x p1_screen_y p2_screen_x p2_screen_y color ]).

Definition tie_color (t : TIE) : Z :=
  let tieIntensity :=
    uint8_of_float
      (F32.sub (float_of_int 255)
         (F32.mul (float_of_int 255)
            (F32.div (tie_z t)
               (F32.mul (float_of_int 8) (float_of_int FAR_Z))))) in
  let tieIntensity :=
    if 255 <? tieIntensity then 255
    else if tieIntensity <? 0 then 0 else tieIntensity in
  RGB16Bit 0 tieIntensity 0.

(** Is the latched target strictly inside the box? *)
Definition target_in_box (g : Game) (box : BBox) : bool :=
  (bmin_x box <? target_x_screen g) && (target_x_screen g <? bmax_x box)
  && (bmin_y box <? target_y_screen g) && (target_y_screen g <? bmax_y box).

(** "This tie is dead meat!" *)
Definition hit_tie (index : nat) (g : Game) : Game :=
  let g := Start_Explosion index g in
  let g :=
    set_score
      (to_int16
         (F32.trunc
            (F32.add (float_of_int (score g))
               (tie_z (item zero_tie (ties g) index)))))
      g in
  let g := set_hits (to_int8 (hits g + 1)) g in
  Init_Tie index g.

Definition draw_tie (index : nat) (acc : Game * list Event)
    : Game * list Event :=
  let '(g, evs) := acc in
  let t := item zero_tie (ties g) index in
  if tie_state t =? 0 then (g, evs)
  else
    let '(box, evs) :=
      for_loop NUM_TIE_EDGES (draw_tie_edge g t (tie_color t))
        (empty_box, evs) in
    if (cannon_state g =? 1) && target_in_box g box
    then (hit_tie index g, evs)
    else (g, evs).

Definition Draw_Ties (g : Game) : Game * list Event :=
  for_loop NUM_TIES draw_tie (g, []).

(** ** Game_Main *)

(** The block guarded by [game_state==GAME_RUNNING]. *)
Definition move_crosshair (b : Buttons) (g : Game) : Game :=
  let g :=
    if btn_right b then
      let g := set_cross_x (F32.add (cross_x g) (float_of_int CROSS_VEL)) g in
      if F32.ltb (float_of_int (WINDOW_WIDTH / 2)) (cross_x g)
      then set_cross_x (float_of_int (Z.quot (- WINDOW_WIDTH) 2)) g
      else g
    else if btn_left b then
      let g := set_cross_x (F32.sub (cross_x g) (float_of_int CROSS_VEL)) g in
      if F32.ltb (cross_x g) (float_of_int (Z.quot (- WINDOW_WIDTH) 2))
      then set_cross_x (float_of_int (WINDOW_WIDTH / 2)) g
      else g
    else g in
  if btn_down b then
    let g := set_cross_y (F32.sub (cross_y g) (float_of_int CROSS_VEL)) g in
    if F32.ltb (cross_y g) (float_of_int (Z.quot (- WINDOW_HEIGHT) 2))
    then set_cross_y (float_of_int (WINDOW_HEIGHT / 2)) g
    else g
  else if btn_up b then
    let g := set_cross_y (F32.add (cross_y g) (float_of_int CROSS_VEL)) g in
    if F32.ltb (float_of_int (WINDOW_HEIGHT / 2)) (cross_y g)
    then set_cross_y (float_of_int (Z.quot (- WINDOW_HEIGHT) 2)) g
    else g
  else g.

Definition speed_control (b : Buttons) (g : Game) : Game :=
  if btn_fast b then set_player_z_vel (to_int8 (player_z_vel g + 1)) g
  else if btn_slow b then set_player_z_vel (to_int8 (player_z_vel g - 1)) g
  else g.

Definition fire_cannon (b : Buttons) (g : Game) : Game :=
  if btn_fire b && (cannon_state g =? 0) then
    let g := set_cannon_state 1 g in
    let g := set_cannon_count 0 g in
    let g := set_target_x_screen (cross_x_screen g) g in
    set_target_y_screen (cross_y_screen g) g
  else g.

Definition handle_input (b : Buttons) (g : Game) : Game :=
  if game_state g =? GAME_RUNNING
  then fire_cannon b (speed_control b (move_crosshair b g))
  else g.

(** "process cannon, simple FSM ready->firing->cool" *)
Definition process_cannon (g : Game) : Game :=
  let g :=
    if cannon_state g =? 1 then
      let g := set_cannon_count (to_int8 (cannon_count g + 1)) g in
      if 10 <? cannon_count g then set_cannon_state 2 g else g
    else g in
  if cannon_state g =? 2 then
    let g := set_cannon_count (to_int8 (cannon_count g + 1)) g in
    if 15 <? cannon_count g then set_cannon_state 0 g else g
  else g.

Definition draw_crosshair (g : Game) : Game * list Event :=
  let g :=
    set_cross_x_screen
      (int_of_float (F32.add (float_of_int (WINDOW_WIDTH / 2)) (cross_x g))) g in
  let g :=
    set_cross_y_screen
      (int_of_float (F32.sub (float_of_int (WINDOW_HEIGHT / 2)) (cross_y g))) g in
  let x := cross_x_screen g in
  let y := cross_y_screen g in
  (g,
   [ drawLine (int_sub x 8) y (int_add x 8) y (rgb_red g);
     drawLine x (int_sub y 8) x (int_add y 8) (rgb_red g);
     drawLine (int_sub x 8) (int_sub y 2) (int_sub x 8) (int_add y 2) (rgb_red g);
     drawLine (int_add x 8) (int_sub y 2) (int_add x 8) (int_add y 2) (rgb_red g) ]).

(** The laser beams.  C++ does not fix the order in which the two jitter
    arguments of [drawLine] call [rand()]; avr-gcc evaluates the arguments
    of a call from the last to the first, so the y argument draws first. *)
Definition draw_beam (g : Game) : Game * list Event :=
  if cannon_state g =? 1 then
    let '(r1, g) := rand g in
    let beamColor := RGB16Bit 32 32 (int_add 128 (int_rem r1 128)) in
    let '(r2, g) := rand g in
    let '(r3, g) := rand g in
    let '(r4, g) := rand g in
    let ty := int_add (int_add (-4) (int_rem r3 8)) (target_y_screen g) in
    let tx := int_add (int_add (-4) (int_rem r4 8)) (target_x_screen g) in
    if int_rem r2 2 =? 1
    then (g, [ drawLine (WINDOW_WIDTH - 1) (WINDOW_HEIGHT - 1) tx ty beamColor ])
    else (g, [ drawLine 0 (WINDOW_HEIGHT - 1) tx ty beamColor ])
  else (g, []).

Definition draw_game_over (g : Game) : list Event :=
  if game_state g =? GAME_OVER
  then [ DrawText "G A M E  O V E R"%string (RGB16Bit 255 255 255) 20 128 ]
  else [].

Definition check_game_over (g : Game) : Game :=
  if TIES_MISSED_END_GAME <? misses g then set_game_state GAME_OVER g else g.

(** One call of [Game_Main], with the buttons as they read during it.  The
    busy wait that paces the frames changes no variable and is left out. *)
Definition Game_Main (b : Buttons) (g : Game) : Game * list Event :=
  let g := handle_input b g in
  let g := process_cannon g in
  let g := Move_Starfield g in
  let g := Process_Ties g in
  let g := Process_Explosions g in
  let ev_stars := Draw_Starfield g in
  let '(g, ev_ties) := Draw_Ties g in
  let ev_expl := Draw_Explosions g in
  let '(g, ev_cross) := draw_crosshair g in
  let '(g, ev_beam) := draw_beam g in
  let ev_over := draw_game_over g in
  let g := check_game_over g in
  (g,
   fillScreen ST77XX_BLACK
   :: ev_stars ++ ev_ties ++ ev_expl ++ ev_cross ++ ev_beam ++ ev_over).

Definition frame (g : Game) (b : Buttons) : Game := fst (Game_Main b g).

(** [loop()] called once per element of [inputs]. *)
Definition run (inputs : list Buttons) (g : Game) : Game :=
  fold_left frame inputs g.

(** A session: [setup()] and then one frame per element of [inputs]. *)
Definition session (rs : nat -> N) (inputs : list Buttons) : Game :=
  run inputs (Game_Init (Game_start rs)).

Definition no_buttons : Buttons :=
  Build_Buttons false false false false false false false.

(** * Definitions used by the statements *)

(** The 5-6-5 fields packed by sums in [int] arithmetic, as [RGB16Bit]
    does, and by bitwise ors. *)
Definition pack565_sum (r5 g6 b5 : Z) : Z :=
  to_uint16 (int_add (int_add b5 (int_shl g6 5)) (int_shl r5 11)).

Definition pack565_or (r5 g6 b5 : Z) : Z :=
  Z.lor (Z.lor b5 (Z.shiftl g6 5)) (Z.shiftl r5 11).


(** The variables of the player and of the cannon: written by the input
    block, the cannon's state machine and the end of the frame, and by no
    function of the simulation. *)
Definition player_part (g : Game) :=
  (cross_x g, cross_y g, cross_x_screen g, cross_y_screen g,
   target_x_screen g, target_y_screen g, player_z_vel g,
   cannon_state g, cannon_count g, game_state g).

(** What [Game_Init] sets once and for all. *)
Definition fixed_part (g : Game) :=
  (tie_vlist g, tie_shape g, rgb_green g, rgb_white g, rgb_red g, rgb_blue g,
   rand_seq g).

(** A frame without its drawing commands, as the composition of its steps. *)
Definition simulate (g : Game) : Game :=
  fst (Draw_Ties (Process_Explosions (Process_Ties (Move_Starfield g)))).

Definition end_of_frame (g : Game) : Game :=
  check_game_over (fst (draw_beam (fst (draw_crosshair g)))).

(** The buttons [b] with the fire button as [v]. *)
Definition with_fire (v : bool) (b : Buttons) : Buttons :=
  Build_Buttons (btn_right b) (btn_left b) (btn_up b) (btn_down b) v
    (btn_fast b) (btn_slow b).

(** The cannon's state at the end of each frame of [inputs], played from
    [g]. *)
Definition cannon_trace (g : Game) (inputs : list Buttons) : list Z :=
  map (fun k => cannon_state (run (firstn k inputs) g))
    (seq 1 (length inputs)).

(** The cannon [n] frames after the shot (the frame of the shot is the
    first): its state, and the counter the two phases share. *)
Definition cannon_phase (n : Z) : Z :=
  if n <=? 10 then 1 else if n <=? 14 then 2 else 0.
Definition cannon_counter (n : Z) : Z :=
  if n <=? 10 then n else n + 1.

(** The cannon [n] frames after a shot that latched the target (tx, ty). *)
Definition cannon_at (g : Game) (n tx ty : Z) : Prop :=
  cannon_state g = cannon_phase n /\ cannon_count g = cannon_counter n
  /\ target_x_screen g = tx /\ target_y_screen g = ty.

(** A session used by the examples: every call of [rand()] gives 5. *)
Definition rand_fives : nat -> N := fun _ => 5%N.

Definition fire_only : Buttons :=
  Build_Buttons false false false false true false false.

(** The number of frames of a trace that end with the cannon in [phase]. *)
Definition frames_in (phase : Z) (trace : list Z) : nat :=
  count_occ Z.eq_dec trace phase.

(** What the simulation works on. *)
Definition world_part (g : Game) :=
  (ties g, stars g, explosions g, misses g, hits g, score g, rand_calls g).

(** Did a frame of [inputs] up to the [n]th end with more misses than
    [TIES_MISSED_END_GAME]? *)
Definition missed_too_many (rs : nat -> N) (inputs : list Buttons) (n : nat)
    : bool :=
  existsb
    (fun k => TIES_MISSED_END_GAME <? misses (session rs (firstn k inputs)))
    (seq 1 n).

(** A step that writes none of the world, of the constants and of the flag. *)
Definition keeps_world (f : Game -> Game) : Prop :=
  forall g, world_part (f g) = world_part g
            /\ fixed_part (f g) = fixed_part g
            /\ game_state (f g) = game_state g.


(** The arrays have the sizes of their C declarations. *)
Definition edges_ok (e : EXPL) : Prop :=
  length (expl_p1 e) = NUM_TIE_EDGES /\ length (expl_p2 e) = NUM_TIE_EDGES
  /\ length (expl_vel e) = NUM_TIE_EDGES.

Definition arrays_ok (g : Game) : Prop :=
  length (tie_vlist g) = NUM_TIE_VERTS /\ length (tie_shape g) = NUM_TIE_EDGES
  /\ length (ties g) = NUM_TIES /\ length (stars g) = NUM_STARS
  /\ length (explosions g) = NUM_EXPLOSIONS
  /\ Forall edges_ok (explosions g).

(** Explosion [index] of [g]. *)
Definition explosion (g : Game) (index : nat) : EXPL :=
  item zero_expl (explosions g) index.

(** The two end points of edge [edge] of the model, in world space, for a
    tie at [t]. *)
Definition world_vertex (t : TIE) (v : POINT3D) : float32 * float32 * float32 :=
  (F32.add (tie_x t) (pt_x v), F32.add (tie_y t) (pt_y v),
   F32.add (tie_z t) (pt_z v)).

Definition edge_start (g : Game) (edge : nat) : POINT3D :=
  item zero_point (tie_vlist g)
    (Z.to_nat (ln_v1 (item zero_line (tie_shape g) edge))).

Definition edge_end (g : Game) (edge : nat) : POINT3D :=
  item zero_point (tie_vlist g)
    (Z.to_nat (ln_v2 (item zero_line (tie_shape g) edge))).

Definition position (p : POINT3D) : float32 * float32 * float32 :=
  (pt_x p, pt_y p, pt_z p).

(** What a hit leaves of the score. *)
Definition score_after_hit (g : Game) (tie : nat) : Z :=
  to_int16
    (F32.trunc
       (F32.add (float_of_int (score g)) (tie_z (item zero_tie (ties g) tie)))).

(** The world but for the explosions and the count of [rand()] calls. *)
Definition scene_part (g : Game) :=
  (ties g, stars g, misses g, hits g, score g).

(** Pass [edge] of the edge loop of [Start_Explosion], on the explosion it
    fills: the end points placed at the tie, the velocity drawn by the
    three calls of [rand()] the pass makes in [g]. *)
Definition place_at (t : TIE) (v p : POINT3D) : POINT3D :=
  Build_POINT3D (pt_color p)
    (F32.add (tie_x t) (pt_x v))
    (F32.add (tie_y t) (pt_y v))
    (F32.add (tie_z t) (pt_z v)).

Definition shrapnel (g : Game) (tie : nat) : VEC3D :=
  let t := item zero_tie (ties g) tie in
  let r1 := Z.of_N (rand_seq g (rand_calls g)) in
  let r2 := Z.of_N (rand_seq g (S (rand_calls g))) in
  let r3 := Z.of_N (rand_seq g (S (S (rand_calls g)))) in
  Build_VEC3D
    (F32.add (F32.sub (tie_xv t) (float_of_int 16)) (float_of_int (int_rem r1 32)))
    (F32.add (F32.sub (tie_yv t) (float_of_int 16)) (float_of_int (int_rem r2 32)))
    (float_of_int (int_add (-7) (int_rem r3 8))).

Definition blow_edge (g : Game) (tie edge : nat) (e : EXPL) : EXPL :=
  let t := item zero_tie (ties g) tie in
  Build_EXPL (expl_state e) (expl_counter e) (expl_color e)
    (alter (place_at t (edge_start g edge)) edge (expl_p1 e))
    (alter (place_at t (edge_end g edge)) edge (expl_p2 e))
    (<[edge := shrapnel g tie]> (expl_vel e)).

(** Edge [edge] of explosion [e] lies where the model's edge lies for a
    tie at [t]. *)
Definition edge_placed (g : Game) (t : TIE) (e : EXPL) (edge : nat) : Prop :=
  position (item zero_point (expl_p1 e) edge) = world_vertex t (edge_start g edge)
  /\ position (item zero_point (expl_p2 e) edge) = world_vertex t (edge_end g edge).

(** What [start_explosion_at] has done after [n] passes of its edge loop. *)
Definition started (g : Game) (tie index n : nat) (g' : Game) : Prop :=
  scene_part g' = scene_part g /\ fixed_part g' = fixed_part g
  /\ length (explosions g') = length (explosions g)
  /\ (forall j, j <> index -> explosions g' !! j = explosions g !! j)
  /\ exists e',
       explosions g' !! index = Some e'
       /\ expl_state e' = 1 /\ expl_counter e' = 0
       /\ expl_color e' = rgb_green g /\ edges_ok e'
       /\ forall edge, (edge < n)%nat ->
            edge_placed g (item zero_tie (ties g) tie) e' edge.

(** The spec's [project], in the spec's words: [perspX = viewDistance *
    worldX / worldZ], [perspY = viewDistance * worldY / worldZ], then
    [screenX = width/2 + perspX], [screenY = height/2 - perspY], the screen
    coordinates being the [int]s these values convert to. *)
Definition project (worldX worldY worldZ viewDistance : float32)
    (width height : Z) : Z * Z :=
  let perspX := F32.div (F32.mul viewDistance worldX) worldZ in
  let perspY := F32.div (F32.mul viewDistance worldY) worldZ in
  (int_of_float (F32.add (float_of_int (width / 2)) perspX),
   int_of_float (F32.sub (float_of_int (height / 2)) perspY)).

(** [project] on the screen and with the view distance of the sketch. *)
Definition project_here (x y z : float32) : Z * Z :=
  project x y z (float_of_int VIEW_DISTANCE) WINDOW_WIDTH WINDOW_HEIGHT.

(** ** Depths

    What the projections rely on: no depth is NaN, the model is flat (every
    vertex has z = +0.0), the two end points of an explosion's edge are at
    the same depth, and what is added to a depth each frame is finite. *)

(** Every element of an array, the default of an index out of range
    included, satisfies [P]. *)
Definition all_items {A : Type} (P : A -> Prop) (d : A) (l : list A) : Prop :=
  forall i, P (item d l i).

Definition star_good (s : POINT3D) : Prop := F32.is_nan (pt_z s) = false.

Definition vertex_flat (v : POINT3D) : Prop := pt_z v = fzero.

Definition tie_good (t : TIE) : Prop :=
  F32.is_nan (tie_z t) = false /\ F32.is_finite (tie_zv t) = true.

Definition expl_good (e : EXPL) : Prop :=
  length (expl_p1 e) = length (expl_p2 e)
  /\ forall j,
       pt_z (item zero_point (expl_p1 e) j) = pt_z (item zero_point (expl_p2 e) j)
       /\ F32.is_nan (pt_z (item zero_point (expl_p1 e) j)) = false
       /\ F32.is_finite (vec_z (item zero_vec (expl_vel e) j)) = true.

Definition depths_ok (g : Game) : Prop :=
  all_items vertex_flat zero_point (tie_vlist g)
  /\ length (stars g) = NUM_STARS
  /\ all_items star_good zero_point (stars g)
  /\ -128 <= player_z_vel g < 128
  /\ all_items tie_good zero_tie (ties g)
  /\ all_items expl_good zero_expl (explosions g).

(** The depth of a tie that is alive, and of every star, is beyond the near
    plane: what holds between the moves of a frame and its drawing. *)
Definition beyond_near (z : float32) : Prop :=
  F32.ltb (float_of_int NEAR_Z) z = true.

Definition ties_beyond_near (l : list TIE) : Prop :=
  forall i, (i < NUM_TIES)%nat ->
    tie_state (item zero_tie l i) <> 0 -> beyond_near (tie_z (item zero_tie l i)).

Definition stars_beyond_near (l : list POINT3D) : Prop :=
  forall i, (i < NUM_STARS)%nat -> beyond_near (pt_z (item zero_point l i)).

(** A perspective division is safe when its divisor is at least [NEAR_Z],
    and beyond it for a star or a tie. *)
Definition safe_event (ev : Event) : Prop :=
  match ev with
  | PerspDiv who _ den =>
      F32.leb (float_of_int NEAR_Z) den = true
      /\ (who <> OfExplosion -> F32.ltb (float_of_int NEAR_Z) den = true)
  | _ => True
  end.

(** C2 as the spec words it: every division of a projection is by a depth
    greater than [NEAR_Z]. *)
Definition beyond_event (ev : Event) : Prop :=
  match ev with
  | PerspDiv _ _ den => F32.ltb (float_of_int NEAR_Z) den = true
  | _ => True
  end.

(** A division of an explosion's projection by a depth equal to [NEAR_Z]. *)
Definition divides_by_near_z (ev : Event) : bool :=
  match ev with
  | PerspDiv OfExplosion _ den =>
      F32.leb den (float_of_int NEAR_Z) && F32.leb (float_of_int NEAR_Z) den
  | _ => false
  end.

(** A session in which the first tie comes straight at the viewer, at 71 a
    frame, and the shrapnel of its explosion drifts by 2 a frame. *)
Definition rand_head_on : nat -> N :=
  fun n =>
    if (n =? 72)%nat then 128%N
    else if (n =? 73)%nat then 160%N
    else if ((n =? 74) || (n =? 75))%nat then 4%N
    else if (n =? 76)%nat then 63%N
    else if ((77 <=? n) && (n <=? 81))%nat then 0%N
    else 5%N.

Definition right_only : Buttons :=
  Build_Buttons true false false false false false false.

(** A session whose two ties are out of step: the second one starts at 28 a
    frame, every later tie at 71 a frame from (-65, -97). *)
Definition rand_out_of_step : nat -> N :=
  fun n => if ((77 <=? n) && (n <? 82))%nat then 20%N else 63%N.

(** A session whose ties all start at 71 a frame from (-65, -97). *)
Definition rand_in_step : nat -> N := fun _ => 63%N.

(** ** Definitions for further properties of the code *)

(** Does a pass of [Process_Ties] find this tie past the near plane? *)
Definition escapes (t : TIE) : bool :=
  negb (tie_state t =? 0)
  && F32.leb (F32.add (tie_z t) (tie_zv t)) (float_of_int NEAR_Z).

(** The number of ties among the first [n] that escape. *)
Fixpoint escaped (l : list TIE) (n : nat) : Z :=
  match n with
  | O => 0
  | S n' => escaped l n' + (if escapes (item zero_tie l n') then 1 else 0)
  end.

(** The hits and the score. *)
Definition tally (g : Game) := (hits g, score g).

(** Is the fire button up in every frame of [inputs]? *)
Definition never_fires (inputs : list Buttons) : bool :=
  forallb (fun b => negb (btn_fire b)) inputs.

(** The explosions and the three counters. *)
Definition battle_part (g : Game) :=
  (explosions g, misses g, hits g, score g).

(** Nothing has been shot at: the cannon is ready, there is no hit, no
    score and no explosion. *)
Definition quiet (g : Game) : Prop :=
  cannon_state g = 0 /\ tally g = (0, 0)
  /\ explosions g = replicate NUM_EXPLOSIONS zero_expl.

(** A tie as [Init_Tie] makes it: alive, at a position of the viewing
    volume at the depth 2 * FAR_Z, with the velocity drawn by [rand()]. *)
Definition fresh_tie (t : TIE) : Prop :=
  exists kx ky kxv kyv kzv : Z,
    - WINDOW_WIDTH <= kx < WINDOW_WIDTH
    /\ - WINDOW_HEIGHT <= ky < WINDOW_HEIGHT
    /\ -4 <= kxv < 4 /\ -4 <= kyv < 4 /\ -71 <= kzv <= -8
    /\ t = Build_TIE 1 (float_of_int kx) (float_of_int ky)
             (float_of_int (2 * FAR_Z)) (float_of_int kxv)
             (float_of_int kyv) (float_of_int kzv).

(** A tie that is alive and flies towards the viewer: its velocity is one
    that [Init_Tie] draws. *)
Definition tie_approaching (t : TIE) : Prop :=
  tie_state t = 1
  /\ (exists k, -4 <= k < 4 /\ tie_xv t = float_of_int k)
  /\ (exists k, -4 <= k < 4 /\ tie_yv t = float_of_int k)
  /\ (exists k, -71 <= k <= -8 /\ tie_zv t = float_of_int k).

Definition tie_flying (t : TIE) : Prop :=
  tie_approaching t /\ beyond_near (tie_z t).

(** Every tie of the array satisfies [P]. *)
Definition every_tie (P : TIE -> Prop) (l : list TIE) : Prop :=
  forall i, (i < NUM_TIES)%nat -> P (item zero_tie l i).

(** The cannon at the end of a frame: ready with its counter at 0 (no shot
    yet) or 16 (after a shot), firing with the counter from 1 to 10, or
    cooling with the counter from 12 to 15. *)
Definition cannon_ok (g : Game) : Prop :=
  (cannon_state g = 0 /\ (cannon_count g = 0 \/ cannon_count g = 16))
  \/ (cannon_state g = 1 /\ 1 <= cannon_count g <= 10)
  \/ (cannon_state g = 2 /\ 12 <= cannon_count g <= 15).

(** An explosion is off with its counter at 0, or on with its counter from
    0 to 100. *)
Definition expl_ok (e : EXPL) : Prop :=
  (expl_state e = 0 /\ expl_counter e = 0)
  \/ (expl_state e = 1 /\ 0 <= expl_counter e <= 100).

(** Structural equality of two floats. *)
Definition f32_eqb (a b : float32) : bool :=
  match a, b with
  | S754_zero s, S754_zero s' => Bool.eqb s s'
  | S754_infinity s, S754_infinity s' => Bool.eqb s s'
  | S754_nan, S754_nan => true
  | S754_finite s m e, S754_finite s' m' e' =>
      Bool.eqb s s' && Pos.eqb m m' && Z.eqb e e'
  | _, _ => false
  end.

(** The crosshair after the right or the up button, and after the left or
    the down button, for an offset [k] on an axis of half length [half]. *)
Definition wrap_up (half k : Z) : Z :=
  if half <? k + CROSS_VEL then - half else k + CROSS_VEL.
Definition wrap_down (half k : Z) : Z :=
  if k - CROSS_VEL <? - half then half else k - CROSS_VEL.

(** The crosshair is at whole offsets from the centre, within half the
    screen on each axis, and its screen position is the one of the offsets. *)
Definition crosshair_ok (g : Game) : Prop :=
  exists kx ky : Z,
    - (WINDOW_WIDTH / 2) <= kx <= WINDOW_WIDTH / 2
    /\ - (WINDOW_HEIGHT / 2) <= ky <= WINDOW_HEIGHT / 2
    /\ cross_x g = float_of_int kx /\ cross_y g = float_of_int ky
    /\ cross_x_screen g = WINDOW_WIDTH / 2 + kx
    /\ cross_y_screen g = WINDOW_HEIGHT / 2 - ky.

(** A pixel drawn on the screen; other commands are left to the library. *)
Definition on_screen (ev : Event) : Prop :=
  match ev with
  | drawPixel x y _ => 0 <= x < WINDOW_WIDTH /\ 0 <= y < WINDOW_HEIGHT
  | _ => True
  end.

Definition is_text (ev : Event) : bool :=
  match ev with DrawText _ _ _ _ => true | _ => false end.

(** A line, or the division of a projection. *)
Definition line_or_division (ev : Event) : Prop :=
  match ev with
  | PerspDiv _ _ _ | drawLine _ _ _ _ _ => True
  | _ => False
  end.

(** A star as [Game_Init] makes it: white, at whole coordinates of the
    cylinder the comment of the source describes. *)
Definition fresh_star (s : POINT3D) : Prop :=
  exists kx ky kz : Z,
    -2 * WINDOW_WIDTH <= kx < 2 * WINDOW_WIDTH
    /\ -2 * WINDOW_HEIGHT <= ky < 2 * WINDOW_HEIGHT
    /\ NEAR_Z <= kz < FAR_Z / 2
    /\ s = Build_POINT3D (RGB16Bit 255 255 255)
             (float_of_int kx) (float_of_int ky) (float_of_int kz).

(** The four colours. *)
Definition colours (g : Game) :=
  (rgb_green g, rgb_white g, rgb_blue g, rgb_red g).

(** Every star of the array satisfies [P]. *)
Definition every_star (P : POINT3D -> Prop) (l : list POINT3D) : Prop :=
  forall i, (i < NUM_STARS)%nat -> P (item zero_point l i).

(** A star where [Game_Init] put it, whatever its depth. *)
Definition star_placed (s : POINT3D) : Prop :=
  exists kx ky : Z,
    -2 * WINDOW_WIDTH <= kx < 2 * WINDOW_WIDTH
    /\ -2 * WINDOW_HEIGHT <= ky < 2 * WINDOW_HEIGHT
    /\ pt_x s = float_of_int kx /\ pt_y s = float_of_int ky
    /\ pt_color s = RGB16Bit 255 255 255.

(** The beam of a frame: one line from a bottom corner of the screen to a
    point within the jitter of the target, in a shade of blue. *)
Definition beam_to (tx ty : Z) (ev : Event) : Prop :=
  match ev with
  | drawLine x1 y1 x2 y2 c =>
      (x1 = 0 \/ x1 = WINDOW_WIDTH - 1) /\ y1 = WINDOW_HEIGHT - 1
      /\ tx - 4 <= x2 <= tx + 3 /\ ty - 4 <= y2 <= ty + 3
      /\ exists blue, 128 <= blue <= 255 /\ c = RGB16Bit 32 32 blue
  | _ => False
  end.

(** The end points of the lines of a list of commands. *)
Definition end_points (evs : list Event) : list (Z * Z) :=
  flat_map
    (fun ev =>
       match ev with
       | drawLine x1 y1 x2 y2 _ => [(x1, y1); (x2, y2)]
       | _ => []
       end)
    evs.

(** The point is in the box, borders included. *)
Definition covers (box : BBox) (p : Z * Z) : Prop :=
  bmin_x box <= fst p <= bmax_x box /\ bmin_y box <= snd p <= bmax_y box.

(** A bound of the box is the "impossible value" it was reset to, or the
    coordinate of one of the points. *)
Definition reached (f : Z * Z -> Z) (init bound : Z) (pts : list (Z * Z))
    : Prop :=
  bound = init \/ exists p, In p pts /\ f p = bound.

(** The box of the points [pts], grown from [empty_box]. *)
Definition box_of (box : BBox) (pts : list (Z * Z)) : Prop :=
  Forall (covers box) pts
  /\ reached fst 4000 (bmin_x box) pts /\ reached fst (-4000) (bmax_x box) pts
  /\ reached snd 4000 (bmin_y box) pts /\ reached snd (-4000) (bmax_y box) pts.

(** The misses of a game that is running are from 0 to
    [TIES_MISSED_END_GAME]. *)
Definition in_play (g : Game) : Prop :=
  (game_state g = GAME_RUNNING /\ 0 <= misses g <= TIES_MISSED_END_GAME)
  \/ game_state g = GAME_OVER.

(** A velocity of shrapnel as [Start_Explosion] draws it on the depth axis:
    a whole number from -7 to 0, never away from the viewer. *)
Definition vel_ok (v : VEC3D) : Prop :=
  exists k, -7 <= k <= 0 /\ vec_z v = float_of_int k.

Definition expl_drifts (e : EXPL) : Prop :=
  all_items vel_ok zero_vec (expl_vel e).

(** Both ends of an edge of the model are vertices of the model. *)
Definition edge_in_bounds (ln : LINE3D) : Prop :=
  0 <= ln_v1 ln < Z.of_nat NUM_TIE_VERTS
  /\ 0 <= ln_v2 ln < Z.of_nat NUM_TIE_VERTS.

(** The star [s] has the x, the y and the colour of [s0]. *)
Definition same_place (s0 s : POINT3D) : Prop :=
  pt_x s = pt_x s0 /\ pt_y s = pt_y s0 /\ pt_color s = pt_color s0.

(** ** What the spec's [project] has the drawing functions draw *)

(** Is the point on the screen, as the test of [Draw_Starfield] has it? *)
Definition off_screen (p : Z * Z) : bool :=
  (WINDOW_WIDTH <=? fst p) || (fst p <? 0)
  || (WINDOW_HEIGHT <=? snd p) || (snd p <? 0).

(** The pixel of a star: [project] of its position, in its colour. *)
Definition star_pixel (s : POINT3D) : Event :=
  let p := project_here (pt_x s) (pt_y s) (pt_z s) in
  drawPixel (fst p) (snd p) (pt_color s).

(** The line of edge [edge] of the model for a tie at [t]: it joins
    [project] of the two vertices of the edge, translated to the tie. *)
Definition tie_edge_line (g : Game) (t : TIE) (color : Z) (edge : nat)
    : Event :=
  let a := edge_start g edge in
  let b := edge_end g edge in
  let p0 :=
    project_here (F32.add (tie_x t) (pt_x a)) (F32.add (tie_y t) (pt_y a))
      (F32.add (pt_z a) (tie_z t)) in
  let p1 :=
    project_here (F32.add (tie_x t) (pt_x b)) (F32.add (tie_y t) (pt_y b))
      (F32.add (pt_z b) (tie_z t)) in
  drawLine (fst p0) (snd p0) (fst p1) (snd p1) color.

(** The line of edge [edge] of an explosion: it joins [project] of the two
    end points of the edge. *)
Definition explosion_edge_line (e : EXPL) (edge : nat) : Event :=
  let p1 := item zero_point (expl_p1 e) edge in
  let p2 := item zero_point (expl_p2 e) edge in
  let q1 := project_here (pt_x p1) (pt_y p1) (pt_z p1) in
  let q2 := project_here (pt_x p2) (pt_y p2) (pt_z p2) in
  drawLine (fst q1) (snd q1) (fst q2) (snd q2) (expl_color e).

(** Is the edge behind the near plane, as the test of [Draw_Explosions] has
    it? *)
Definition edge_clipped (e : EXPL) (edge : nat) : bool :=
  F32.ltb (pt_z (item zero_point (expl_p1 e) edge)) (float_of_int NEAR_Z)
  && F32.ltb (pt_z (item zero_point (expl_p2 e) edge)) (float_of_int NEAR_Z).

(** ** The hit test *)

(** The bounding box [Draw_Ties] computes for a tie at [t]. *)
Definition tie_box (g : Game) (t : TIE) : BBox :=
  fst (for_loop NUM_TIE_EDGES (draw_tie_edge g t (tie_color t)) (empty_box, [])).

(** Does [Draw_Ties] find tie [index] shot: alive, the cannon firing, the
    latched target strictly inside the box of the tie? *)
Definition struck (g : Game) (index : nat) : bool :=
  let t := item zero_tie (ties g) index in
  negb (tie_state t =? 0) && (cannon_state g =? 1)
  && target_in_box g (tie_box g t).

(** The number of ties among the first [n] that are shot. *)
Fixpoint strikes (g : Game) (n : nat) : Z :=
  match n with
  | O => 0
  | S n' => strikes g n' + (if struck g n' then 1 else 0)
  end.

(** The state the drawing functions of a frame find: after the input
    block, the cannon's state machine and the three moves. *)
Definition drawn_state (b : Buttons) (g : Game) : Game :=
  Process_Explosions
    (Process_Ties (Move_Starfield (process_cannon (handle_input b g)))).
(** * Properties *)

(** ** Machine integers *)

Lemma to_int8_small (z : Z) : -128 <= z < 128 -> to_int8 z = z.
Proof. intros H. unfold to_int8. rewrite Z.mod_small; lia. Qed.

Lemma to_int8_range (z : Z) : -128 <= to_int8 z < 128.
Proof.
  unfold to_int8. pose proof (Z.mod_pos_bound (z + 128) 256 ltac:(lia)). lia.
Qed.

Lemma to_int16_small (z : Z) : -32768 <= z < 32768 -> to_int16 z = z.
Proof. intros H. unfold to_int16. rewrite Z.mod_small; lia. Qed.

Lemma int_rem_range (a b : Z) : 0 <= a -> 0 < b -> 0 <= int_rem a b < b.
Proof. intros Ha Hb. unfold int_rem. apply Z.rem_bound_pos; lia. Qed.

Lemma rand_nonneg (g : Game) : 0 <= fst (rand g).
Proof. simpl. lia. Qed.

(** A property checked on every integer of [lo, lo+n) holds on the range. *)
Lemma range_check (P : Z -> bool) (lo : Z) (n : nat) :
  forallb P (map (fun i => lo + Z.of_nat i) (seq 0 n)) = true ->
  forall k, lo <= k < lo + Z.of_nat n -> P k = true.
Proof.
  intros Hall k Hk. rewrite forallb_forall in Hall. apply Hall.
  apply in_map_iff. exists (Z.to_nat (k - lo)). split; [lia|].
  apply in_seq. lia.
Qed.

(** ** Loops *)

Lemma for_loop_S {S : Type} (n : nat) (body : nat -> S -> S) (s : S) :
  for_loop (Datatypes.S n) body s = body n (for_loop n body s).
Proof. unfold for_loop. rewrite seq_S, fold_left_app. reflexivity. Qed.

Lemma for_loop_ind {S : Type} (P : S -> Prop) (n : nat)
    (body : nat -> S -> S) (s : S) :
  P s ->
  (forall i s', (i < n)%nat -> P s' -> P (body i s')) ->
  P (for_loop n body s).
Proof.
  intros H0 Hstep. induction n as [|n IH]; [exact H0|].
  rewrite for_loop_S. apply Hstep; [lia|]. apply IH.
  intros i s' Hi. apply Hstep. lia.
Qed.

(** A loop that rewrites element [index] of an array on pass [index]. *)
Lemma for_loop_alter_lookup {A : Type} (f : A -> A) (n : nat) (l : list A)
    (j : nat) :
  for_loop n (fun index l => alter f index l) l !! j
  = if decide (j < n)%nat then f <$> l !! j else l !! j.
Proof.
  induction n as [|n IH]; [reflexivity|].
  rewrite for_loop_S. destruct (decide (j = n)) as [->|Hne].
  - rewrite list_lookup_alter_eq, IH.
    destruct (decide (n < n)%nat); [lia|].
    destruct (decide (n < Datatypes.S n)%nat); [reflexivity|lia].
  - rewrite list_lookup_alter_ne by congruence. rewrite IH.
    destruct (decide (j < n)%nat), (decide (j < Datatypes.S n)%nat);
      try reflexivity; lia.
Qed.

Lemma for_loop_alter_length {A : Type} (f : A -> A) (n : nat) (l : list A) :
  length (for_loop n (fun index l => alter f index l) l) = length l.
Proof.
  apply (for_loop_ind (fun l' => length l' = length l)); [reflexivity|].
  intros i l' _ H. rewrite length_alter. exact H.
Qed.

Lemma item_lookup {A : Type} (d : A) (l : list A) (i : nat) (x : A) :
  l !! i = Some x -> item d l i = x.
Proof. intros H. unfold item. rewrite H. reflexivity. Qed.

(** ** RGB16Bit: the 5-6-5 layout *)

Lemma pack565_fields (r5 g6 b5 : Z) :
  0 <= r5 < 32 -> 0 <= g6 < 64 -> 0 <= b5 < 32 ->
  pack565_sum r5 g6 b5 = pack565_or r5 g6 b5.
Proof.
  intros Hr Hg Hb.
  pose (check := fun r => forallb (fun g => forallb (fun b =>
      pack565_sum r g b =? pack565_or r g b)
      (map (fun i => 0 + Z.of_nat i) (seq 0 32)))
      (map (fun i => 0 + Z.of_nat i) (seq 0 64))).
  assert (Hall : forallb check (map (fun i => 0 + Z.of_nat i) (seq 0 32)) = true)
    by (vm_compute; reflexivity).
  pose proof (range_check check 0 32 Hall r5 ltac:(lia)) as H1.
  unfold check in H1.
  pose proof (range_check _ 0 64 H1 g6 ltac:(lia)) as H2. cbv beta in H2.
  pose proof (range_check _ 0 32 H2 b5 ltac:(lia)) as H3. cbv beta in H3.
  apply Z.eqb_eq. exact H3.
Qed.

Lemma shiftr_range (x n bound : Z) :
  0 <= n -> 0 <= x < bound * 2 ^ n -> 0 <= Z.shiftr x n < bound.
Proof.
  intros Hn Hx. rewrite Z.shiftr_div_pow2 by lia. split.
  - apply Z.div_pos; lia.
  - apply Z.div_lt_upper_bound; lia.
Qed.

(** C9. For all 8-bit channel values r, g and b, [RGB16Bit r g b] is
    [(b>>3) | ((g>>2)<<5) | ((r>>3)<<11)]: the sums of the code, taken in
    16-bit [int] arithmetic and converted to [uint16_t], give the value of
    the bitwise ors, the three fields lying on disjoint bits. *)
Theorem RGB16Bit_565 (r g b : Z) :
  0 <= r < 256 -> 0 <= g < 256 -> 0 <= b < 256 ->
  RGB16Bit r g b
  = Z.lor (Z.lor (Z.shiftr b 3) (Z.shiftl (Z.shiftr g 2) 5))
          (Z.shiftl (Z.shiftr r 3) 11).
Proof.
  intros Hr Hg Hb. unfold RGB16Bit, to_uint8, int_shr.
  rewrite !Z.mod_small by lia.
  apply (pack565_fields (Z.shiftr r 3) (Z.shiftr g 2) (Z.shiftr b 3)).
  - apply shiftr_range; lia.
  - apply shiftr_range; lia.
  - apply shiftr_range; lia.
Qed.

Lemma RGB16Bit_565_witness :
  RGB16Bit 32 32 200
  = Z.lor (Z.lor (Z.shiftr 200 3) (Z.shiftl (Z.shiftr 32 2) 5))
          (Z.shiftl (Z.shiftr 32 3) 11).
Proof. apply RGB16Bit_565; lia. Defined.

(** ** Floats: comparisons and NaN *)

Lemma f32_compare_antisym (x y : float32) (c : comparison) :
  SFcompare x y = Some c -> SFcompare y x = Some (CompOpp c).
Proof.
  destruct x as [sx|sx| |sx mx ex], y as [sy|sy| |sy my ey];
    cbn [SFcompare]; try discriminate;
    try (destruct sx; intros H; injection H as <-; reflexivity);
    try (destruct sy; intros H; injection H as <-; reflexivity);
    try (intros H; injection H as <-; reflexivity).
  - destruct sx, sy; intros H; injection H as <-; reflexivity.
  - intros H. injection H as <-. f_equal.
    rewrite (Z.compare_antisym ex ey).
    destruct sx, sy; try reflexivity.
    + destruct (ex ?= ey); cbn [CompOpp]; try reflexivity.
      rewrite (Pos.compare_cont_antisym mx my Eq). reflexivity.
    + destruct (ex ?= ey); cbn [CompOpp]; try reflexivity.
      rewrite (Pos.compare_cont_antisym mx my Eq). reflexivity.
Qed.

Lemma f32_compare_total (x y : float32) :
  F32.is_nan x = false -> F32.is_nan y = false ->
  exists c, SFcompare x y = Some c.
Proof.
  destruct x as [sx|sx| |sx mx ex], y as [sy|sy| |sy my ey];
    cbn [SFcompare F32.is_nan]; intros Hx Hy; try discriminate; eauto.
Qed.

(** Away from NaN, [!(x <= y)] is [y < x] and [!(x < y)] is [y <= x]. *)
Lemma f32_not_leb (x y : float32) :
  F32.is_nan x = false -> F32.is_nan y = false ->
  F32.leb x y = false -> F32.ltb y x = true.
Proof.
  intros Hx Hy. destruct (f32_compare_total x y Hx Hy) as [c Hc].
  unfold F32.leb, F32.ltb, SFleb, SFltb.
  rewrite (f32_compare_antisym x y c Hc), Hc.
  destruct c; cbn [CompOpp]; intros H; try discriminate H; reflexivity.
Qed.

Lemma f32_not_ltb (x y : float32) :
  F32.is_nan x = false -> F32.is_nan y = false ->
  F32.ltb x y = false -> F32.leb y x = true.
Proof.
  intros Hx Hy. destruct (f32_compare_total x y Hx Hy) as [c Hc].
  unfold F32.leb, F32.ltb, SFleb, SFltb.
  rewrite (f32_compare_antisym x y c Hc), Hc.
  destruct c; cbn [CompOpp]; intros H; try discriminate H; reflexivity.
Qed.

Lemma f32_ltb_not_nan (x y : float32) :
  F32.ltb x y = true -> F32.is_nan x = false /\ F32.is_nan y = false.
Proof.
  unfold F32.ltb, SFltb.
  destruct x as [sx|sx| |sx mx ex], y as [sy|sy| |sy my ey];
    cbn [SFcompare F32.is_nan]; intros H; try discriminate H; auto.
Qed.

(** Rounding a non-negative mantissa never gives NaN. *)
Lemma shr_1_nonneg (mrs : shr_record) : 0 <= shr_m mrs -> 0 <= shr_m (shr_1 mrs).
Proof.
  destruct mrs as [m r s]. cbn [shr_m]. intros H.
  destruct m as [|p|p]; [cbn; lia| |lia].
  destruct p; cbn; lia.
Qed.

Lemma iter_shr_1_nonneg (p : positive) (mrs : shr_record) :
  0 <= shr_m mrs -> 0 <= shr_m (SpecFloat.iter_pos shr_1 p mrs).
Proof.
  revert mrs. induction p as [p IH|p IH|]; intros mrs H; cbn [SpecFloat.iter_pos].
  - apply IH, IH, shr_1_nonneg, H.
  - apply IH, IH, H.
  - apply shr_1_nonneg, H.
Qed.

Lemma shr_fexp_nonneg (m e : Z) (l : location) :
  0 <= m -> 0 <= shr_m (fst (shr_fexp F32.prec F32.emax m e l)).
Proof.
  intros H. unfold shr_fexp, shr.
  assert (H0 : 0 <= shr_m (shr_record_of_loc m l))
    by (destruct l as [|[]]; exact H).
  destruct (_ - e) as [|p|p]; cbn [fst]; try exact H0.
  apply iter_shr_1_nonneg, H0.
Qed.

Lemma round_nearest_even_nonneg (m : Z) (l : location) :
  0 <= m -> 0 <= round_nearest_even m l.
Proof.
  intros H. unfold round_nearest_even.
  destruct l as [|[]]; try destruct (Z.even m); lia.
Qed.

Lemma binary_round_aux_not_nan (s : bool) (m e : Z) (l : location) :
  0 <= m -> F32.is_nan (binary_round_aux F32.prec F32.emax s m e l) = false.
Proof.
  intros H. unfold binary_round_aux.
  pose proof (shr_fexp_nonneg m e l H) as H1.
  destruct (shr_fexp F32.prec F32.emax m e l) as [mrs' e'].
  cbn [fst] in H1.
  pose proof (shr_fexp_nonneg
    (round_nearest_even (shr_m mrs') (loc_of_shr_record mrs')) e' loc_Exact
    (round_nearest_even_nonneg _ _ H1)) as H2.
  destruct (shr_fexp _ _ _ e' loc_Exact) as [mrs'' e''].
  cbn [fst] in H2.
  destruct (shr_m mrs'') as [|p|p]; [reflexivity| |lia].
  destruct (_ <=? _); reflexivity.
Qed.

Lemma binary_normalize_not_nan (m e : Z) (szero : bool) :
  F32.is_nan (binary_normalize F32.prec F32.emax m e szero) = false.
Proof.
  unfold binary_normalize, binary_round.
  destruct m as [|p|p]; [reflexivity| |].
  - destruct (shl_align _ _ _) as [mz ez].
    apply binary_round_aux_not_nan. lia.
  - destruct (shl_align _ _ _) as [mz ez].
    apply binary_round_aux_not_nan. lia.
Qed.

Lemma float_of_int_not_nan (z : Z) : F32.is_nan (float_of_int z) = false.
Proof. apply binary_normalize_not_nan. Qed.

Lemma f32_add_not_nan (x y : float32) :
  F32.is_nan x = false -> F32.is_finite y = true ->
  F32.is_nan (F32.add x y) = false.
Proof.
  unfold F32.add, SFadd.
  destruct x as [sx|sx| |sx mx ex], y as [sy|sy| |sy my ey];
    cbn [F32.is_nan F32.is_finite]; intros Hx Hy; try discriminate;
    try reflexivity.
  - destruct sx, sy; reflexivity.
  - apply binary_normalize_not_nan.
Qed.

Lemma f32_sub_not_nan (x y : float32) :
  F32.is_nan x = false -> F32.is_finite y = true ->
  F32.is_nan (F32.sub x y) = false.
Proof.
  unfold F32.sub, SFsub.
  destruct x as [sx|sx| |sx mx ex], y as [sy|sy| |sy my ey];
    cbn [F32.is_nan F32.is_finite]; intros Hx Hy; try discriminate;
    try reflexivity.
  - destruct sx, sy; reflexivity.
  - apply binary_normalize_not_nan.
Qed.

(** Adding [+0.0] to a depth beyond the near plane leaves it as it is. *)
Lemma f32_zero_add (z : float32) :
  F32.ltb (float_of_int NEAR_Z) z = true -> F32.add fzero z = z.
Proof.
  destruct z as [s|s| |s m e]; try reflexivity.
  intros H. vm_compute in H. discriminate H.
Qed.

Lemma f32_ltb_leb (x y : float32) : F32.ltb x y = true -> F32.leb x y = true.
Proof.
  unfold F32.ltb, F32.leb, SFltb, SFleb.
  destruct (SFcompare x y) as [[]|]; intros H; try discriminate H; reflexivity.
Qed.

(** [int8_t] values convert to finite floats. *)
Lemma float_of_int8_finite (v : Z) :
  -128 <= v < 128 -> F32.is_finite (float_of_int v) = true.
Proof.
  intros Hv.
  exact (range_check (fun k => F32.is_finite (float_of_int k)) (-128) 256
           ltac:(vm_compute; reflexivity) v ltac:(lia)).
Qed.

(** ** What the steps of a frame leave alone *)

Lemma tuple10_eq {A B C D E F G H I J : Type}
    (a a' : A) (b b' : B) (c c' : C) (d d' : D) (e e' : E) (f f' : F)
    (g g' : G) (h h' : H) (i i' : I) (j j' : J) :
  (a, b, c, d, e, f, g, h, i, j) = (a', b', c', d', e', f', g', h', i', j') ->
  a = a' /\ b = b' /\ c = c' /\ d = d' /\ e = e' /\ f = f' /\ g = g'
  /\ h = h' /\ i = i' /\ j = j'.
Proof. intros H0. injection H0. auto 20. Qed.

Lemma tuple7_eq {A B C D E F G : Type}
    (a a' : A) (b b' : B) (c c' : C) (d d' : D) (e e' : E) (f f' : F)
    (g g' : G) :
  (a, b, c, d, e, f, g) = (a', b', c', d', e', f', g') ->
  a = a' /\ b = b' /\ c = c' /\ d = d' /\ e = e' /\ f = f' /\ g = g'.
Proof. intros H0. injection H0. auto 20. Qed.

Lemma tuple4_eq {A B C D : Type} (a a' : A) (b b' : B) (c c' : C) (d d' : D) :
  (a, b, c, d) = (a', b', c', d') -> a = a' /\ b = b' /\ c = c' /\ d = d'.
Proof. intros H0. injection H0. auto. Qed.

Lemma player_part_eq (g' g : Game) :
  player_part g' = player_part g ->
  cross_x g' = cross_x g /\ cross_y g' = cross_y g
  /\ cross_x_screen g' = cross_x_screen g
  /\ cross_y_screen g' = cross_y_screen g
  /\ target_x_screen g' = target_x_screen g
  /\ target_y_screen g' = target_y_screen g
  /\ player_z_vel g' = player_z_vel g
  /\ cannon_state g' = cannon_state g
  /\ cannon_count g' = cannon_count g
  /\ game_state g' = game_state g.
Proof. unfold player_part. apply tuple10_eq. Qed.

Lemma fixed_part_eq (g' g : Game) :
  fixed_part g' = fixed_part g ->
  tie_vlist g' = tie_vlist g /\ tie_shape g' = tie_shape g
  /\ rgb_green g' = rgb_green g /\ rgb_white g' = rgb_white g
  /\ rgb_red g' = rgb_red g /\ rgb_blue g' = rgb_blue g
  /\ rand_seq g' = rand_seq g.
Proof. unfold fixed_part. apply tuple7_eq. Qed.

Lemma rand_player (g : Game) : player_part (snd (rand g)) = player_part g.
Proof. reflexivity. Qed.

Lemma Init_Tie_player (index : nat) (g : Game) :
  player_part (Init_Tie index g) = player_part g.
Proof. reflexivity. Qed.

Lemma Init_Tie_fixed (index : nat) (g : Game) :
  fixed_part (Init_Tie index g) = fixed_part g.
Proof. reflexivity. Qed.

Lemma explosion_edge_player (tie index edge : nat) (g : Game) :
  player_part (explosion_edge tie index edge g) = player_part g.
Proof. reflexivity. Qed.

Lemma explosion_edge_fixed (tie index edge : nat) (g : Game) :
  fixed_part (explosion_edge tie index edge g) = fixed_part g.
Proof. reflexivity. Qed.

Lemma start_explosion_at_player (tie index : nat) (g : Game) :
  player_part (start_explosion_at tie index g) = player_part g.
Proof.
  unfold start_explosion_at.
  apply (for_loop_ind (fun g' => player_part g' = player_part g));
    [reflexivity|].
  intros i g' _ H. rewrite explosion_edge_player. exact H.
Qed.

Lemma start_explosion_at_fixed (tie index : nat) (g : Game) :
  fixed_part (start_explosion_at tie index g) = fixed_part g.
Proof.
  unfold start_explosion_at.
  apply (for_loop_ind (fun g' => fixed_part g' = fixed_part g));
    [reflexivity|].
  intros i g' _ H. rewrite explosion_edge_fixed. exact H.
Qed.

Lemma Start_Explosion_player (tie : nat) (g : Game) :
  player_part (Start_Explosion tie g) = player_part g.
Proof.
  unfold Start_Explosion. induction (seq 0 NUM_EXPLOSIONS) as [|i l IH];
    simpl; [reflexivity|].
  destruct (_ =? 0); [apply start_explosion_at_player|exact IH].
Qed.

Lemma Start_Explosion_fixed (tie : nat) (g : Game) :
  fixed_part (Start_Explosion tie g) = fixed_part g.
Proof.
  unfold Start_Explosion. induction (seq 0 NUM_EXPLOSIONS) as [|i l IH];
    simpl; [reflexivity|].
  destruct (_ =? 0); [apply start_explosion_at_fixed|exact IH].
Qed.

Lemma hit_tie_player (index : nat) (g : Game) :
  player_part (hit_tie index g) = player_part g.
Proof.
  unfold hit_tie. rewrite Init_Tie_player.
  change (player_part (Start_Explosion index g) = player_part g).
  apply Start_Explosion_player.
Qed.

Lemma hit_tie_fixed (index : nat) (g : Game) :
  fixed_part (hit_tie index g) = fixed_part g.
Proof.
  unfold hit_tie. rewrite Init_Tie_fixed.
  change (fixed_part (Start_Explosion index g) = fixed_part g).
  apply Start_Explosion_fixed.
Qed.

Lemma Move_Starfield_player (g : Game) :
  player_part (Move_Starfield g) = player_part g.
Proof.
  unfold Move_Starfield.
  apply (for_loop_ind (fun g' => player_part g' = player_part g));
    [reflexivity|].
  intros i g' _ H. exact H.
Qed.

Lemma Move_Starfield_fixed (g : Game) :
  fixed_part (Move_Starfield g) = fixed_part g.
Proof.
  unfold Move_Starfield.
  apply (for_loop_ind (fun g' => fixed_part g' = fixed_part g));
    [reflexivity|].
  intros i g' _ H. exact H.
Qed.

Lemma process_tie_player (index : nat) (g : Game) :
  player_part (process_tie index g) = player_part g.
Proof.
  unfold process_tie. destruct (_ =? 0); [reflexivity|].
  destruct (F32.leb _ _); reflexivity.
Qed.

Lemma process_tie_fixed (index : nat) (g : Game) :
  fixed_part (process_tie index g) = fixed_part g.
Proof.
  unfold process_tie. destruct (_ =? 0); [reflexivity|].
  destruct (F32.leb _ _); reflexivity.
Qed.

Lemma Process_Ties_player (g : Game) :
  player_part (Process_Ties g) = player_part g.
Proof.
  unfold Process_Ties.
  apply (for_loop_ind (fun g' => player_part g' = player_part g));
    [reflexivity|].
  intros i g' _ H. rewrite process_tie_player. exact H.
Qed.

Lemma Process_Ties_fixed (g : Game) :
  fixed_part (Process_Ties g) = fixed_part g.
Proof.
  unfold Process_Ties.
  apply (for_loop_ind (fun g' => fixed_part g' = fixed_part g));
    [reflexivity|].
  intros i g' _ H. rewrite process_tie_fixed. exact H.
Qed.

Lemma Process_Explosions_player (g : Game) :
  player_part (Process_Explosions g) = player_part g.
Proof.
  unfold Process_Explosions.
  apply (for_loop_ind (fun g' => player_part g' = player_part g));
    [reflexivity|].
  intros i g' _ H. exact H.
Qed.

Lemma Process_Explosions_fixed (g : Game) :
  fixed_part (Process_Explosions g) = fixed_part g.
Proof.
  unfold Process_Explosions.
  apply (for_loop_ind (fun g' => fixed_part g' = fixed_part g));
    [reflexivity|].
  intros i g' _ H. exact H.
Qed.

Lemma draw_tie_edge_fst (g : Game) (t : TIE) (color : Z) (n : nat)
    (box : BBox) (evs : list Event) :
  exists box' evs',
    for_loop n (draw_tie_edge g t color) (box, evs) = (box', evs').
Proof.
  destruct (for_loop n (draw_tie_edge g t color) (box, evs)) as [b e].
  eauto.
Qed.

Lemma draw_tie_player (index : nat) (acc : Game * list Event) :
  player_part (fst (draw_tie index acc)) = player_part (fst acc).
Proof.
  destruct acc as [g evs]. unfold draw_tie.
  destruct (_ =? 0); [reflexivity|].
  destruct (for_loop _ _ _) as [box evs'].
  destruct (_ && _); [|reflexivity].
  simpl. apply hit_tie_player.
Qed.

Lemma draw_tie_fixed (index : nat) (acc : Game * list Event) :
  fixed_part (fst (draw_tie index acc)) = fixed_part (fst acc).
Proof.
  destruct acc as [g evs]. unfold draw_tie.
  destruct (_ =? 0); [reflexivity|].
  destruct (for_loop _ _ _) as [box evs'].
  destruct (_ && _); [|reflexivity].
  simpl. apply hit_tie_fixed.
Qed.

Lemma Draw_Ties_player (g : Game) :
  player_part (fst (Draw_Ties g)) = player_part g.
Proof.
  unfold Draw_Ties.
  apply (for_loop_ind (fun a => player_part (fst a) = player_part g));
    [reflexivity|].
  intros i a _ H. rewrite draw_tie_player. exact H.
Qed.

Lemma Draw_Ties_fixed (g : Game) :
  fixed_part (fst (Draw_Ties g)) = fixed_part g.
Proof.
  unfold Draw_Ties.
  apply (for_loop_ind (fun a => fixed_part (fst a) = fixed_part g));
    [reflexivity|].
  intros i a _ H. rewrite draw_tie_fixed. exact H.
Qed.

Lemma simulate_player (g : Game) : player_part (simulate g) = player_part g.
Proof.
  unfold simulate.
  rewrite Draw_Ties_player, Process_Explosions_player, Process_Ties_player.
  apply Move_Starfield_player.
Qed.

Lemma simulate_fixed (g : Game) : fixed_part (simulate g) = fixed_part g.
Proof.
  unfold simulate.
  rewrite Draw_Ties_fixed, Process_Explosions_fixed, Process_Ties_fixed.
  apply Move_Starfield_fixed.
Qed.

(** A frame is its steps in the order of the source. *)
Lemma frame_steps (g : Game) (b : Buttons) :
  frame g b = end_of_frame (simulate (process_cannon (handle_input b g))).
Proof.
  unfold frame, Game_Main, end_of_frame, simulate.
  destruct (Draw_Ties _) as [g1 ev1]. cbn [fst].
  destruct (draw_crosshair g1) as [g2 ev2]. cbn [fst].
  destruct (draw_beam g2) as [g3 ev3]. reflexivity.
Qed.

Lemma fold_left_cons {A B : Type} (f : A -> B -> A) (b : B) (bs : list B)
    (a : A) :
  fold_left f (b :: bs) a = fold_left f bs (f a b).
Proof. reflexivity. Qed.

Lemma run_cons (b : Buttons) (bs : list Buttons) (g : Game) :
  run (b :: bs) g = run bs (frame g b).
Proof. unfold run. apply fold_left_cons. Qed.

Lemma run_app (bs bs' : list Buttons) (g : Game) :
  run (bs ++ bs') g = run bs' (run bs g).
Proof. unfold run. apply fold_left_app. Qed.

(** ** The end of a frame *)

Lemma draw_beam_calls (g : Game) :
  fst (draw_beam g)
  = if cannon_state g =? 1 then set_rand_calls (4 + rand_calls g) g else g.
Proof.
  unfold draw_beam. destruct (cannon_state g =? 1); [|reflexivity].
  cbn [rand fst snd]. destruct (_ =? 1); reflexivity.
Qed.

Lemma end_of_frame_eq (g : Game) :
  end_of_frame g
  = let g1 :=
      set_cross_y_screen
        (int_of_float (F32.sub (float_of_int (WINDOW_HEIGHT / 2)) (cross_y g)))
        (set_cross_x_screen
           (int_of_float (F32.add (float_of_int (WINDOW_WIDTH / 2)) (cross_x g)))
           g) in
    let g2 :=
      if cannon_state g =? 1 then set_rand_calls (4 + rand_calls g) g1
      else g1 in
    if TIES_MISSED_END_GAME <? misses g then set_game_state GAME_OVER g2
    else g2.
Proof.
  unfold end_of_frame, check_game_over. rewrite draw_beam_calls.
  unfold draw_crosshair. cbn [fst]. cbv zeta.
  change (cannon_state (set_cross_y_screen _ (set_cross_x_screen _ g)))
    with (cannon_state g).
  destruct (cannon_state g =? 1); reflexivity.
Qed.

(** ** The cannon *)

Lemma frame_cannon (g : Game) (b : Buttons) :
  let g1 := process_cannon (handle_input b g) in
  cannon_state (frame g b) = cannon_state g1
  /\ cannon_count (frame g b) = cannon_count g1
  /\ target_x_screen (frame g b) = target_x_screen g1
  /\ target_y_screen (frame g b) = target_y_screen g1.
Proof.
  intros g1. rewrite frame_steps. fold g1.
  destruct (player_part_eq _ _ (simulate_player g1))
    as (_ & _ & _ & _ & Htx & Hty & _ & Hcs & Hcc & _).
  rewrite end_of_frame_eq. cbv zeta.
  set (g2 := simulate g1) in *. clearbody g2 g1.
  destruct (cannon_state g2 =? 1), (_ <? _);
    cbn [cannon_state cannon_count target_x_screen target_y_screen
         set_game_state set_rand_calls set_cross_x_screen set_cross_y_screen];
    auto.
Qed.

Lemma move_crosshair_cannon (b : Buttons) (g : Game) :
  let g1 := speed_control b (move_crosshair b g) in
  cannon_state g1 = cannon_state g /\ cannon_count g1 = cannon_count g
  /\ target_x_screen g1 = target_x_screen g
  /\ target_y_screen g1 = target_y_screen g
  /\ cross_x_screen g1 = cross_x_screen g
  /\ cross_y_screen g1 = cross_y_screen g
  /\ game_state g1 = game_state g.
Proof.
  unfold speed_control, move_crosshair.
  destruct (btn_right b), (btn_left b), (btn_down b), (btn_up b),
    (btn_fast b), (btn_slow b);
    cbv zeta;
    repeat match goal with |- context [if ?c then _ else _] => destruct c end;
    cbn; auto 10.
Qed.

(** Outside [ready] the input block leaves the cannon and the target alone. *)
Lemma handle_input_busy (b : Buttons) (g : Game) :
  cannon_state g <> 0 ->
  let g1 := handle_input b g in
  cannon_state g1 = cannon_state g /\ cannon_count g1 = cannon_count g
  /\ target_x_screen g1 = target_x_screen g
  /\ target_y_screen g1 = target_y_screen g.
Proof.
  intros Hbusy. unfold handle_input.
  destruct (game_state g =? GAME_RUNNING); [|auto].
  destruct (move_crosshair_cannon b g) as (Hs & Hc & Hx & Hy & _).
  unfold fire_cannon. rewrite Hs.
  destruct (Z.eqb_spec (cannon_state g) 0) as [E|_]; [contradiction|].
  rewrite andb_false_r. auto.
Qed.

Lemma handle_input_ready (b : Buttons) (g : Game) :
  cannon_state g = 0 ->
  let g1 := handle_input b g in
  if btn_fire b && (game_state g =? GAME_RUNNING)
  then cannon_state g1 = 1 /\ cannon_count g1 = 0
       /\ target_x_screen g1 = cross_x_screen g
       /\ target_y_screen g1 = cross_y_screen g
  else cannon_state g1 = 0 /\ cannon_count g1 = cannon_count g
       /\ target_x_screen g1 = target_x_screen g
       /\ target_y_screen g1 = target_y_screen g.
Proof.
  intros Hready. unfold handle_input.
  destruct (game_state g =? GAME_RUNNING).
  - destruct (move_crosshair_cannon b g) as (Hs & Hc & Hx & Hy & Hcx & Hcy & _).
    unfold fire_cannon. rewrite Hs, Hready. rewrite andb_true_r.
    set (g1 := speed_control b (move_crosshair b g)) in *. clearbody g1.
    destruct (btn_fire b); cbn; repeat split; congruence.
  - rewrite andb_false_r. auto.
Qed.

Lemma process_cannon_at (g : Game) (n : Z) :
  0 <= n < 15 ->
  cannon_state g = (if n =? 0 then 1 else cannon_phase n) ->
  cannon_count g = cannon_counter n ->
  let g1 := process_cannon g in
  cannon_state g1 = cannon_phase (n + 1)
  /\ cannon_count g1 = cannon_counter (n + 1)
  /\ target_x_screen g1 = target_x_screen g
  /\ target_y_screen g1 = target_y_screen g.
Proof.
  intros Hn Hs Hc.
  assert (Hk : exists k, (k < 15)%nat /\ n = Z.of_nat k)
    by (exists (Z.to_nat n); lia).
  destruct Hk as (k & Hk & ->). destruct g.
  do 15 (destruct k as [|k];
         [vm_compute in Hs, Hc; subst; vm_compute; auto|]).
  lia.
Qed.

Lemma cannon_at_frame (g : Game) (b : Buttons) (n tx ty : Z) :
  1 <= n < 15 -> cannon_at g n tx ty -> cannon_at (frame g b) (n + 1) tx ty.
Proof.
  intros Hn (Hs & Hc & Hx & Hy).
  assert (Hbusy : cannon_state g <> 0).
  { rewrite Hs. unfold cannon_phase.
    destruct (n <=? 10); [lia|]. destruct (Z.leb_spec n 14); lia. }
  destruct (handle_input_busy b g Hbusy) as (Hs1 & Hc1 & Hx1 & Hy1).
  destruct (frame_cannon g b) as (Fs & Fc & Fx & Fy).
  destruct (process_cannon_at (handle_input b g) n) as (Ps & Pc & Px & Py).
  - lia.
  - rewrite Hs1, Hs. destruct (Z.eqb_spec n 0); [lia|reflexivity].
  - rewrite Hc1, Hc. reflexivity.
  - unfold cannon_at. rewrite Fs, Fc, Fx, Fy, Ps, Pc, Px, Py, Hx1, Hy1. auto.
Qed.

Lemma cannon_at_run (bs : list Buttons) (g : Game) (n tx ty : Z) :
  1 <= n -> n + Z.of_nat (length bs) <= 15 ->
  cannon_at g n tx ty ->
  cannon_at (run bs g) (n + Z.of_nat (length bs)) tx ty.
Proof.
  revert g n. induction bs as [|b bs IH]; intros g n Hn Hlen Hat.
  - simpl. rewrite Z.add_0_r. exact Hat.
  - simpl length in *. rewrite run_cons.
    replace (n + Z.of_nat (S (length bs)))
      with ((n + 1) + Z.of_nat (length bs)) by lia.
    apply IH; [lia|lia|]. apply cannon_at_frame; [lia|exact Hat].
Qed.

(** The frame of the shot. *)
Lemma cannon_at_shot (g : Game) (b : Buttons) :
  game_state g = GAME_RUNNING -> cannon_state g = 0 -> btn_fire b = true ->
  cannon_at (frame g b) 1 (cross_x_screen g) (cross_y_screen g).
Proof.
  intros Hrun Hready Hfire.
  pose proof (handle_input_ready b g Hready) as Hin.
  rewrite Hfire, Hrun in Hin. cbn in Hin.
  destruct Hin as (Hs & Hc & Hx & Hy).
  destruct (frame_cannon g b) as (Fs & Fc & Fx & Fy).
  destruct (process_cannon_at (handle_input b g) 0) as (Ps & Pc & Px & Py);
    [lia|exact Hs|exact Hc|].
  unfold cannon_at. rewrite Fs, Fc, Fx, Fy, Ps, Pc, Px, Py, Hx, Hy. auto.
Qed.

Lemma process_cannon_ready (g : Game) :
  cannon_state g = 0 -> process_cannon g = g.
Proof.
  intros H. unfold process_cannon. rewrite H. cbn [Z.eqb]. rewrite H.
  reflexivity.
Qed.

Lemma handle_input_with_fire (v : bool) (b : Buttons) (g : Game) :
  cannon_state g <> 0 -> handle_input (with_fire v b) g = handle_input b g.
Proof.
  intros Hbusy. unfold handle_input.
  destruct (game_state g =? GAME_RUNNING); [|reflexivity].
  change (move_crosshair (with_fire v b) g) with (move_crosshair b g).
  change (speed_control (with_fire v b)) with (speed_control b).
  destruct (move_crosshair_cannon b g) as (Hs & _).
  set (g1 := speed_control b (move_crosshair b g)) in *. clearbody g1.
  unfold fire_cannon. rewrite Hs.
  destruct (Z.eqb_spec (cannon_state g) 0) as [E|_]; [contradiction|].
  rewrite !andb_false_r. reflexivity.
Qed.

Lemma cannon_trace_cycle (g : Game) (b : Buttons) (bs : list Buttons)
    (k : nat) :
  game_state g = GAME_RUNNING -> cannon_state g = 0 -> btn_fire b = true ->
  length bs = 14%nat -> (1 <= k <= 15)%nat ->
  cannon_at (run (firstn k (b :: bs)) g) (Z.of_nat k)
    (cross_x_screen g) (cross_y_screen g).
Proof.
  intros Hrun Hready Hfire Hlen Hk.
  destruct k as [|k]; [lia|]. rewrite firstn_cons, run_cons.
  replace (Z.of_nat (S k)) with (1 + Z.of_nat (length (firstn k bs))).
  - apply cannon_at_run; [lia| |].
    + rewrite length_firstn. lia.
    + apply cannon_at_shot; assumption.
  - rewrite length_firstn. lia.
Qed.

(** C1, as the code has it.  From [ready] a frame enters [firing] exactly
    when the fire button is pressed while the game is running, and latches
    the crosshair's screen position as the target; otherwise the cannon
    stays [ready].  After the shot the cannon is [firing] at the end of 10
    frames (the frame of the shot included), in [cooldown] at the end of
    the next 4, and [ready] again at the end of the 15th, whatever the
    buttons do meanwhile, the target staying as latched.  In a state other
    than [ready] the fire button changes nothing of the frame. *)
Theorem cannon_cycle :
  (forall (g : Game) (b : Buttons),
     cannon_state g = 0 ->
     if btn_fire b && (game_state g =? GAME_RUNNING)
     then cannon_state (frame g b) = 1
          /\ target_x_screen (frame g b) = cross_x_screen g
          /\ target_y_screen (frame g b) = cross_y_screen g
     else cannon_state (frame g b) = 0
          /\ target_x_screen (frame g b) = target_x_screen g
          /\ target_y_screen (frame g b) = target_y_screen g)
  /\ (forall (g : Game) (b : Buttons) (bs : list Buttons),
        game_state g = GAME_RUNNING -> cannon_state g = 0 ->
        btn_fire b = true -> length bs = 14%nat ->
        cannon_trace g (b :: bs) = [1; 1; 1; 1; 1; 1; 1; 1; 1; 1; 2; 2; 2; 2; 0]
        /\ forall k, (1 <= k <= 15)%nat ->
             target_x_screen (run (firstn k (b :: bs)) g) = cross_x_screen g
             /\ target_y_screen (run (firstn k (b :: bs)) g) = cross_y_screen g)
  /\ (forall (g : Game) (b : Buttons) (v : bool),
        cannon_state g <> 0 -> Game_Main (with_fire v b) g = Game_Main b g).
Proof.
  split; [|split].
  - intros g b Hready.
    pose proof (handle_input_ready b g Hready) as Hin. cbv zeta in Hin.
    destruct (frame_cannon g b) as (Fs & _ & Fx & Fy). rewrite Fs, Fx, Fy.
    set (g1 := handle_input b g) in *. clearbody g1.
    destruct (btn_fire b && (game_state g =? GAME_RUNNING)).
    + destruct Hin as (Hs & Hc & Hx & Hy).
      destruct (process_cannon_at g1 0) as (Ps & _ & Px & Py);
        [lia|exact Hs|exact Hc|].
      rewrite Ps, Px, Py. auto.
    + destruct Hin as (Hs & _ & Hx & Hy).
      rewrite (process_cannon_ready g1 Hs). auto.
  - intros g b bs Hrun Hready Hfire Hlen. split.
    + unfold cannon_trace. cbn [length]. rewrite Hlen.
      transitivity (map (fun k => cannon_phase (Z.of_nat k)) (seq 1 15)).
      * apply map_ext_in. intros k Hk. apply in_seq in Hk.
        apply (cannon_trace_cycle g b bs k Hrun Hready Hfire Hlen). lia.
      * vm_compute. reflexivity.
    + intros k Hk.
      destruct (cannon_trace_cycle g b bs k Hrun Hready Hfire Hlen Hk)
        as (_ & _ & Hx & Hy).
      auto.
  - intros g b v Hbusy. unfold Game_Main.
    rewrite (handle_input_with_fire v b g Hbusy). reflexivity.
Qed.

(** ** The input block and the state machine leave the world alone *)

Lemma move_crosshair_world (b : Buttons) : keeps_world (move_crosshair b).
Proof.
  intros g. unfold move_crosshair.
  destruct (btn_right b), (btn_left b), (btn_down b), (btn_up b);
    cbv zeta;
    repeat match goal with |- context [if ?c then _ else _] => destruct c end;
    cbn; auto.
Qed.

Lemma speed_control_world (b : Buttons) : keeps_world (speed_control b).
Proof.
  intros g. unfold speed_control.
  destruct (btn_fast b), (btn_slow b); cbn; auto.
Qed.

Lemma fire_cannon_world (b : Buttons) : keeps_world (fire_cannon b).
Proof.
  intros g. unfold fire_cannon. destruct (_ && _); cbn; auto.
Qed.

Lemma handle_input_world (b : Buttons) (g : Game) :
  world_part (handle_input b g) = world_part g
  /\ fixed_part (handle_input b g) = fixed_part g
  /\ game_state (handle_input b g) = game_state g.
Proof.
  unfold handle_input.
  destruct (game_state g =? GAME_RUNNING); [|auto].
  destruct (move_crosshair_world b g) as (W1 & F1 & G1).
  destruct (speed_control_world b (move_crosshair b g)) as (W2 & F2 & G2).
  destruct (fire_cannon_world b (speed_control b (move_crosshair b g)))
    as (W3 & F3 & G3).
  rewrite W3, F3, G3, W2, F2, G2. auto.
Qed.

Lemma existsb_eq_in {A : Type} (f f' : A -> bool) (l : list A) :
  (forall x, In x l -> f x = f' x) -> existsb f l = existsb f' l.
Proof.
  induction l as [|a l IH]; intros H; [reflexivity|].
  cbn [existsb]. rewrite (H a (or_introl eq_refl)), IH; [reflexivity|].
  intros x Hx. apply H. right. exact Hx.
Qed.

Lemma process_cannon_world (g : Game) :
  world_part (process_cannon g) = world_part g
  /\ fixed_part (process_cannon g) = fixed_part g
  /\ game_state (process_cannon g) = game_state g
  /\ cross_x (process_cannon g) = cross_x g
  /\ cross_y (process_cannon g) = cross_y g
  /\ player_z_vel (process_cannon g) = player_z_vel g
  /\ cross_x_screen (process_cannon g) = cross_x_screen g
  /\ cross_y_screen (process_cannon g) = cross_y_screen g
  /\ target_x_screen (process_cannon g) = target_x_screen g
  /\ target_y_screen (process_cannon g) = target_y_screen g.
Proof.
  unfold process_cannon. cbv zeta.
  repeat match goal with |- context [if ?c then _ else _] => destruct c end;
    cbn; auto 20.
Qed.

Lemma end_of_frame_fields (g : Game) :
  let g' := end_of_frame g in
  misses g' = misses g /\ hits g' = hits g /\ score g' = score g
  /\ ties g' = ties g /\ stars g' = stars g /\ explosions g' = explosions g
  /\ cross_x g' = cross_x g /\ cross_y g' = cross_y g
  /\ player_z_vel g' = player_z_vel g
  /\ target_x_screen g' = target_x_screen g
  /\ target_y_screen g' = target_y_screen g
  /\ fixed_part g' = fixed_part g
  /\ game_state g'
     = (if TIES_MISSED_END_GAME <? misses g then GAME_OVER else game_state g).
Proof.
  cbv zeta. rewrite end_of_frame_eq. cbv zeta.
  destruct (cannon_state g =? 1), (TIES_MISSED_END_GAME <? misses g);
    cbn; auto 20.
Qed.

(** ** The game-state flag *)

Lemma frame_game_state (g : Game) (b : Buttons) :
  game_state (frame g b)
  = if TIES_MISSED_END_GAME <? misses (frame g b) then GAME_OVER
    else game_state g.
Proof.
  rewrite frame_steps.
  destruct (handle_input_world b g) as (_ & _ & H1).
  destruct (process_cannon_world (handle_input b g)) as (_ & _ & H2 & _).
  destruct (player_part_eq _ _ (simulate_player (process_cannon (handle_input b g))))
    as (_ & _ & _ & _ & _ & _ & _ & _ & _ & H3).
  set (g3 := simulate _) in *. clearbody g3.
  destruct (end_of_frame_fields g3) as (Hm & _ & _ & _ & _ & _ & _ & _ & _ & _ & _ & _ & Hg).
  rewrite Hg, Hm, H3, H2, H1. reflexivity.
Qed.

Lemma init_star_player (index : nat) (g : Game) :
  player_part (init_star index g) = player_part g.
Proof. reflexivity. Qed.

Lemma Game_Init_player (g : Game) : player_part (Game_Init g) = player_part g.
Proof.
  unfold Game_Init.
  apply (for_loop_ind (fun g' => player_part g' = player_part g)).
  - apply (for_loop_ind (fun g' => player_part g' = player_part g)).
    + apply (for_loop_ind (fun g' => player_part g' = player_part g)).
      * apply (for_loop_ind (fun g' => player_part g' = player_part g));
          [reflexivity|].
        intros i g' _ H. rewrite init_star_player. exact H.
      * intros i g' _ H. exact H.
    + intros i g' _ H. exact H.
  - intros i g' _ H. rewrite Init_Tie_player. exact H.
Qed.

Lemma session_start (rs : nat -> N) :
  game_state (session rs []) = GAME_RUNNING.
Proof.
  unfold session, run. cbn [fold_left].
  destruct (player_part_eq _ _ (Game_Init_player (Game_start rs)))
    as (_ & _ & _ & _ & _ & _ & _ & _ & _ & H).
  rewrite H. reflexivity.
Qed.

Lemma session_snoc (rs : nat -> N) (inputs : list Buttons) (b : Buttons) :
  session rs (inputs ++ [b]) = frame (session rs inputs) b.
Proof. unfold session. rewrite run_app. reflexivity. Qed.

Lemma session_app (rs : nat -> N) (inputs more : list Buttons) :
  session rs (inputs ++ more) = run more (session rs inputs).
Proof. unfold session. apply run_app. Qed.

Lemma run_stays_over (more : list Buttons) (g : Game) :
  game_state g = GAME_OVER -> game_state (run more g) = GAME_OVER.
Proof.
  revert g. induction more as [|b more IH]; intros g H; [exact H|].
  rewrite run_cons. apply IH. rewrite frame_game_state, H.
  destruct (_ <? _); reflexivity.
Qed.

(** C3. In every session the flag is [GAME_OVER] after a frame exactly when
    that frame or an earlier one ended with the miss counter above
    [TIES_MISSED_END_GAME], and [GAME_RUNNING] otherwise: it changes on the
    first such frame, once, and whatever is played after a state that is
    over, the state stays over. *)
Theorem game_over_once (rs : nat -> N) (inputs : list Buttons) :
  game_state (session rs inputs)
  = (if missed_too_many rs inputs (length inputs) then GAME_OVER
     else GAME_RUNNING)
  /\ forall more : list Buttons,
       game_state (session rs inputs) = GAME_OVER ->
       game_state (session rs (inputs ++ more)) = GAME_OVER.
Proof.
  split.
  - induction inputs as [|b inputs IH] using rev_ind.
    + apply session_start.
    + rewrite length_app. cbn [length]. rewrite Nat.add_1_r.
      unfold missed_too_many. rewrite seq_S, existsb_app. cbn [existsb].
      rewrite orb_false_r. cbn [Nat.add].
      replace (firstn (S (length inputs)) (inputs ++ [b])) with (inputs ++ [b])
        by (symmetry; apply firstn_all2; rewrite length_app; cbn; lia).
      replace (existsb _ (seq 1 (length inputs)))
        with (missed_too_many rs inputs (length inputs)).
      * rewrite session_snoc, frame_game_state, IH.
        destruct (missed_too_many rs inputs (length inputs)),
          (TIES_MISSED_END_GAME <? misses (frame (session rs inputs) b));
          reflexivity.
      * unfold missed_too_many. apply existsb_eq_in.
        intros k Hk. apply in_seq in Hk.
        rewrite firstn_app.
        replace (k - length inputs)%nat with 0%nat by lia.
        cbn [firstn]. rewrite app_nil_r. reflexivity.
  - intros more H. rewrite session_app. apply run_stays_over. exact H.
Qed.

(** ** The crosshair *)

Lemma frame_player (g : Game) (b : Buttons) :
  cross_x (frame g b) = cross_x (handle_input b g)
  /\ cross_y (frame g b) = cross_y (handle_input b g)
  /\ player_z_vel (frame g b) = player_z_vel (handle_input b g).
Proof.
  rewrite frame_steps.
  destruct (process_cannon_world (handle_input b g))
    as (_ & _ & _ & Hx & Hy & Hv & _).
  destruct (player_part_eq _ _ (simulate_player (process_cannon (handle_input b g))))
    as (Sx & Sy & _ & _ & _ & _ & Sv & _).
  set (g3 := simulate _) in *. clearbody g3.
  destruct (end_of_frame_fields g3)
    as (_ & _ & _ & _ & _ & _ & Ex & Ey & Ev & _).
  rewrite Ex, Ey, Ev, Sx, Sy, Sv, Hx, Hy, Hv. auto.
Qed.

Lemma handle_input_cross (b : Buttons) (g : Game) :
  game_state g = GAME_RUNNING ->
  cross_x (handle_input b g) = cross_x (move_crosshair b g)
  /\ cross_y (handle_input b g) = cross_y (move_crosshair b g).
Proof.
  intros Hrun. unfold handle_input. rewrite Hrun. cbn [Z.eqb GAME_RUNNING Pos.eqb].
  unfold fire_cannon, speed_control.
  set (g1 := move_crosshair b g). clearbody g1.
  destruct (btn_fast b), (btn_slow b);
    repeat match goal with |- context [if ?c then _ else _] => destruct c end;
    cbn; auto.
Qed.

(** C8, as the code has it.  In a frame of the running game: with the
    right button held, if the horizontal offset plus [CROSS_VEL] exceeds
    half the screen width, the offset becomes exactly minus half the screen
    width, whatever the left button does; with the left button held and the
    right one up, if the offset minus [CROSS_VEL] is below minus half the
    width it becomes exactly plus half the width; and likewise for the
    vertical offset and half the screen height, with the down button, which
    the code tests first, and the up button, which acts only when the down
    button is up. *)
Theorem crosshair_wraps (g : Game) (b : Buttons) :
  game_state g = GAME_RUNNING ->
  (btn_right b = true ->
   F32.ltb (float_of_int (WINDOW_WIDTH / 2))
     (F32.add (cross_x g) (float_of_int CROSS_VEL)) = true ->
   cross_x (frame g b) = float_of_int (- (WINDOW_WIDTH / 2)))
  /\ (btn_right b = false -> btn_left b = true ->
      F32.ltb (F32.sub (cross_x g) (float_of_int CROSS_VEL))
        (float_of_int (- (WINDOW_WIDTH / 2))) = true ->
      cross_x (frame g b) = float_of_int (WINDOW_WIDTH / 2))
  /\ (btn_down b = true ->
      F32.ltb (F32.sub (cross_y g) (float_of_int CROSS_VEL))
        (float_of_int (- (WINDOW_HEIGHT / 2))) = true ->
      cross_y (frame g b) = float_of_int (WINDOW_HEIGHT / 2))
  /\ (btn_down b = false -> btn_up b = true ->
      F32.ltb (float_of_int (WINDOW_HEIGHT / 2))
        (F32.add (cross_y g) (float_of_int CROSS_VEL)) = true ->
      cross_y (frame g b) = float_of_int (- (WINDOW_HEIGHT / 2))).
Proof.
  intros Hrun.
  destruct (frame_player g b) as (Fx & Fy & _).
  destruct (handle_input_cross b g Hrun) as (Hx & Hy).
  rewrite Fx, Fy, Hx, Hy. clear Fx Fy Hx Hy.
  unfold move_crosshair.
  change (Z.quot (- WINDOW_WIDTH) 2) with (- (WINDOW_WIDTH / 2)).
  change (Z.quot (- WINDOW_HEIGHT) 2) with (- (WINDOW_HEIGHT / 2)).
  repeat split.
  - intros Hr Hlt. rewrite Hr. cbv zeta.
    cbn [cross_x set_cross_x]. rewrite Hlt.
    destruct (btn_down b), (btn_up b);
      repeat match goal with |- context [if ?c then _ else _] => destruct c end;
      reflexivity.
  - intros Hr Hl Hlt. rewrite Hr, Hl. cbv zeta.
    cbn [cross_x set_cross_x]. rewrite Hlt.
    destruct (btn_down b), (btn_up b);
      repeat match goal with |- context [if ?c then _ else _] => destruct c end;
      reflexivity.
  - intros Hd Hlt. rewrite Hd. cbv zeta.
    destruct (btn_right b), (btn_left b);
      repeat match goal with
             | |- context [if F32.ltb ?a ?b then _ else _] =>
                 destruct (F32.ltb a b) eqn:?
             end;
      cbn [cross_y set_cross_y set_cross_x] in *;
      congruence.
  - intros Hd Hu Hlt. rewrite Hd, Hu. cbv zeta.
    destruct (btn_right b), (btn_left b);
      repeat match goal with
             | |- context [if F32.ltb ?a ?b then _ else _] =>
                 destruct (F32.ltb a b) eqn:?
             end;
      cbn [cross_y set_cross_y set_cross_x] in *;
      congruence.
Qed.

(** ** A frame of a game that is over *)

Lemma handle_input_over (b : Buttons) (g : Game) :
  game_state g = GAME_OVER -> handle_input b g = g.
Proof. intros H. unfold handle_input. rewrite H. reflexivity. Qed.


(** ** Move_Starfield *)

Lemma for_loop_keeps {S T : Type} (f : S -> T) (n : nat)
    (body : nat -> S -> S) (s : S) :
  (forall i s', f (body i s') = f s') -> f (for_loop n body s) = f s.
Proof.
  intros H. apply (for_loop_ind (fun s' => f s' = f s)); [reflexivity|].
  intros i s' _ Hs. rewrite H. exact Hs.
Qed.

Lemma Move_Starfield_stars (g : Game) :
  stars (Move_Starfield g)
  = for_loop NUM_STARS
      (fun index l => alter (move_star (player_z_vel g)) index l) (stars g).
Proof.
  unfold Move_Starfield. generalize NUM_STARS as n.
  induction n as [|n IH]; [reflexivity|].
  rewrite !for_loop_S. cbn [stars set_stars]. rewrite IH. f_equal. f_equal.
  apply (for_loop_keeps player_z_vel). reflexivity.
Qed.

Lemma Move_Starfield_lookup (g : Game) (index : nat) :
  stars (Move_Starfield g) !! index
  = if decide (index < NUM_STARS)%nat
    then move_star (player_z_vel g) <$> stars g !! index
    else stars g !! index.
Proof. rewrite Move_Starfield_stars. apply for_loop_alter_lookup. Qed.

Lemma Move_Starfield_length (g : Game) :
  length (stars (Move_Starfield g)) = length (stars g).
Proof. rewrite Move_Starfield_stars. apply for_loop_alter_length. Qed.

Lemma process_tie_stars (index : nat) (g : Game) :
  stars (process_tie index g) = stars g.
Proof.
  unfold process_tie. destruct (_ =? 0); [reflexivity|].
  destruct (F32.leb _ _); reflexivity.
Qed.

Lemma Start_Explosion_stars (tie : nat) (g : Game) :
  stars (Start_Explosion tie g) = stars g.
Proof.
  unfold Start_Explosion. induction (seq 0 NUM_EXPLOSIONS) as [|i l IH];
    cbn [Start_Explosion_hunt]; [reflexivity|].
  destruct (_ =? 0); [|exact IH].
  unfold start_explosion_at. rewrite (for_loop_keeps stars); reflexivity.
Qed.

Lemma hit_tie_stars (index : nat) (g : Game) : stars (hit_tie index g) = stars g.
Proof.
  unfold hit_tie.
  change (stars (Start_Explosion index g) = stars g).
  apply Start_Explosion_stars.
Qed.

Lemma draw_tie_stars (index : nat) (acc : Game * list Event) :
  stars (fst (draw_tie index acc)) = stars (fst acc).
Proof.
  destruct acc as [g evs]. unfold draw_tie.
  destruct (_ =? 0); [reflexivity|].
  destruct (for_loop _ _ _) as [box evs'].
  destruct (_ && _); [|reflexivity].
  cbn [fst]. apply hit_tie_stars.
Qed.

Lemma simulate_stars (g : Game) : stars (simulate g) = stars (Move_Starfield g).
Proof.
  unfold simulate, Draw_Ties.
  rewrite (for_loop_keeps (fun a => stars (fst a)))
    by (intros; apply draw_tie_stars).
  cbn [fst]. unfold Process_Explosions.
  rewrite (for_loop_keeps stars) by reflexivity.
  unfold Process_Ties.
  apply (for_loop_keeps stars). intros. apply process_tie_stars.
Qed.

Lemma world_part_stars (g' g : Game) :
  world_part g' = world_part g -> stars g' = stars g.
Proof. unfold world_part. intros H. apply tuple7_eq in H. tauto. Qed.

Lemma frame_stars (g : Game) (b : Buttons) :
  stars (frame g b)
  = stars (Move_Starfield (process_cannon (handle_input b g))).
Proof.
  rewrite frame_steps.
  set (g1 := process_cannon (handle_input b g)).
  rewrite <- simulate_stars. set (g3 := simulate g1). clearbody g3.
  destruct (end_of_frame_fields g3) as (_ & _ & _ & _ & Hs & _). exact Hs.
Qed.

(** C4. One pass of [Move_Starfield] over star [index]: x, y and the
    colour are kept; the depth is lowered by the player's velocity and, when
    that brings it to [NEAR_Z] or below, set to exactly [FAR_Z].  No pass
    and no frame removes a star, and a whole frame leaves x, y and the
    colour of every star as they were. *)
Theorem star_recycling (g : Game) (index : nat) (s : POINT3D) :
  (index < NUM_STARS)%nat -> stars g !! index = Some s ->
  let z' := F32.sub (pt_z s) (float_of_int (player_z_vel g)) in
  (exists s',
     stars (Move_Starfield g) !! index = Some s'
     /\ pt_x s' = pt_x s /\ pt_y s' = pt_y s /\ pt_color s' = pt_color s
     /\ (F32.leb z' (float_of_int NEAR_Z) = true ->
         pt_z s' = float_of_int FAR_Z)
     /\ (F32.leb z' (float_of_int NEAR_Z) = false -> pt_z s' = z'))
  /\ length (stars (Move_Starfield g)) = length (stars g)
  /\ forall b : Buttons,
       length (stars (frame g b)) = length (stars g)
       /\ exists s'',
            stars (frame g b) !! index = Some s''
            /\ pt_x s'' = pt_x s /\ pt_y s'' = pt_y s
            /\ pt_color s'' = pt_color s.
Proof.
  intros Hi Hs z'. split; [|split].
  - exists (move_star (player_z_vel g) s). split.
    + rewrite Move_Starfield_lookup, Hs.
      destruct (decide (index < NUM_STARS)%nat); [reflexivity|contradiction].
    + unfold move_star. fold z'.
      cbn [pt_x pt_y pt_z pt_color].
      destruct (F32.leb z' (float_of_int NEAR_Z));
        repeat split; try reflexivity; intros; discriminate.
  - apply Move_Starfield_length.
  - intros b. rewrite frame_stars.
    destruct (handle_input_world b g) as (W1 & _).
    destruct (process_cannon_world (handle_input b g)) as (W2 & _).
    apply world_part_stars in W1, W2.
    set (g1 := process_cannon (handle_input b g)) in *.
    assert (Hs1 : stars g1 !! index = Some s) by (rewrite W2, W1; exact Hs).
    split.
    + rewrite Move_Starfield_length, W2, W1. reflexivity.
    + exists (move_star (player_z_vel g1) s). split.
      * rewrite Move_Starfield_lookup, Hs1.
        destruct (decide (index < NUM_STARS)%nat); [reflexivity|contradiction].
      * cbn [move_star pt_x pt_y pt_color]. auto.
Qed.

(** ** Init_Tie *)

Lemma small_velocity_floats (k : Z) :
  -4 <= k < 4 ->
  F32.leb (float_of_int (-4)) (float_of_int k) = true
  /\ F32.leb (float_of_int k) (float_of_int 4) = true
  /\ F32.is_finite (float_of_int k) = true.
Proof.
  intros Hk.
  pose proof (range_check
    (fun k => F32.leb (float_of_int (-4)) (float_of_int k)
              && F32.leb (float_of_int k) (float_of_int 4)
              && F32.is_finite (float_of_int k))
    (-4) 8 ltac:(vm_compute; reflexivity) k ltac:(lia)) as H.
  cbv beta in H. apply andb_prop in H as [H H3]. apply andb_prop in H as [H1 H2].
  auto.
Qed.

Lemma depth_velocity_floats (k : Z) :
  -71 <= k <= -8 ->
  F32.ltb (float_of_int k) fzero = true
  /\ F32.is_finite (float_of_int k) = true.
Proof.
  intros Hk.
  pose proof (range_check
    (fun k => F32.ltb (float_of_int k) fzero && F32.is_finite (float_of_int k))
    (-71) 64 ltac:(vm_compute; reflexivity) k ltac:(lia)) as H.
  cbv beta in H. apply andb_prop in H. exact H.
Qed.

Lemma Init_Tie_ties (index : nat) (g : Game) :
  exists kx ky kxv kyv kzv : Z,
    - WINDOW_WIDTH <= kx < WINDOW_WIDTH
    /\ - WINDOW_HEIGHT <= ky < WINDOW_HEIGHT
    /\ -4 <= kxv < 4 /\ -4 <= kyv < 4 /\ -71 <= kzv <= -8
    /\ ties (Init_Tie index g)
       = <[index := Build_TIE 1 (float_of_int kx) (float_of_int ky)
                      (float_of_int (2 * FAR_Z)) (float_of_int kxv)
                      (float_of_int kyv) (float_of_int kzv)]> (ties g).
Proof.
  unfold Init_Tie, rand. cbn [fst snd rand_seq rand_calls set_rand_calls
    set_ties ties].
  set (r1 := Z.of_N _). set (r2 := Z.of_N _). set (r3 := Z.of_N _).
  set (r4 := Z.of_N _). set (r5 := Z.of_N _).
  assert (H1 : 0 <= r1) by apply N2Z.is_nonneg.
  assert (H2 : 0 <= r2) by apply N2Z.is_nonneg.
  assert (H3 : 0 <= r3) by apply N2Z.is_nonneg.
  assert (H4 : 0 <= r4) by apply N2Z.is_nonneg.
  assert (H5 : 0 <= r5) by apply N2Z.is_nonneg.
  clearbody r1 r2 r3 r4 r5.
  pose proof (int_rem_range r1 (2 * WINDOW_WIDTH) H1 ltac:(reflexivity)).
  pose proof (int_rem_range r2 (2 * WINDOW_HEIGHT) H2 ltac:(reflexivity)).
  pose proof (int_rem_range r3 8 H3 ltac:(reflexivity)).
  pose proof (int_rem_range r4 8 H4 ltac:(reflexivity)).
  pose proof (int_rem_range r5 64 H5 ltac:(reflexivity)).
  unfold WINDOW_WIDTH, WINDOW_HEIGHT in *.
  assert (E1 : int_add (- (128)) (int_rem r1 (2 * 128))
               = -128 + int_rem r1 (2 * 128))
    by (unfold int_add; rewrite to_int16_small; lia).
  assert (E2 : int_add (- (160)) (int_rem r2 (2 * 160))
               = -160 + int_rem r2 (2 * 160))
    by (unfold int_add; rewrite to_int16_small; lia).
  assert (E3 : int_add (-4) (int_rem r3 8) = -4 + int_rem r3 8)
    by (unfold int_add; rewrite to_int16_small; lia).
  assert (E4 : int_add (-4) (int_rem r4 8) = -4 + int_rem r4 8)
    by (unfold int_add; rewrite to_int16_small; lia).
  assert (E5 : int_sub (-8) (int_rem r5 64) = -8 - int_rem r5 64)
    by (unfold int_sub; rewrite to_int16_small; lia).
  rewrite E1, E2, E3, E4, E5.
  exists (-128 + int_rem r1 (2 * 128)), (-160 + int_rem r2 (2 * 160)),
    (-4 + int_rem r3 8), (-4 + int_rem r4 8), (-8 - int_rem r5 64).
  repeat split; try lia.
Qed.

(** C5. Whatever the entity at [index] was, dead or alive, [Init_Tie]
    leaves there an entity that is alive, at depth exactly [2*FAR_Z], with
    lateral velocities the integers of -4..3 (within the symmetric range
    from -4 to 4) and a depth velocity among the integers of -71..-8,
    strictly negative. *)
Theorem Init_Tie_respawn (index : nat) (g : Game) :
  (index < length (ties g))%nat ->
  exists t : TIE,
    ties (Init_Tie index g) !! index = Some t
    /\ tie_state t = 1
    /\ tie_z t = float_of_int (2 * FAR_Z)
    /\ (exists k, tie_xv t = float_of_int k /\ -4 <= k <= 3)
    /\ F32.leb (float_of_int (-4)) (tie_xv t) = true
    /\ F32.leb (tie_xv t) (float_of_int 4) = true
    /\ (exists k, tie_yv t = float_of_int k /\ -4 <= k <= 3)
    /\ F32.leb (float_of_int (-4)) (tie_yv t) = true
    /\ F32.leb (tie_yv t) (float_of_int 4) = true
    /\ (exists k, tie_zv t = float_of_int k /\ -71 <= k <= -8)
    /\ F32.ltb (tie_zv t) (float_of_int 0) = true.
Proof.
  intros Hi.
  destruct (Init_Tie_ties index g)
    as (kx & ky & kxv & kyv & kzv & Hx & Hy & Hxv & Hyv & Hzv & Heq).
  eexists. split.
  - rewrite Heq. apply list_lookup_insert_eq. exact Hi.
  - cbn [tie_state tie_z tie_xv tie_yv tie_zv].
    destruct (small_velocity_floats kxv Hxv) as (X1 & X2 & _).
    destruct (small_velocity_floats kyv Hyv) as (Y1 & Y2 & _).
    destruct (depth_velocity_floats kzv Hzv) as (Z1 & _).
    repeat split; try assumption.
    + exists kxv. split; [reflexivity|lia].
    + exists kyv. split; [reflexivity|lia].
    + exists kzv. split; [reflexivity|lia].
Qed.

(** ** Start_Explosion *)

Lemma for_loop_ind_idx {S : Type} (P : nat -> S -> Prop) (n : nat)
    (body : nat -> S -> S) (s : S) :
  P 0%nat s ->
  (forall i s', (i < n)%nat -> P i s' -> P (Datatypes.S i) (body i s')) ->
  P n (for_loop n body s).
Proof.
  intros H0 Hstep. induction n as [|n IH]; [exact H0|].
  rewrite for_loop_S. apply Hstep; [lia|]. apply IH.
  intros i s' Hi. apply Hstep. lia.
Qed.

Lemma item_alter_eq {A : Type} (d : A) (f : A -> A) (l : list A) (i : nat) :
  (i < length l)%nat -> item d (alter f i l) i = f (item d l i).
Proof.
  intros Hi. unfold item. rewrite list_lookup_alter_eq.
  destruct (lookup_lt_is_Some_2 l i Hi) as [x Hx]. rewrite Hx. reflexivity.
Qed.

Lemma item_alter_ne {A : Type} (d : A) (f : A -> A) (l : list A) (i j : nat) :
  i <> j -> item d (alter f i l) j = item d l j.
Proof. intros H. unfold item. rewrite list_lookup_alter_ne by exact H. reflexivity. Qed.

Lemma item_insert_eq {A : Type} (d : A) (x : A) (l : list A) (i : nat) :
  (i < length l)%nat -> item d (<[i := x]> l) i = x.
Proof.
  intros Hi. unfold item. rewrite list_lookup_insert_eq by exact Hi. reflexivity.
Qed.

Lemma item_insert_ne {A : Type} (d : A) (x : A) (l : list A) (i j : nat) :
  i <> j -> item d (<[i := x]> l) j = item d l j.
Proof. intros H. unfold item. rewrite list_lookup_insert_ne by exact H. reflexivity. Qed.

Lemma explosion_edge_scene (tie index edge : nat) (g : Game) :
  scene_part (explosion_edge tie index edge g) = scene_part g.
Proof. reflexivity. Qed.

Lemma start_explosion_at_scene (tie index : nat) (g : Game) :
  scene_part (start_explosion_at tie index g) = scene_part g.
Proof.
  unfold start_explosion_at. rewrite (for_loop_keeps scene_part); reflexivity.
Qed.

Lemma Start_Explosion_scene (tie : nat) (g : Game) :
  scene_part (Start_Explosion tie g) = scene_part g.
Proof.
  unfold Start_Explosion. induction (seq 0 NUM_EXPLOSIONS) as [|i l IH];
    cbn [Start_Explosion_hunt]; [reflexivity|].
  destruct (_ =? 0); [apply start_explosion_at_scene|exact IH].
Qed.

Lemma scene_part_eq (g' g : Game) :
  scene_part g' = scene_part g ->
  ties g' = ties g /\ stars g' = stars g /\ misses g' = misses g
  /\ hits g' = hits g /\ score g' = score g.
Proof.
  unfold scene_part. intros H. injection H. auto.
Qed.

(** The hunt stops at the first free explosion, if there is one. *)
Lemma hunt_none (tie : nat) (l : list nat) (g : Game) :
  (forall i, In i l -> expl_state (explosion g i) <> 0) ->
  Start_Explosion_hunt tie l g = g.
Proof.
  induction l as [|i l IH]; intros H; [reflexivity|].
  cbn [Start_Explosion_hunt]. fold (explosion g i).
  destruct (Z.eqb_spec (expl_state (explosion g i)) 0) as [E|_].
  - exfalso. apply (H i); [left; reflexivity|exact E].
  - apply IH. intros j Hj. apply H. right. exact Hj.
Qed.

Lemma hunt_first (tie : nat) (l1 l2 : list nat) (i : nat) (g : Game) :
  (forall j, In j l1 -> expl_state (explosion g j) <> 0) ->
  expl_state (explosion g i) = 0 ->
  Start_Explosion_hunt tie (l1 ++ i :: l2) g = start_explosion_at tie i g.
Proof.
  induction l1 as [|j l1 IH]; intros H Hi.
  - cbn [app Start_Explosion_hunt]. fold (explosion g i). rewrite Hi.
    reflexivity.
  - cbn [app Start_Explosion_hunt]. fold (explosion g j).
    destruct (Z.eqb_spec (expl_state (explosion g j)) 0) as [E|_].
    + exfalso. apply (H j); [left; reflexivity|exact E].
    + apply IH; [|exact Hi]. intros k Hk. apply H. right. exact Hk.
Qed.

Lemma Start_Explosion_first (tie index : nat) (g : Game) :
  (index < NUM_EXPLOSIONS)%nat ->
  (forall j, (j < index)%nat -> expl_state (explosion g j) <> 0) ->
  expl_state (explosion g index) = 0 ->
  Start_Explosion tie g = start_explosion_at tie index g.
Proof.
  intros Hi Hbusy Hfree. unfold Start_Explosion.
  replace (seq 0 NUM_EXPLOSIONS)
    with (seq 0 index ++ index :: seq (S index) (NUM_EXPLOSIONS - S index)).
  - apply hunt_first; [|exact Hfree].
    intros j Hj. apply in_seq in Hj. apply Hbusy. lia.
  - change (index :: seq (S index) (NUM_EXPLOSIONS - S index))
      with (seq index (S (NUM_EXPLOSIONS - S index))).
    rewrite <- seq_app. f_equal. lia.
Qed.

Lemma explosion_edge_explosions (tie index edge : nat) (g : Game) :
  explosions (explosion_edge tie index edge g)
  = alter (blow_edge g tie edge) index (explosions g).
Proof. reflexivity. Qed.

Lemma blow_edge_ok (g : Game) (tie edge : nat) (e : EXPL) :
  edges_ok e -> edges_ok (blow_edge g tie edge e).
Proof.
  intros (H1 & H2 & H3). unfold edges_ok, blow_edge.
  cbn [expl_p1 expl_p2 expl_vel]. rewrite !length_alter, length_insert. auto.
Qed.

Lemma blow_edge_placed (g : Game) (tie edge : nat) (e : EXPL) :
  edges_ok e -> (edge < NUM_TIE_EDGES)%nat ->
  edge_placed g (item zero_tie (ties g) tie) (blow_edge g tie edge e) edge.
Proof.
  intros (H1 & H2 & H3) He. unfold edge_placed, blow_edge.
  cbn [expl_p1 expl_p2]. rewrite !item_alter_eq by lia. split; reflexivity.
Qed.

Lemma blow_edge_other (g g0 : Game) (tie edge j : nat) (t : TIE) (e : EXPL) :
  j <> edge -> edge_placed g0 t e j ->
  edge_placed g0 t (blow_edge g tie edge e) j.
Proof.
  intros Hne Hp. unfold edge_placed, blow_edge in *.
  cbn [expl_p1 expl_p2]. rewrite !item_alter_ne by congruence. exact Hp.
Qed.

Lemma start_explosion_at_started (tie index : nat) (g : Game) :
  arrays_ok g -> (index < NUM_EXPLOSIONS)%nat ->
  started g tie index NUM_TIE_EDGES (start_explosion_at tie index g).
Proof.
  intros (_ & _ & _ & _ & Hlen & Hall) Hi. unfold start_explosion_at.
  assert (Hsome : is_Some (explosions g !! index))
    by (apply lookup_lt_is_Some_2; lia).
  destruct Hsome as [e He].
  assert (Hok : edges_ok e).
  { rewrite Forall_forall in Hall. apply Hall.
    apply list_elem_of_lookup. eauto. }
  apply (for_loop_ind_idx (started g tie index)).
  - unfold started. cbn [explosions set_explosions].
    split; [reflexivity|]. split; [reflexivity|].
    split; [apply length_alter|].
    split; [intros j Hj; apply list_lookup_alter_ne; congruence|].
    eexists. split.
    + rewrite list_lookup_alter_eq, He. reflexivity.
    + cbn [expl_state expl_counter expl_color].
      split; [reflexivity|]. split; [reflexivity|]. split; [reflexivity|].
      split; [exact Hok|]. intros edge Hedge. lia.
  - intros i g' Hlt (Hsc & Hfx & Hl & Hoth & e' & He' & Hs & Hc & Hcol & Hok' & Hpl).
    unfold started.
    rewrite explosion_edge_scene, explosion_edge_fixed,
      explosion_edge_explosions.
    split; [exact Hsc|]. split; [exact Hfx|].
    split; [rewrite length_alter; exact Hl|].
    split.
    { intros j Hj. rewrite list_lookup_alter_ne by congruence. apply Hoth, Hj. }
    exists (blow_edge g' tie i e'). split.
    { rewrite list_lookup_alter_eq, He'. reflexivity. }
    split; [exact Hs|]. split; [exact Hc|]. split; [exact Hcol|].
    split; [apply blow_edge_ok, Hok'|].
    intros edge Hedge.
    destruct (scene_part_eq _ _ Hsc) as (Hties & _).
    destruct (fixed_part_eq _ _ Hfx) as (Hvl & Hsh & _).
    assert (Hstart : forall k, edge_start g' k = edge_start g k)
      by (intros k; unfold edge_start; rewrite Hvl, Hsh; reflexivity).
    assert (Hend : forall k, edge_end g' k = edge_end g k)
      by (intros k; unfold edge_end; rewrite Hvl, Hsh; reflexivity).
    destruct (decide (edge = i)) as [->|Hne].
    + pose proof (blow_edge_placed g' tie i e' Hok' Hlt) as Hp.
      unfold edge_placed in *. rewrite Hstart, Hend, Hties in Hp. exact Hp.
    + apply blow_edge_other; [exact Hne|]. apply Hpl. lia.
Qed.

Lemma hit_tie_scored (tie : nat) (g : Game) :
  hits (hit_tie tie g) = to_int8 (hits g + 1)
  /\ score (hit_tie tie g) = score_after_hit g tie
  /\ misses (hit_tie tie g) = misses g.
Proof.
  unfold hit_tie, score_after_hit.
  destruct (scene_part_eq _ _ (Start_Explosion_scene tie g))
    as (Ht & _ & Hm & Hh & Hs).
  set (g1 := Start_Explosion tie g) in *. clearbody g1.
  cbn [hits score misses Init_Tie rand fst snd set_ties set_rand_calls
       set_hits set_score ties].
  rewrite Ht, Hh, Hs, Hm. auto.
Qed.

(** C6. [Start_Explosion] on a pool with no free explosion returns the
    state as it got it.  Otherwise it takes the first free explosion, and
    only that one: it is made active with counter 0 and the colour
    [rgb_green], each of its edges has its two end points where the model's
    edge lies for the tie, the other explosions, the ties, the stars, the
    counters, the score, the player's variables and the model are as
    before.  Either way the hit is scored: [hit_tie] adds one to [hits] and
    the tie's depth to [score]. *)
Theorem explosion_trigger (tie : nat) (g : Game) :
  arrays_ok g ->
  ((forall index, (index < NUM_EXPLOSIONS)%nat ->
      expl_state (explosion g index) <> 0) ->
   Start_Explosion tie g = g)
  /\ (forall index,
        (index < NUM_EXPLOSIONS)%nat ->
        expl_state (explosion g index) = 0 ->
        (forall j, (j < index)%nat -> expl_state (explosion g j) <> 0) ->
        let g' := Start_Explosion tie g in
        expl_state (explosion g' index) = 1
        /\ expl_counter (explosion g' index) = 0
        /\ expl_color (explosion g' index) = rgb_green g
        /\ (forall edge, (edge < NUM_TIE_EDGES)%nat ->
              edge_placed g (item zero_tie (ties g) tie)
                (explosion g' index) edge)
        /\ (forall j, j <> index -> explosions g' !! j = explosions g !! j)
        /\ length (explosions g') = length (explosions g)
        /\ scene_part g' = scene_part g
        /\ player_part g' = player_part g
        /\ fixed_part g' = fixed_part g)
  /\ hits (hit_tie tie g) = to_int8 (hits g + 1)
  /\ score (hit_tie tie g) = score_after_hit g tie
  /\ misses (hit_tie tie g) = misses g.
Proof.
  intros Hok. split; [|split].
  - intros Hbusy. unfold Start_Explosion. apply hunt_none.
    intros i Hi. apply in_seq in Hi. apply Hbusy. lia.
  - intros index Hi Hfree Hbusy g'.
    pose proof (Start_Explosion_player tie g) as Hpl.
    subst g'. rewrite (Start_Explosion_first tie index g Hi Hbusy Hfree) in *.
    destruct (start_explosion_at_started tie index g Hok Hi)
      as (Hsc & Hfx & Hl & Hoth & e' & He' & Hs & Hc & Hcol & _ & Hplaced).
    set (g' := start_explosion_at tie index g) in *. clearbody g'.
    unfold explosion at 1 2 3 4. rewrite (item_lookup _ _ _ _ He').
    auto 10.
  - apply hit_tie_scored.
Qed.

(** ** Projection *)

Lemma in_app_singleton {A : Type} (x y : A) (l : list A) :
  In x (l ++ [y]) -> In x l \/ x = y.
Proof.
  intros H. apply in_app_or in H as [H|[H|[]]]; [left; exact H|right; auto].
Qed.


(** ** Depths: arrays *)

Lemma item_alter_cases {A : Type} (d : A) (f : A -> A) (l : list A) (i j : nat) :
  item d (alter f i l) j = item d l j
  \/ (j = i /\ (i < length l)%nat /\ item d (alter f i l) j = f (item d l i)).
Proof.
  destruct (decide (j = i)) as [->|Hne].
  - destruct (decide (i < length l)%nat) as [Hlt|Hge].
    + right. split; [reflexivity|]. split; [exact Hlt|].
      apply item_alter_eq, Hlt.
    + left. unfold item. rewrite list_lookup_alter_eq.
      rewrite (lookup_ge_None_2 l i) by lia. reflexivity.
  - left. apply item_alter_ne. congruence.
Qed.

Lemma item_insert_cases {A : Type} (d : A) (x : A) (l : list A) (i j : nat) :
  item d (<[i := x]> l) j = item d l j
  \/ (j = i /\ (i < length l)%nat /\ item d (<[i := x]> l) j = x).
Proof.
  destruct (decide (j = i)) as [->|Hne].
  - destruct (decide (i < length l)%nat) as [Hlt|Hge].
    + right. split; [reflexivity|]. split; [exact Hlt|].
      apply item_insert_eq, Hlt.
    + left. rewrite list_insert_ge by lia. reflexivity.
  - left. apply item_insert_ne. congruence.
Qed.

Lemma all_items_alter {A : Type} (P : A -> Prop) (d : A) (f : A -> A)
    (l : list A) (i : nat) :
  all_items P d l -> (P (item d l i) -> P (f (item d l i))) ->
  all_items P d (alter f i l).
Proof.
  intros Hall Hf j.
  destruct (item_alter_cases d f l i j) as [->|(-> & _ & ->)].
  - apply Hall.
  - apply Hf, Hall.
Qed.

Lemma all_items_insert {A : Type} (P : A -> Prop) (d : A) (x : A)
    (l : list A) (i : nat) :
  all_items P d l -> P x -> all_items P d (<[i := x]> l).
Proof.
  intros Hall Hx j.
  destruct (item_insert_cases d x l i j) as [->|(-> & _ & ->)].
  - apply Hall.
  - exact Hx.
Qed.

Lemma all_items_replicate {A : Type} (P : A -> Prop) (d : A) (n : nat) :
  P d -> all_items P d (replicate n d).
Proof.
  intros Hd i. unfold item.
  destruct (replicate n d !! i) as [x|] eqn:E; [|exact Hd].
  apply lookup_replicate in E as [-> _]. exact Hd.
Qed.

Lemma all_items_for_loop_alter {A : Type} (P : A -> Prop) (d : A)
    (f : A -> A) (n : nat) (l : list A) :
  all_items P d l -> (forall x, P x -> P (f x)) ->
  all_items P d (for_loop n (fun index l => alter f index l) l).
Proof.
  intros Hall Hf.
  apply (for_loop_ind (all_items P d)); [exact Hall|].
  intros i l' _ Hl'. apply all_items_alter; [exact Hl'|apply Hf].
Qed.

(** ** Depths: the steps of a frame *)

Lemma depths_ok_transfer (g g' : Game) :
  tie_vlist g' = tie_vlist g -> stars g' = stars g ->
  player_z_vel g' = player_z_vel g -> ties g' = ties g ->
  explosions g' = explosions g ->
  depths_ok g -> depths_ok g'.
Proof.
  intros H1 H2 H3 H4 H5. unfold depths_ok. rewrite H1, H2, H3, H4, H5. auto.
Qed.

Lemma world_part_eq (g' g : Game) :
  world_part g' = world_part g ->
  ties g' = ties g /\ stars g' = stars g /\ explosions g' = explosions g
  /\ misses g' = misses g /\ hits g' = hits g /\ score g' = score g
  /\ rand_calls g' = rand_calls g.
Proof. unfold world_part. apply tuple7_eq. Qed.

Lemma speed_control_vel (b : Buttons) (g : Game) :
  -128 <= player_z_vel g < 128 -> -128 <= player_z_vel (speed_control b g) < 128.
Proof.
  intros H. unfold speed_control.
  destruct (btn_fast b); [apply to_int8_range|].
  destruct (btn_slow b); [apply to_int8_range|exact H].
Qed.

Lemma move_crosshair_vel (b : Buttons) (g : Game) :
  player_z_vel (move_crosshair b g) = player_z_vel g.
Proof.
  unfold move_crosshair.
  destruct (btn_right b), (btn_left b), (btn_down b), (btn_up b);
    cbv zeta;
    repeat match goal with |- context [if ?c then _ else _] => destruct c end;
    reflexivity.
Qed.

Lemma handle_input_vel (b : Buttons) (g : Game) :
  -128 <= player_z_vel g < 128 -> -128 <= player_z_vel (handle_input b g) < 128.
Proof.
  intros H. unfold handle_input.
  destruct (game_state g =? GAME_RUNNING); [|exact H].
  unfold fire_cannon.
  assert (H1 : -128 <= player_z_vel (speed_control b (move_crosshair b g)) < 128)
    by (apply speed_control_vel; rewrite move_crosshair_vel; exact H).
  set (g1 := speed_control b (move_crosshair b g)) in *. clearbody g1.
  destruct (_ && _); exact H1.
Qed.

Lemma handle_input_depths (b : Buttons) (g : Game) :
  depths_ok g -> depths_ok (handle_input b g).
Proof.
  intros (Hv & Hl & Hs & Hp & Ht & He).
  destruct (handle_input_world b g) as (W & F & _).
  apply world_part_eq in W as (Wt & Ws & We & _).
  apply fixed_part_eq in F as (Fv & _).
  pose proof (handle_input_vel b g Hp) as Hp'.
  unfold depths_ok. rewrite Fv, Ws, Wt, We. auto 10.
Qed.

Lemma process_cannon_depths (g : Game) :
  depths_ok g -> depths_ok (process_cannon g).
Proof.
  destruct (process_cannon_world g) as (W & F & _ & _ & _ & Hp & _).
  apply world_part_eq in W as (Wt & Ws & We & _).
  apply fixed_part_eq in F as (Fv & _).
  apply depths_ok_transfer; assumption.
Qed.

Lemma end_of_frame_depths (g : Game) : depths_ok g -> depths_ok (end_of_frame g).
Proof.
  destruct (end_of_frame_fields g)
    as (_ & _ & _ & Ht & Hs & He & _ & _ & Hp & _ & _ & F & _).
  apply fixed_part_eq in F as (Fv & _).
  apply depths_ok_transfer; assumption.
Qed.

Lemma move_star_beyond (v : Z) (s : POINT3D) :
  -128 <= v < 128 -> star_good s ->
  star_good (move_star v s) /\ beyond_near (pt_z (move_star v s)).
Proof.
  intros Hv Hs. unfold star_good, beyond_near, move_star in *.
  cbn [pt_z].
  assert (Hn : F32.is_nan (F32.sub (pt_z s) (float_of_int v)) = false)
    by (apply f32_sub_not_nan; [exact Hs|apply float_of_int8_finite, Hv]).
  set (z := F32.sub (pt_z s) (float_of_int v)) in *. clearbody z.
  destruct (F32.leb z (float_of_int NEAR_Z)) eqn:E.
  - split; vm_compute; reflexivity.
  - split; [exact Hn|].
    apply f32_not_leb; [exact Hn|apply float_of_int_not_nan|exact E].
Qed.

Lemma Move_Starfield_rest (g : Game) :
  tie_vlist (Move_Starfield g) = tie_vlist g
  /\ player_z_vel (Move_Starfield g) = player_z_vel g
  /\ ties (Move_Starfield g) = ties g
  /\ explosions (Move_Starfield g) = explosions g.
Proof.
  unfold Move_Starfield.
  pose proof (for_loop_keeps
    (fun g => (tie_vlist g, player_z_vel g, ties g, explosions g)) NUM_STARS
    (fun index g =>
       set_stars (alter (move_star (player_z_vel g)) index (stars g)) g) g
    ltac:(reflexivity)) as H.
  cbv beta in H. apply tuple4_eq in H. exact H.
Qed.

Lemma Move_Starfield_depths (g : Game) :
  depths_ok g ->
  depths_ok (Move_Starfield g) /\ stars_beyond_near (stars (Move_Starfield g)).
Proof.
  intros (Hv & Hl & Hs & Hp & Ht & He).
  destruct (Move_Starfield_rest g) as (Rv & Rp & Rt & Re).
  split.
  - unfold depths_ok. rewrite Rv, Rp, Rt, Re, Move_Starfield_length.
    refine (conj Hv (conj Hl (conj _ (conj Hp (conj Ht He))))).
    rewrite Move_Starfield_stars.
    apply all_items_for_loop_alter; [exact Hs|].
    intros s Hgood. apply move_star_beyond; assumption.
  - intros i Hi. unfold item. rewrite Move_Starfield_lookup.
    destruct (decide (i < NUM_STARS)%nat) as [_|Hn]; [|contradiction].
    destruct (lookup_lt_is_Some_2 (stars g) i ltac:(lia)) as [s Hsi].
    rewrite Hsi. cbn [fmap option_fmap option_map default].
    apply move_star_beyond; [exact Hp|].
    specialize (Hs i). unfold item in Hs. rewrite Hsi in Hs. exact Hs.
Qed.

(** ** Depths: Init_Tie and Process_Ties *)

Lemma Init_Tie_rest (index : nat) (g : Game) :
  tie_vlist (Init_Tie index g) = tie_vlist g
  /\ stars (Init_Tie index g) = stars g
  /\ player_z_vel (Init_Tie index g) = player_z_vel g
  /\ explosions (Init_Tie index g) = explosions g.
Proof. repeat split; reflexivity. Qed.

Lemma Init_Tie_new (index : nat) (g : Game) :
  exists t : TIE,
    ties (Init_Tie index g) = <[index := t]> (ties g)
    /\ tie_good t /\ beyond_near (tie_z t).
Proof.
  destruct (Init_Tie_ties index g)
    as (kx & ky & kxv & kyv & kzv & _ & _ & _ & _ & Hzv & Heq).
  eexists. split; [exact Heq|]. split.
  - split; [apply float_of_int_not_nan|apply depth_velocity_floats, Hzv].
  - vm_compute. reflexivity.
Qed.

Lemma depths_ok_ties (g g' : Game) :
  depths_ok g ->
  tie_vlist g' = tie_vlist g -> stars g' = stars g ->
  player_z_vel g' = player_z_vel g -> explosions g' = explosions g ->
  all_items tie_good zero_tie (ties g') -> depths_ok g'.
Proof.
  intros (Hv & Hl & Hs & Hp & _ & He) E1 E2 E3 E4 Ht.
  unfold depths_ok. rewrite E1, E2, E3, E4. auto 10.
Qed.

Lemma depths_ok_explosions (g g' : Game) :
  depths_ok g ->
  tie_vlist g' = tie_vlist g -> stars g' = stars g ->
  player_z_vel g' = player_z_vel g -> ties g' = ties g ->
  all_items expl_good zero_expl (explosions g') -> depths_ok g'.
Proof.
  intros (Hv & Hl & Hs & Hp & Ht & _) E1 E2 E3 E4 He.
  unfold depths_ok. rewrite E1, E2, E3, E4. auto 10.
Qed.

Lemma move_tie_good (t : TIE) : tie_good t -> tie_good (move_tie t).
Proof.
  intros (Hz & Hzv). unfold tie_good, move_tie. cbn [tie_z tie_zv].
  split; [apply f32_add_not_nan; assumption|exact Hzv].
Qed.

Lemma alive_in_range (l : list TIE) (i : nat) :
  tie_state (item zero_tie l i) <> 0 -> (i < length l)%nat.
Proof.
  intros H. destruct (decide (i < length l)%nat) as [Hlt|Hge]; [exact Hlt|].
  exfalso. apply H. unfold item. rewrite lookup_ge_None_2 by lia. reflexivity.
Qed.

(** One pass of the loop of [Process_Ties], on the array of ties. *)
Lemma process_tie_fields (index : nat) (g : Game) :
  tie_vlist (process_tie index g) = tie_vlist g
  /\ stars (process_tie index g) = stars g
  /\ player_z_vel (process_tie index g) = player_z_vel g
  /\ explosions (process_tie index g) = explosions g
  /\ ties (process_tie index g)
     = if tie_state (item zero_tie (ties g) index) =? 0 then ties g
       else if F32.leb
                 (tie_z (item zero_tie (alter move_tie index (ties g)) index))
                 (float_of_int NEAR_Z)
            then ties (Init_Tie index
                         (set_ties (alter move_tie index (ties g)) g))
            else alter move_tie index (ties g).
Proof.
  unfold process_tie. destruct (_ =? 0); [repeat split; reflexivity|].
  cbv zeta. cbn [ties set_ties].
  destruct (F32.leb _ _); repeat split; reflexivity.
Qed.

Lemma process_tie_list (index : nat) (l l' : list TIE) (t : TIE) :
  all_items tie_good zero_tie l -> tie_good t -> beyond_near (tie_z t) ->
  l' = (if tie_state (item zero_tie l index) =? 0 then l
        else if F32.leb (tie_z (item zero_tie (alter move_tie index l) index))
                  (float_of_int NEAR_Z)
             then <[index := t]> (alter move_tie index l)
             else alter move_tie index l) ->
  all_items tie_good zero_tie l'
  /\ (forall j, j <> index -> item zero_tie l' j = item zero_tie l j)
  /\ (tie_state (item zero_tie l' index) <> 0 ->
      beyond_near (tie_z (item zero_tie l' index))).
Proof.
  intros Hall Ht Hbn ->.
  destruct (Z.eqb_spec (tie_state (item zero_tie l index)) 0) as [E|E].
  - split; [exact Hall|]. split; [reflexivity|]. intros H. contradiction.
  - pose proof (alive_in_range _ _ E) as Hlt.
    assert (Hl1 : all_items tie_good zero_tie (alter move_tie index l))
      by (apply all_items_alter; [exact Hall|apply move_tie_good]).
    destruct (F32.leb _ _) eqn:Eleb.
    + split; [apply all_items_insert; assumption|]. split.
      * intros j Hj. rewrite item_insert_ne by congruence.
        apply item_alter_ne. congruence.
      * intros _. rewrite item_insert_eq; [exact Hbn|].
        rewrite length_alter. exact Hlt.
    + split; [exact Hl1|]. split.
      * intros j Hj. apply item_alter_ne. congruence.
      * intros _. apply f32_not_leb; [|apply float_of_int_not_nan|exact Eleb].
        apply Hl1.
Qed.

Lemma process_tie_depths (index : nat) (g : Game) :
  depths_ok g ->
  depths_ok (process_tie index g)
  /\ stars (process_tie index g) = stars g
  /\ (forall j, j <> index ->
        item zero_tie (ties (process_tie index g)) j = item zero_tie (ties g) j)
  /\ (tie_state (item zero_tie (ties (process_tie index g)) index) <> 0 ->
      beyond_near (tie_z (item zero_tie (ties (process_tie index g)) index))).
Proof.
  intros Hok. pose proof Hok as (Hv & Hl & Hs & Hp & Ht & He).
  destruct (process_tie_fields index g) as (E1 & E2 & E3 & E4 & E5).
  destruct (Init_Tie_new index (set_ties (alter move_tie index (ties g)) g))
    as (t & Hnew & Hgood & Hbn).
  cbn [ties set_ties] in Hnew. rewrite Hnew in E5.
  destruct (process_tie_list index (ties g) _ t Ht Hgood Hbn E5)
    as (L1 & L2 & L3).
  split; [|split; [exact E2|split; [exact L2|exact L3]]].
  apply (depths_ok_ties g); assumption.
Qed.

Lemma Process_Ties_depths (g : Game) :
  depths_ok g ->
  depths_ok (Process_Ties g)
  /\ stars (Process_Ties g) = stars g
  /\ ties_beyond_near (ties (Process_Ties g)).
Proof.
  intros Hok. unfold Process_Ties, ties_beyond_near.
  apply (for_loop_ind_idx
    (fun n g' =>
       depths_ok g' /\ stars g' = stars g
       /\ forall i, (i < n)%nat ->
            tie_state (item zero_tie (ties g') i) <> 0 ->
            beyond_near (tie_z (item zero_tie (ties g') i)))).
  - split; [exact Hok|]. split; [reflexivity|]. intros i Hi. lia.
  - intros n g' Hn (Hok' & Hst & Hbn).
    destruct (process_tie_depths n g' Hok') as (D1 & D2 & D3 & D4).
    set (g2 := process_tie n g') in *. clearbody g2.
    split; [exact D1|]. split; [congruence|].
    intros i Hi. destruct (decide (i = n)) as [->|Hne]; [exact D4|].
    rewrite (D3 i Hne). apply Hbn. lia.
Qed.

(** ** Depths: explosions *)

Lemma item_alter_ge {A : Type} (d : A) (f : A -> A) (l : list A) (i j : nat) :
  (length l <= i)%nat -> item d (alter f i l) j = item d l j.
Proof.
  intros Hge. destruct (item_alter_cases d f l i j) as [E|(_ & Hlt & _)];
    [exact E|lia].
Qed.

Lemma move_edge_good (edge : nat) (e : EXPL) :
  expl_good e -> expl_good (move_edge edge e).
Proof.
  intros (Hlen & Hall). unfold expl_good, move_edge.
  cbn [expl_p1 expl_p2 expl_vel]. rewrite !length_alter.
  split; [exact Hlen|]. intros j.
  destruct (Hall j) as (Hz & Hn & Hf). destruct (Hall edge) as (Hze & Hne & Hfe).
  set (v := item zero_vec (expl_vel e) edge) in *.
  destruct (decide (j = edge)) as [->|Hne'].
  - destruct (decide (edge < length (expl_p1 e))%nat) as [Hlt|Hge].
    + rewrite !item_alter_eq by lia. cbn [move_point pt_z].
      rewrite Hze. split; [reflexivity|]. split; [|exact Hf].
      rewrite <- Hze. apply f32_add_not_nan; assumption.
    + rewrite !item_alter_ge by lia. auto.
  - rewrite !item_alter_ne by congruence. auto.
Qed.

Lemma process_explosion_good (e : EXPL) :
  expl_good e -> expl_good (process_explosion e).
Proof.
  intros Hgood. unfold process_explosion.
  destruct (expl_state e =? 0); [exact Hgood|]. cbv zeta.
  assert (H : expl_good (for_loop NUM_TIE_EDGES move_edge e)).
  { apply (for_loop_ind expl_good); [exact Hgood|].
    intros i e' _ He'. apply move_edge_good, He'. }
  set (e1 := for_loop NUM_TIE_EDGES move_edge e) in *. clearbody e1.
  destruct (100 <? _); exact H.
Qed.

Lemma Process_Explosions_fields (g : Game) :
  tie_vlist (Process_Explosions g) = tie_vlist g
  /\ stars (Process_Explosions g) = stars g
  /\ player_z_vel (Process_Explosions g) = player_z_vel g
  /\ ties (Process_Explosions g) = ties g
  /\ explosions (Process_Explosions g)
     = for_loop NUM_EXPLOSIONS
         (fun index l => alter process_explosion index l) (explosions g).
Proof.
  unfold Process_Explosions. generalize NUM_EXPLOSIONS as n.
  induction n as [|n (E1 & E2 & E3 & E4 & E5)]; [repeat split; reflexivity|].
  rewrite !for_loop_S. cbn [tie_vlist stars player_z_vel ties explosions
    set_explosions]. rewrite E5. auto.
Qed.

Lemma Process_Explosions_depths (g : Game) :
  depths_ok g -> depths_ok (Process_Explosions g).
Proof.
  intros Hok. pose proof Hok as (Hv & Hl & Hs & Hp & Ht & He).
  destruct (Process_Explosions_fields g) as (E1 & E2 & E3 & E4 & E5).
  apply (depths_ok_explosions g); try assumption.
  rewrite E5. apply all_items_for_loop_alter; [exact He|].
  apply process_explosion_good.
Qed.

(** [Start_Explosion] keeps the depths right: the model is flat, so the two
    end points of each edge start at the tie's depth. *)
Lemma blow_edge_good (g : Game) (tie edge : nat) (e : EXPL) :
  all_items vertex_flat zero_point (tie_vlist g) ->
  all_items tie_good zero_tie (ties g) ->
  expl_good e -> expl_good (blow_edge g tie edge e).
Proof.
  intros Hflat Hties (Hlen & Hall). unfold expl_good, blow_edge.
  cbn [expl_p1 expl_p2 expl_vel]. rewrite !length_alter.
  split; [exact Hlen|]. intros j. destruct (Hall j) as (Hz & Hn & Hf).
  assert (Hvel : F32.is_finite (vec_z (shrapnel g tie)) = true).
  { unfold shrapnel. cbn [vec_z]. apply float_of_int8_finite.
    pose proof (int_rem_range (Z.of_N (rand_seq g (S (S (rand_calls g))))) 8
                  (N2Z.is_nonneg _) ltac:(reflexivity)) as Hr.
    unfold int_add. rewrite to_int16_small; lia. }
  assert (Hvj : F32.is_finite
                  (vec_z (item zero_vec (<[edge := shrapnel g tie]> (expl_vel e)) j))
                = true).
  { destruct (item_insert_cases zero_vec (shrapnel g tie) (expl_vel e) edge j)
      as [->|(_ & _ & ->)]; assumption. }
  destruct (decide (j = edge)) as [->|Hne'].
  - destruct (decide (edge < length (expl_p1 e))%nat) as [Hlt|Hge].
    + rewrite !item_alter_eq by lia. unfold place_at. cbn [pt_z].
      pose proof (Hflat (Z.to_nat (ln_v1 (item zero_line (tie_shape g) edge))))
        as F1.
      pose proof (Hflat (Z.to_nat (ln_v2 (item zero_line (tie_shape g) edge))))
        as F2.
      unfold vertex_flat in F1, F2. fold (edge_start g edge) in F1.
      fold (edge_end g edge) in F2. rewrite F1, F2.
      split; [reflexivity|]. split; [|exact Hvj].
      apply f32_add_not_nan; [apply Hties|reflexivity].
    + rewrite !item_alter_ge by lia. auto.
  - rewrite !item_alter_ne by congruence. auto.
Qed.

Lemma start_explosion_at_depths (tie index : nat) (g : Game) :
  depths_ok g ->
  scene_part (start_explosion_at tie index g) = scene_part g
  /\ fixed_part (start_explosion_at tie index g) = fixed_part g
  /\ all_items expl_good zero_expl (explosions (start_explosion_at tie index g)).
Proof.
  intros (Hv & Hl & Hs & Hp & Ht & He). unfold start_explosion_at.
  apply (for_loop_ind
    (fun g' => scene_part g' = scene_part g /\ fixed_part g' = fixed_part g
               /\ all_items expl_good zero_expl (explosions g'))).
  - split; [reflexivity|]. split; [reflexivity|].
    cbn [explosions set_explosions].
    apply all_items_alter; [exact He|]. intros H. exact H.
  - intros i g' _ (Hsc & Hfx & Hgood).
    rewrite explosion_edge_scene, explosion_edge_fixed,
      explosion_edge_explosions.
    split; [exact Hsc|]. split; [exact Hfx|].
    destruct (scene_part_eq _ _ Hsc) as (Hties & _).
    destruct (fixed_part_eq _ _ Hfx) as (Hvl & _).
    apply all_items_alter; [exact Hgood|].
    apply blow_edge_good; [rewrite Hvl; exact Hv|rewrite Hties; exact Ht].
Qed.

Lemma Start_Explosion_depths (tie : nat) (g : Game) :
  depths_ok g ->
  scene_part (Start_Explosion tie g) = scene_part g
  /\ fixed_part (Start_Explosion tie g) = fixed_part g
  /\ all_items expl_good zero_expl (explosions (Start_Explosion tie g)).
Proof.
  intros Hok. unfold Start_Explosion.
  induction (seq 0 NUM_EXPLOSIONS) as [|i l IH]; cbn [Start_Explosion_hunt].
  - split; [reflexivity|]. split; [reflexivity|]. apply Hok.
  - destruct (_ =? 0); [|exact IH].
    apply start_explosion_at_depths, Hok.
Qed.

(** What a hit changes: the explosions, as [Start_Explosion] leaves them,
    the score, the hits, the count of [rand()] calls, and the tie, which is
    respawned. *)
Lemma hit_tie_fields (index : nat) (g : Game) :
  tie_vlist (hit_tie index g) = tie_vlist g
  /\ stars (hit_tie index g) = stars g
  /\ player_z_vel (hit_tie index g) = player_z_vel g
  /\ explosions (hit_tie index g) = explosions (Start_Explosion index g)
  /\ exists t : TIE,
       ties (hit_tie index g) = <[index := t]> (ties g)
       /\ tie_good t /\ beyond_near (tie_z t).
Proof.
  unfold hit_tie. cbv zeta.
  destruct (scene_part_eq _ _ (Start_Explosion_scene index g)) as (Ht & Hs & _).
  destruct (fixed_part_eq _ _ (Start_Explosion_fixed index g)) as (Hv & _).
  destruct (player_part_eq _ _ (Start_Explosion_player index g))
    as (_ & _ & _ & _ & _ & _ & Hp & _).
  set (g1 := Start_Explosion index g) in *.
  set (g2 := set_hits _ (set_score _ g1)).
  destruct (Init_Tie_new index g2) as (t & Hnew & Hgood & Hbn).
  destruct (Init_Tie_rest index g2) as (R1 & R2 & R3 & R4).
  rewrite R1, R2, R3, R4, Hnew. subst g2.
  cbn [tie_vlist stars player_z_vel explosions ties set_hits set_score].
  rewrite Hv, Hs, Hp, Ht. eauto 10.
Qed.

Lemma hit_tie_depths (index : nat) (g : Game) :
  depths_ok g ->
  depths_ok (hit_tie index g)
  /\ forall j, j <> index ->
       item zero_tie (ties (hit_tie index g)) j = item zero_tie (ties g) j.
Proof.
  intros Hok. pose proof Hok as (Hv & Hl & Hs & Hp & Ht & He).
  destruct (hit_tie_fields index g) as (E1 & E2 & E3 & E4 & t & E5 & Hgood & _).
  destruct (Start_Explosion_depths index g Hok) as (_ & _ & Hex).
  split.
  - unfold depths_ok. rewrite E1, E2, E3, E4, E5.
    refine (conj Hv (conj Hl (conj Hs (conj Hp (conj _ Hex))))).
    apply all_items_insert; assumption.
  - intros j Hj. rewrite E5. apply item_insert_ne. congruence.
Qed.

(** ** Depths: the drawing functions *)

Lemma Forall_flat_map_in {A B : Type} (P : B -> Prop) (f : A -> list B)
    (l : list A) :
  (forall x, In x l -> Forall P (f x)) -> Forall P (flat_map f l).
Proof.
  induction l as [|a l IH]; intros H; cbn [flat_map]; [constructor|].
  apply Forall_app. split.
  - apply H. left. reflexivity.
  - apply IH. intros x Hx. apply H. right. exact Hx.
Qed.

Lemma safe_tie_division (num z : float32) :
  beyond_near z -> safe_event (PerspDiv OfTie num (F32.add fzero z)).
Proof.
  intros H. rewrite (f32_zero_add z H). split; [apply f32_ltb_leb, H|].
  intros _. exact H.
Qed.

Lemma draw_tie_edge_safe (g : Game) (t : TIE) (color : Z) (edge : nat)
    (acc : BBox * list Event) :
  all_items vertex_flat zero_point (tie_vlist g) -> beyond_near (tie_z t) ->
  Forall safe_event (snd acc) ->
  Forall safe_event (snd (draw_tie_edge g t color edge acc)).
Proof.
  intros Hflat Hz Hacc. destruct acc as [box evs]. unfold draw_tie_edge.
  cbv zeta. cbn [snd] in *.
  pose proof (Hflat (Z.to_nat (ln_v1 (item zero_line (tie_shape g) edge)))) as F1.
  pose proof (Hflat (Z.to_nat (ln_v2 (item zero_line (tie_shape g) edge)))) as F2.
  unfold vertex_flat in F1, F2. rewrite F1, F2.
  apply Forall_app. split; [exact Hacc|].
  repeat (apply Forall_cons; split;
          [first [apply safe_tie_division, Hz | exact I]|]).
  apply Forall_nil_2.
Qed.

Lemma draw_tie_edges_safe (g : Game) (t : TIE) (color : Z) (n : nat)
    (evs : list Event) :
  all_items vertex_flat zero_point (tie_vlist g) -> beyond_near (tie_z t) ->
  Forall safe_event evs ->
  Forall safe_event
    (snd (for_loop n (draw_tie_edge g t color) (empty_box, evs))).
Proof.
  intros Hflat Hz Hevs.
  apply (for_loop_ind (fun acc => Forall safe_event (snd acc)));
    [exact Hevs|].
  intros i acc _ Hacc. apply draw_tie_edge_safe; assumption.
Qed.

(** One pass of the loop of [Draw_Ties]. *)
Lemma draw_tie_depths (index : nat) (g : Game) (evs : list Event) :
  depths_ok g ->
  (tie_state (item zero_tie (ties g) index) <> 0 ->
   beyond_near (tie_z (item zero_tie (ties g) index))) ->
  Forall safe_event evs ->
  depths_ok (fst (draw_tie index (g, evs)))
  /\ stars (fst (draw_tie index (g, evs))) = stars g
  /\ (forall j, j <> index ->
        item zero_tie (ties (fst (draw_tie index (g, evs)))) j
        = item zero_tie (ties g) j)
  /\ Forall safe_event (snd (draw_tie index (g, evs))).
Proof.
  intros Hok Hz Hevs. unfold draw_tie.
  destruct (Z.eqb_spec (tie_state (item zero_tie (ties g) index)) 0) as [E|E].
  - cbn [fst snd]. auto.
  - pose proof (draw_tie_edges_safe g (item zero_tie (ties g) index)
      (tie_color (item zero_tie (ties g) index)) NUM_TIE_EDGES evs
      (proj1 Hok) (Hz E) Hevs) as Hsafe.
    destruct (for_loop NUM_TIE_EDGES _ (empty_box, evs)) as [box evs'].
    cbn [snd] in Hsafe.
    destruct (_ && _); cbn [fst snd].
    + destruct (hit_tie_depths index g Hok) as (D1 & D2).
      destruct (hit_tie_fields index g) as (_ & E2 & _).
      auto.
    + auto.
Qed.

Lemma Draw_Ties_depths (g : Game) :
  depths_ok g -> ties_beyond_near (ties g) ->
  depths_ok (fst (Draw_Ties g))
  /\ stars (fst (Draw_Ties g)) = stars g
  /\ Forall safe_event (snd (Draw_Ties g)).
Proof.
  intros Hok Hbn. unfold Draw_Ties.
  assert (H : let acc := for_loop NUM_TIES draw_tie (g, []) in
              depths_ok (fst acc) /\ stars (fst acc) = stars g
              /\ (forall j, (NUM_TIES <= j)%nat ->
                    item zero_tie (ties (fst acc)) j = item zero_tie (ties g) j)
              /\ Forall safe_event (snd acc)).
  { cbv zeta.
    apply (for_loop_ind_idx
      (fun n acc =>
         depths_ok (fst acc) /\ stars (fst acc) = stars g
         /\ (forall j, (n <= j)%nat ->
               item zero_tie (ties (fst acc)) j = item zero_tie (ties g) j)
         /\ Forall safe_event (snd acc))).
    - cbn [fst snd]. split; [exact Hok|]. split; [reflexivity|].
      split; [reflexivity|constructor].
    - intros n [g' evs] Hn (Hok' & Hst & Hsame & Hevs). cbn [fst snd] in *.
      destruct (draw_tie_depths n g' evs Hok') as (D1 & D2 & D3 & D4).
      + rewrite (Hsame n (le_n n)). apply Hbn, Hn.
      + exact Hevs.
      + split; [exact D1|]. split; [congruence|]. split; [|exact D4].
        intros j Hj. rewrite D3 by lia. apply Hsame. lia. }
  cbv zeta in H. destruct H as (H1 & H2 & _ & H4). auto.
Qed.

Lemma draw_explosion_edge_safe (e : EXPL) (edge : nat) :
  expl_good e -> Forall safe_event (draw_explosion_edge e edge).
Proof.
  intros (_ & Hall). destruct (Hall edge) as (Hz & Hn & _).
  unfold draw_explosion_edge. cbv zeta. rewrite <- Hz.
  destruct (F32.ltb _ _) eqn:E; cbn [andb]; [constructor|].
  assert (Hsafe : forall num,
            safe_event (PerspDiv OfExplosion num
                          (pt_z (item zero_point (expl_p1 e) edge)))).
  { intros num. split.
    - apply f32_not_ltb; [exact Hn|apply float_of_int_not_nan|exact E].
    - intros H. contradiction. }
  rewrite Hz at 3 4.
  repeat (apply Forall_cons; split;
          [first [rewrite <- Hz; apply Hsafe | apply Hsafe | exact I]|]).
  apply Forall_nil_2.
Qed.

Lemma Draw_Explosions_safe (g : Game) :
  all_items expl_good zero_expl (explosions g) ->
  Forall safe_event (Draw_Explosions g).
Proof.
  intros Hall. unfold Draw_Explosions.
  apply Forall_flat_map_in. intros index _. unfold draw_explosion.
  destruct (_ =? 0); [constructor|].
  apply Forall_flat_map_in. intros edge _.
  apply draw_explosion_edge_safe, Hall.
Qed.

Lemma Draw_Starfield_safe (g : Game) :
  stars_beyond_near (stars g) -> Forall safe_event (Draw_Starfield g).
Proof.
  intros Hbn. unfold Draw_Starfield.
  apply Forall_flat_map_in. intros index Hin. apply in_seq in Hin.
  specialize (Hbn index ltac:(lia)). unfold draw_star. cbv zeta.
  apply Forall_app. split.
  - repeat (apply Forall_cons; split;
            [split; [apply f32_ltb_leb, Hbn|intros _; exact Hbn]|]).
    apply Forall_nil_2.
  - destruct (_ || _); [constructor|].
    apply Forall_cons; split; [exact I|constructor].
Qed.

(** ** Depths: a frame and a session *)

Lemma Game_Main_events (b : Buttons) (g : Game) :
  let g2 :=
    Process_Explosions
      (Process_Ties (Move_Starfield (process_cannon (handle_input b g)))) in
  let g3 := fst (Draw_Ties g2) in
  let g4 := fst (draw_crosshair g3) in
  snd (Game_Main b g)
  = fillScreen ST77XX_BLACK
    :: Draw_Starfield g2 ++ snd (Draw_Ties g2) ++ Draw_Explosions g3
       ++ snd (draw_crosshair g3) ++ snd (draw_beam g4)
       ++ draw_game_over (fst (draw_beam g4)).
Proof.
  cbv zeta. unfold Game_Main.
  destruct (Draw_Ties _) as [g3 ev3]. cbn [fst snd].
  destruct (draw_crosshair g3) as [g4 ev4]. cbn [fst snd].
  destruct (draw_beam g4) as [g5 ev5]. reflexivity.
Qed.

Lemma draw_crosshair_safe (g : Game) : Forall safe_event (snd (draw_crosshair g)).
Proof.
  unfold draw_crosshair. cbv zeta. cbn [snd].
  repeat (apply Forall_cons; split; [exact I|]). apply Forall_nil_2.
Qed.

Lemma draw_beam_safe (g : Game) : Forall safe_event (snd (draw_beam g)).
Proof.
  unfold draw_beam. destruct (cannon_state g =? 1); [|constructor].
  cbn [rand fst snd]. destruct (_ =? 1); cbn [snd];
    (apply Forall_cons; split; [exact I|constructor]).
Qed.

Lemma draw_game_over_safe (g : Game) : Forall safe_event (draw_game_over g).
Proof.
  unfold draw_game_over. destruct (_ =? _); [|constructor].
  apply Forall_cons; split; [exact I|constructor].
Qed.

(** The state between the moves of a frame and its drawing. *)
Lemma moved_depths (g : Game) :
  depths_ok g ->
  let g2 := Process_Explosions (Process_Ties (Move_Starfield g)) in
  depths_ok g2 /\ stars_beyond_near (stars g2) /\ ties_beyond_near (ties g2).
Proof.
  intros Hok. cbv zeta.
  destruct (Move_Starfield_depths g Hok) as (M1 & M2).
  destruct (Process_Ties_depths _ M1) as (T1 & T2 & T3).
  destruct (Process_Explosions_fields (Process_Ties (Move_Starfield g)))
    as (_ & E2 & _ & E4 & _).
  split; [apply Process_Explosions_depths, T1|].
  rewrite E2, E4, T2. auto.
Qed.

Lemma frame_depths (g : Game) (b : Buttons) :
  depths_ok g ->
  depths_ok (frame g b) /\ Forall safe_event (snd (Game_Main b g)).
Proof.
  intros Hok.
  pose proof (process_cannon_depths _ (handle_input_depths b g Hok)) as H1.
  destruct (moved_depths _ H1) as (H2 & Hstars & Hties).
  destruct (Draw_Ties_depths _ H2 Hties) as (H3 & _ & Hev).
  split.
  - rewrite frame_steps. apply end_of_frame_depths. exact H3.
  - rewrite Game_Main_events. cbv zeta.
    apply Forall_cons; split; [exact I|].
    apply Forall_app; split; [apply Draw_Starfield_safe, Hstars|].
    apply Forall_app; split; [exact Hev|].
    apply Forall_app; split; [apply Draw_Explosions_safe, H3|].
    apply Forall_app; split; [apply draw_crosshair_safe|].
    apply Forall_app; split; [apply draw_beam_safe|apply draw_game_over_safe].
Qed.

Lemma zero_expl_good : expl_good zero_expl.
Proof.
  split; [reflexivity|]. intros j. unfold item, zero_expl.
  cbn [expl_p1 expl_p2 expl_vel].
  destruct (replicate NUM_TIE_EDGES zero_point !! j) as [p|] eqn:Ep;
    [apply lookup_replicate in Ep as [-> _]|];
    (destruct (replicate NUM_TIE_EDGES zero_vec !! j) as [v|] eqn:Ev;
     [apply lookup_replicate in Ev as [-> _]|]);
    cbn; auto.
Qed.

Lemma Game_start_depths (rs : nat -> N) : depths_ok (Game_start rs).
Proof.
  unfold depths_ok, Game_start. cbn [tie_vlist stars player_z_vel ties explosions].
  split; [apply all_items_replicate; reflexivity|].
  split; [apply length_replicate|].
  split; [apply all_items_replicate; reflexivity|].
  split; [lia|].
  split; [apply all_items_replicate; split; reflexivity|].
  apply all_items_replicate, zero_expl_good.
Qed.

Lemma init_star_depths (index : nat) (g : Game) :
  depths_ok g -> depths_ok (init_star index g).
Proof.
  intros (Hv & Hl & Hs & Hp & Ht & He). unfold init_star, depths_ok.
  cbn [rand fst snd tie_vlist stars player_z_vel ties explosions set_stars
       set_rand_calls].
  rewrite length_insert.
  refine (conj Hv (conj Hl (conj _ (conj Hp (conj Ht He))))).
  apply all_items_insert; [exact Hs|]. apply float_of_int_not_nan.
Qed.

Lemma temp_tie_vlist_flat (g : Game) (index : nat) :
  vertex_flat (item zero_point (temp_tie_vlist g) index).
Proof.
  unfold temp_tie_vlist.
  do 10 (destruct index as [|index]; [reflexivity|]). reflexivity.
Qed.

Lemma Init_Tie_depths (index : nat) (g : Game) :
  depths_ok g -> depths_ok (Init_Tie index g).
Proof.
  intros Hok. pose proof Hok as (Hv & Hl & Hs & Hp & Ht & He).
  destruct (Init_Tie_new index g) as (t & Hnew & Hgood & _).
  destruct (Init_Tie_rest index g) as (R1 & R2 & R3 & R4).
  apply (depths_ok_ties g); try assumption.
  rewrite Hnew. apply all_items_insert; assumption.
Qed.

Lemma Game_Init_depths (g : Game) : depths_ok g -> depths_ok (Game_Init g).
Proof.
  intros Hok. unfold Game_Init. cbv zeta.
  apply (for_loop_ind depths_ok); [|intros i g' _; apply Init_Tie_depths].
  apply (for_loop_ind depths_ok).
  - apply (for_loop_ind depths_ok).
    + apply (for_loop_ind depths_ok);
        [|intros i g' _; apply init_star_depths].
      exact Hok.
    + intros i g' _ (Hv & Hl & Hs & Hp & Ht & He). unfold depths_ok.
      cbn [tie_vlist stars player_z_vel ties explosions set_tie_vlist].
      refine (conj _ (conj Hl (conj Hs (conj Hp (conj Ht He))))).
      apply all_items_insert; [exact Hv|apply temp_tie_vlist_flat].
  - intros i g' _ H. exact H.
Qed.

Lemma session_depths (rs : nat -> N) (inputs : list Buttons) :
  depths_ok (session rs inputs).
Proof.
  induction inputs as [|b inputs IH] using rev_ind.
  - unfold session, run. cbn [fold_left].
    apply Game_Init_depths, Game_start_depths.
  - rewrite session_snoc. apply frame_depths, IH.
Qed.

(** C2, as the code has it.  In every frame of every session, each division
    of a projection is by a depth that is at least [NEAR_Z], and beyond
    [NEAR_Z] for a star or for the end point of a tie's edge: never by zero
    nor by a depth close to it.  For a star and a tie the depth was tested
    by the move of the same frame.  For an explosion the test of
    [Draw_Explosions] lets an edge through when one of its end points is not
    below [NEAR_Z]; both end points of an edge are always at one depth, so
    both divisors are then at least [NEAR_Z]. *)
Theorem projection_depths (rs : nat -> N) (inputs : list Buttons)
    (b : Buttons) :
  Forall safe_event (snd (Game_Main b (session rs inputs))).
Proof. apply frame_depths, session_depths. Qed.

(** * Further properties of the code *)

(** ** The life of an explosion *)

Lemma move_edges_header (n : nat) (e : EXPL) :
  let e' := for_loop n move_edge e in
  expl_state e' = expl_state e /\ expl_counter e' = expl_counter e
  /\ expl_color e' = expl_color e /\ expl_vel e' = expl_vel e.
Proof.
  cbv zeta.
  apply (for_loop_ind
    (fun e' => expl_state e' = expl_state e /\ expl_counter e' = expl_counter e
               /\ expl_color e' = expl_color e /\ expl_vel e' = expl_vel e)).
  - auto.
  - intros i e' _ H. exact H.
Qed.

Lemma process_explosion_counter (e : EXPL) :
  expl_state e <> 0 ->
  let c := to_int8 (expl_counter e + 1) in
  expl_state (process_explosion e) = (if 100 <? c then 0 else expl_state e)
  /\ expl_counter (process_explosion e) = (if 100 <? c then 0 else c).
Proof.
  intros Hs. cbv zeta. unfold process_explosion.
  destruct (Z.eqb_spec (expl_state e) 0) as [E|_]; [contradiction|].
  cbv zeta.
  destruct (move_edges_header NUM_TIE_EDGES e) as (H1 & H2 & _).
  rewrite H2. destruct (100 <? _); cbn [expl_state expl_counter]; auto.
Qed.

Lemma process_explosion_idle (e : EXPL) :
  expl_state e = 0 -> process_explosion e = e.
Proof. intros H. unfold process_explosion. rewrite H. reflexivity. Qed.

Lemma Process_Explosions_item (g : Game) (index : nat) :
  (index < NUM_EXPLOSIONS)%nat -> (index < length (explosions g))%nat ->
  explosion (Process_Explosions g) index = process_explosion (explosion g index).
Proof.
  intros Hi Hlen. unfold explosion, item.
  destruct (Process_Explosions_fields g) as (_ & _ & _ & _ & E).
  rewrite E, for_loop_alter_lookup.
  destruct (decide (index < NUM_EXPLOSIONS)%nat); [|contradiction].
  destruct (lookup_lt_is_Some_2 _ _ Hlen) as [e He]. rewrite He. reflexivity.
Qed.

Lemma start_explosion_at_other (tie index j : nat) (g : Game) :
  j <> index ->
  explosions (start_explosion_at tie index g) !! j = explosions g !! j.
Proof.
  intros Hne. unfold start_explosion_at.
  apply (for_loop_ind
    (fun g' => explosions g' !! j = explosions g !! j)).
  - cbn [explosions set_explosions]. apply list_lookup_alter_ne. congruence.
  - intros i g' _ H. rewrite explosion_edge_explosions.
    rewrite list_lookup_alter_ne by congruence. exact H.
Qed.

(** [Start_Explosion] leaves a running explosion alone. *)
Lemma Start_Explosion_keeps_running (tie j : nat) (g : Game) :
  expl_state (explosion g j) <> 0 ->
  explosions (Start_Explosion tie g) !! j = explosions g !! j.
Proof.
  intros Hrun. unfold Start_Explosion.
  induction (seq 0 NUM_EXPLOSIONS) as [|i l IH]; cbn [Start_Explosion_hunt];
    [reflexivity|].
  fold (explosion g i).
  destruct (Z.eqb_spec (expl_state (explosion g i)) 0) as [E|_]; [|exact IH].
  apply start_explosion_at_other. intros ->. contradiction.
Qed.

Lemma draw_tie_keeps_running (index j : nat) (acc : Game * list Event) :
  expl_state (explosion (fst acc) j) <> 0 ->
  explosions (fst (draw_tie index acc)) !! j = explosions (fst acc) !! j.
Proof.
  destruct acc as [g evs]. cbn [fst]. intros Hrun. unfold draw_tie.
  destruct (_ =? 0); [reflexivity|].
  destruct (for_loop _ _ _) as [box evs'].
  destruct (_ && _); [|reflexivity]. cbn [fst].
  destruct (hit_tie_fields index g) as (_ & _ & _ & E & _). rewrite E.
  apply Start_Explosion_keeps_running, Hrun.
Qed.

Lemma Draw_Ties_keeps_running (g : Game) (j : nat) :
  expl_state (explosion g j) <> 0 ->
  explosions (fst (Draw_Ties g)) !! j = explosions g !! j.
Proof.
  intros Hrun. unfold Draw_Ties.
  apply (for_loop_ind
    (fun acc => explosions (fst acc) !! j = explosions g !! j));
    [reflexivity|].
  intros i acc _ H. rewrite draw_tie_keeps_running; [exact H|].
  unfold explosion, item in *. rewrite H. exact Hrun.
Qed.

Lemma frame_explosions (g : Game) (b : Buttons) :
  explosions (frame g b)
  = explosions
      (fst (Draw_Ties
         (Process_Explosions
            (Process_Ties (Move_Starfield (process_cannon (handle_input b g))))))).
Proof.
  rewrite frame_steps. unfold simulate.
  set (g3 := fst (Draw_Ties _)). clearbody g3.
  destruct (end_of_frame_fields g3) as (_ & _ & _ & _ & _ & He & _). exact He.
Qed.

Lemma moved_explosions (g : Game) (b : Buttons) :
  explosions (Process_Ties (Move_Starfield (process_cannon (handle_input b g))))
  = explosions g.
Proof.
  destruct (handle_input_world b g) as (W1 & _).
  destruct (process_cannon_world (handle_input b g)) as (W2 & _).
  apply world_part_eq in W1 as (_ & _ & E1 & _).
  apply world_part_eq in W2 as (_ & _ & E2 & _).
  destruct (Move_Starfield_rest (process_cannon (handle_input b g)))
    as (_ & _ & _ & E3).
  rewrite <- E1, <- E2, <- E3. unfold Process_Ties.
  apply (for_loop_keeps explosions).
  intros i g'. destruct (process_tie_fields i g') as (_ & _ & _ & E & _).
  exact E.
Qed.

Lemma running_in_range (l : list EXPL) (i : nat) :
  expl_state (item zero_expl l i) <> 0 -> (i < length l)%nat.
Proof.
  intros H. destruct (Nat.lt_ge_cases i (length l)) as [Hlt|Hge];
    [exact Hlt|].
  exfalso. apply H. unfold item. rewrite lookup_ge_None_2 by lia. reflexivity.
Qed.

Lemma frame_ages (g : Game) (b : Buttons) (index : nat) :
  (index < NUM_EXPLOSIONS)%nat ->
  expl_state (explosion g index) <> 0 ->
  0 <= expl_counter (explosion g index) < 100 ->
  expl_state (explosion (frame g b) index) = expl_state (explosion g index)
  /\ expl_counter (explosion (frame g b) index)
     = expl_counter (explosion g index) + 1.
Proof.
  intros Hi Hrun Hc.
  pose proof (running_in_range _ _ Hrun) as Hlen.
  pose proof (frame_explosions g b) as Hfr.
  pose proof (moved_explosions g b) as E2.
  set (g2 := Process_Ties _) in *. clearbody g2.
  set (gf := frame g b) in *. clearbody gf.
  assert (Hitem : explosion (Process_Explosions g2) index
                  = process_explosion (explosion g index)).
  { rewrite Process_Explosions_item; [|exact Hi|rewrite E2; exact Hlen].
    unfold explosion. rewrite E2. reflexivity. }
  destruct (process_explosion_counter _ Hrun) as (Ps & Pc). cbv zeta in Ps, Pc.
  rewrite to_int8_small in Ps, Pc by lia.
  destruct (Z.ltb_spec 100 (expl_counter (explosion g index) + 1)) as [H|_];
    [lia|].
  assert (Hrun' : expl_state (explosion (Process_Explosions g2) index) <> 0)
    by (rewrite Hitem, Ps; exact Hrun).
  pose proof (Draw_Ties_keeps_running _ index Hrun') as Hkeep.
  assert (Hsame : explosion gf index = explosion (Process_Explosions g2) index).
  { unfold explosion, item. rewrite Hfr, Hkeep. reflexivity. }
  rewrite Hsame, Hitem, Ps, Pc. auto.
Qed.

(** X1. An explosion that is running keeps running, its counter one higher
    after each frame, as long as the counter has not passed 100: whatever the
    buttons, the hits and the other explosions of these frames, after [n]
    frames the counter is [n] higher and the state is as it was. *)
Theorem explosion_lifetime (g : Game) (inputs : list Buttons) (index : nat) :
  (index < NUM_EXPLOSIONS)%nat ->
  expl_state (explosion g index) <> 0 ->
  0 <= expl_counter (explosion g index) ->
  expl_counter (explosion g index) + Z.of_nat (length inputs) <= 100 ->
  expl_state (explosion (run inputs g) index) = expl_state (explosion g index)
  /\ expl_counter (explosion (run inputs g) index)
     = expl_counter (explosion g index) + Z.of_nat (length inputs).
Proof.
  intros Hi. revert g.
  induction inputs as [|b inputs IH]; intros g Hrun H0 Hend.
  - cbn [length Z.of_nat run fold_left]. rewrite Z.add_0_r. auto.
  - rewrite run_cons. cbn [length] in *.
    destruct (frame_ages g b index Hi Hrun) as (Fs & Fc); [lia|].
    destruct (IH (frame g b)) as (Rs & Rc).
    + rewrite Fs. exact Hrun.
    + rewrite Fc. lia.
    + rewrite Fc. lia.
    + rewrite Rs, Rc, Fs, Fc. split; [reflexivity|lia].
Qed.

(** X2. [Process_Explosions] switches a running explosion off and clears its
    counter when the counter has reached 100: the pass makes it 101, which is
    the first value above the limit of the test. *)
Theorem explosion_expires (g : Game) (index : nat) :
  (index < NUM_EXPLOSIONS)%nat ->
  expl_state (explosion g index) <> 0 ->
  100 <= expl_counter (explosion g index) < 127 ->
  expl_state (explosion (Process_Explosions g) index) = 0
  /\ expl_counter (explosion (Process_Explosions g) index) = 0.
Proof.
  intros Hi Hrun Hc.
  rewrite (Process_Explosions_item g index Hi (running_in_range _ _ Hrun)).
  destruct (process_explosion_counter _ Hrun) as (Ps & Pc). cbv zeta in Ps, Pc.
  rewrite to_int8_small in Ps, Pc by lia.
  destruct (Z.ltb_spec 100 (expl_counter (explosion g index) + 1)) as [_|H];
    [auto|lia].
Qed.

(** ** The count of the misses *)

Lemma to_int8_add_l (a b : Z) : to_int8 (to_int8 a + b) = to_int8 (a + b).
Proof.
  unfold to_int8. f_equal.
  replace ((a + 128) mod 256 - 128 + b + 128) with ((a + 128) mod 256 + b)
    by lia.
  replace (a + b + 128) with (a + 128 + b) by lia.
  apply Zplus_mod_idemp_l.
Qed.

Lemma escapes_alive (l : list TIE) (index : nat) :
  tie_state (item zero_tie l index) <> 0 ->
  F32.leb (tie_z (item zero_tie (alter move_tie index l) index))
    (float_of_int NEAR_Z)
  = escapes (item zero_tie l index).
Proof.
  intros E. rewrite item_alter_eq by (apply alive_in_range; exact E).
  unfold escapes.
  destruct (Z.eqb_spec (tie_state (item zero_tie l index)) 0) as [E0|_];
    [contradiction|].
  reflexivity.
Qed.

Lemma escapes_dead (t : TIE) : tie_state t = 0 -> escapes t = false.
Proof. intros E. unfold escapes. rewrite E. reflexivity. Qed.

Lemma process_tie_misses (index : nat) (g : Game) :
  misses (process_tie index g)
  = (if escapes (item zero_tie (ties g) index) then to_int8 (misses g + 1)
     else misses g)
  /\ tally (process_tie index g) = tally g.
Proof.
  unfold process_tie.
  destruct (Z.eqb_spec (tie_state (item zero_tie (ties g) index)) 0) as [E|E].
  - rewrite (escapes_dead _ E). split; reflexivity.
  - cbv zeta. cbn [ties set_ties].
    rewrite (escapes_alive _ _ E).
    destruct (escapes _); split; reflexivity.
Qed.

(** What a pass of the loop of [Process_Ties] leaves of the ties. *)
Lemma process_tie_item (index : nat) (g : Game) :
  let t := item zero_tie (ties g) index in
  let t' := item zero_tie (ties (process_tie index g)) index in
  (forall j, j <> index ->
     item zero_tie (ties (process_tie index g)) j = item zero_tie (ties g) j)
  /\ (escapes t = true ->
      tie_state t' = 1 /\ tie_z t' = float_of_int (2 * FAR_Z))
  /\ (escapes t = false ->
      t' = if tie_state t =? 0 then t else move_tie t).
Proof.
  cbv zeta.
  destruct (process_tie_fields index g) as (_ & _ & _ & _ & E).
  destruct (Init_Tie_ties index (set_ties (alter move_tie index (ties g)) g))
    as (kx & ky & kxv & kyv & kzv & _ & _ & _ & _ & _ & Hnew).
  cbn [ties set_ties] in Hnew. rewrite Hnew in E. clear Hnew. rewrite E.
  clear E.
  destruct (Z.eqb_spec (tie_state (item zero_tie (ties g) index)) 0) as [E0|E0].
  - rewrite (escapes_dead _ E0). split; [reflexivity|].
    split; [intros H; discriminate H|reflexivity].
  - pose proof (alive_in_range _ _ E0) as Hlt.
    rewrite (escapes_alive _ _ E0).
    destruct (escapes _).
    + split; [|split; [|intros H; discriminate H]].
      * intros j Hj. rewrite item_insert_ne by congruence.
        apply item_alter_ne. congruence.
      * intros _. rewrite item_insert_eq by (rewrite length_alter; exact Hlt).
        split; reflexivity.
    + split; [|split; [intros H; discriminate H|]].
      * intros j Hj. apply item_alter_ne. congruence.
      * intros _. apply item_alter_eq. exact Hlt.
Qed.

Lemma Process_Ties_post (g : Game) :
  -128 <= misses g < 128 ->
  misses (Process_Ties g) = to_int8 (misses g + escaped (ties g) NUM_TIES)
  /\ hits (Process_Ties g) = hits g /\ score (Process_Ties g) = score g
  /\ forall i, (i < NUM_TIES)%nat ->
       let t := item zero_tie (ties g) i in
       let t' := item zero_tie (ties (Process_Ties g)) i in
       (escapes t = true ->
        tie_state t' = 1 /\ tie_z t' = float_of_int (2 * FAR_Z))
       /\ (escapes t = false ->
           t' = if tie_state t =? 0 then t else move_tie t).
Proof.
  intros Hm. unfold Process_Ties.
  assert (H : let g' := for_loop NUM_TIES process_tie g in
              misses g' = to_int8 (misses g + escaped (ties g) NUM_TIES)
              /\ tally g' = tally g
              /\ (forall j, (NUM_TIES <= j)%nat ->
                    item zero_tie (ties g') j = item zero_tie (ties g) j)
              /\ forall i, (i < NUM_TIES)%nat ->
                   let t := item zero_tie (ties g) i in
                   let t' := item zero_tie (ties g') i in
                   (escapes t = true ->
                    tie_state t' = 1 /\ tie_z t' = float_of_int (2 * FAR_Z))
                   /\ (escapes t = false ->
                       t' = if tie_state t =? 0 then t else move_tie t)).
  { cbv zeta.
    apply (for_loop_ind_idx
      (fun n g' =>
         misses g' = to_int8 (misses g + escaped (ties g) n)
         /\ tally g' = tally g
         /\ (forall j, (n <= j)%nat ->
               item zero_tie (ties g') j = item zero_tie (ties g) j)
         /\ forall i, (i < n)%nat ->
              (escapes (item zero_tie (ties g) i) = true ->
               tie_state (item zero_tie (ties g') i) = 1
               /\ tie_z (item zero_tie (ties g') i) = float_of_int (2 * FAR_Z))
              /\ (escapes (item zero_tie (ties g) i) = false ->
                  item zero_tie (ties g') i
                  = if tie_state (item zero_tie (ties g) i) =? 0
                    then item zero_tie (ties g) i
                    else move_tie (item zero_tie (ties g) i)))).
    - cbn [escaped]. rewrite Z.add_0_r, to_int8_small by exact Hm.
      split; [reflexivity|]. split; [reflexivity|]. split; [reflexivity|].
      intros i Hi. lia.
    - intros n g' Hn (Im & It & Irest & Idone).
      destruct (process_tie_misses n g') as (Pm & Pt).
      destruct (process_tie_item n g') as (Po & Pe & Pk). cbv zeta in Pe, Pk.
      rewrite (Irest n (Nat.le_refl n)) in Pm, Pe, Pk.
      set (g2 := process_tie n g') in *. clearbody g2.
      split; [|split; [congruence|split]].
      + cbn [escaped]. rewrite Pm, Im.
        destruct (escapes (item zero_tie (ties g) n)).
        * rewrite to_int8_add_l. f_equal. lia.
        * f_equal. lia.
      + intros j Hj. rewrite Po by lia. apply Irest. lia.
      + intros i Hi. destruct (decide (i = n)) as [->|Hne].
        * split; assumption.
        * rewrite (Po i Hne). apply Idone. lia. }
  cbv zeta in H. destruct H as (H1 & H2 & _ & H4).
  unfold tally in H2. injection H2 as Hh Hs. auto.
Qed.


(** ** Hits need the cannon *)

Lemma tally_eq (g' g : Game) :
  tally g' = tally g -> hits g' = hits g /\ score g' = score g.
Proof. unfold tally. intros H. injection H. auto. Qed.

Lemma world_tally (g' g : Game) :
  world_part g' = world_part g -> tally g' = tally g.
Proof.
  intros H. apply world_part_eq in H as (_ & _ & _ & _ & Hh & Hs & _).
  unfold tally. rewrite Hh, Hs. reflexivity.
Qed.

Lemma moved_tally (g : Game) :
  tally (Process_Explosions (Process_Ties (Move_Starfield g))) = tally g.
Proof.
  unfold Process_Explosions. rewrite (for_loop_keeps tally) by reflexivity.
  unfold Process_Ties.
  rewrite (for_loop_keeps tally) by (intros i g'; apply process_tie_misses).
  unfold Move_Starfield. apply (for_loop_keeps tally). reflexivity.
Qed.

Lemma moved_cannon_state (g : Game) :
  cannon_state (Process_Explosions (Process_Ties (Move_Starfield g)))
  = cannon_state g.
Proof.
  destruct (player_part_eq _ _ (Process_Explosions_player
              (Process_Ties (Move_Starfield g))))
    as (_ & _ & _ & _ & _ & _ & _ & H1 & _).
  destruct (player_part_eq _ _ (Process_Ties_player (Move_Starfield g)))
    as (_ & _ & _ & _ & _ & _ & _ & H2 & _).
  destruct (player_part_eq _ _ (Move_Starfield_player g))
    as (_ & _ & _ & _ & _ & _ & _ & H3 & _).
  congruence.
Qed.

(** Without the cannon firing, [Draw_Ties] only draws. *)
Lemma draw_tie_idle (index : nat) (g : Game) (evs : list Event) :
  cannon_state g <> 1 -> fst (draw_tie index (g, evs)) = g.
Proof.
  intros H. unfold draw_tie.
  destruct (_ =? 0); [reflexivity|].
  destruct (for_loop _ _ _) as [box evs'].
  destruct (Z.eqb_spec (cannon_state g) 1) as [E|_]; [contradiction|].
  reflexivity.
Qed.

Lemma Draw_Ties_idle (g : Game) :
  cannon_state g <> 1 -> fst (Draw_Ties g) = g.
Proof.
  intros H. unfold Draw_Ties.
  apply (for_loop_ind (fun acc => fst acc = g)); [reflexivity|].
  intros i [g' evs] _ Hg. cbn [fst] in Hg. subst g'.
  apply draw_tie_idle, H.
Qed.

Lemma frame_idle_steps (g g1 gf : Game) :
  tally g1 = tally g ->
  gf = end_of_frame (simulate g1) ->
  cannon_state g1 <> 1 ->
  tally gf = tally g
  /\ explosions gf
     = explosions (Process_Explosions (Process_Ties (Move_Starfield g1))).
Proof.
  intros T1 Hf Hidle. unfold simulate in Hf.
  pose proof (moved_tally g1) as T2.
  pose proof (moved_cannon_state g1) as C2.
  set (g2 := Process_Explosions _) in *. clearbody g2.
  rewrite Draw_Ties_idle in Hf by (rewrite C2; exact Hidle).
  destruct (end_of_frame_fields g2) as (_ & Eh & Es & _ & _ & Ee & _).
  rewrite <- Hf in Eh, Es, Ee. split; [|exact Ee].
  apply tally_eq in T2 as (Th & Ts). apply tally_eq in T1 as (T1h & T1s).
  unfold tally. rewrite Eh, Es, Th, Ts, T1h, T1s. reflexivity.
Qed.

Lemma input_tally (g : Game) (b : Buttons) :
  tally (process_cannon (handle_input b g)) = tally g.
Proof.
  destruct (handle_input_world b g) as (W1 & _).
  destruct (process_cannon_world (handle_input b g)) as (W2 & _).
  rewrite (world_tally _ _ W2). apply world_tally, W1.
Qed.

Lemma frame_idle (g : Game) (b : Buttons) :
  cannon_state (frame g b) <> 1 ->
  tally (frame g b) = tally g
  /\ explosions (frame g b)
     = explosions (Process_Explosions
         (Process_Ties (Move_Starfield (process_cannon (handle_input b g))))).
Proof.
  intros Hidle.
  destruct (frame_cannon g b) as (Fs & _). cbv zeta in Fs.
  apply (frame_idle_steps g (process_cannon (handle_input b g))).
  - apply input_tally.
  - apply frame_steps.
  - rewrite <- Fs. exact Hidle.
Qed.

(** X4. A frame that ends with the cannon in a state other than [firing]
    changes neither the hits nor the score: the hit test of [Draw_Ties] is
    under [cannon_state == 1], and nothing else writes them. *)
Theorem no_hit_unless_firing (g : Game) (b : Buttons) :
  cannon_state (frame g b) <> 1 ->
  hits (frame g b) = hits g /\ score (frame g b) = score g.
Proof.
  intros H. destruct (frame_idle g b H) as (T & _).
  apply tally_eq. exact T.
Qed.

(** ** A session without a shot *)

Lemma Game_Init_battle (g : Game) : battle_part (Game_Init g) = battle_part g.
Proof.
  unfold Game_Init. cbv zeta.
  rewrite (for_loop_keeps battle_part) by reflexivity.
  rewrite (for_loop_keeps battle_part) by reflexivity.
  rewrite (for_loop_keeps battle_part) by reflexivity.
  rewrite (for_loop_keeps battle_part) by reflexivity.
  reflexivity.
Qed.

Lemma battle_part_eq (g' g : Game) :
  battle_part g' = battle_part g ->
  explosions g' = explosions g /\ misses g' = misses g
  /\ hits g' = hits g /\ score g' = score g.
Proof. unfold battle_part. apply tuple4_eq. Qed.

Lemma session_start_quiet (rs : nat -> N) : quiet (session rs []).
Proof.
  unfold session, run. cbn [fold_left].
  destruct (player_part_eq _ _ (Game_Init_player (Game_start rs)))
    as (_ & _ & _ & _ & _ & _ & _ & Hc & _).
  destruct (battle_part_eq _ _ (Game_Init_battle (Game_start rs)))
    as (He & _ & Hh & Hs).
  unfold quiet, tally. rewrite Hc, He, Hh, Hs. auto.
Qed.

Lemma Process_Explosions_quiet (g : Game) :
  explosions g = replicate NUM_EXPLOSIONS zero_expl ->
  explosions (Process_Explosions g) = explosions g.
Proof.
  intros H. destruct (Process_Explosions_fields g) as (_ & _ & _ & _ & E).
  rewrite E, H. vm_compute. reflexivity.
Qed.

Lemma frame_quiet (g : Game) (b : Buttons) :
  quiet g -> btn_fire b = false -> quiet (frame g b).
Proof.
  intros (Hc & Ht & He) Hb.
  pose proof (handle_input_ready b g Hc) as Hin. cbv zeta in Hin.
  rewrite Hb in Hin. cbn [andb] in Hin. destruct Hin as (Hs1 & _).
  destruct (frame_cannon g b) as (Fs & _). cbv zeta in Fs.
  rewrite (process_cannon_ready _ Hs1), Hs1 in Fs.
  destruct (frame_idle g b) as (Ft & Fe); [rewrite Fs; discriminate|].
  pose proof (moved_explosions g b) as Hm.
  set (g2 := Process_Ties _) in *. clearbody g2.
  set (gf := frame g b) in *. clearbody gf.
  rewrite Process_Explosions_quiet in Fe by (rewrite Hm; exact He).
  unfold quiet. rewrite Fs, Ft, Fe, Hm. auto.
Qed.

(** X5. In a session in which the fire button is never pressed, after
    every frame the cannon is ready, the hits and the score are 0 and no
    explosion is running. *)
Theorem never_fired (rs : nat -> N) (inputs : list Buttons) :
  never_fires inputs = true ->
  cannon_state (session rs inputs) = 0
  /\ hits (session rs inputs) = 0 /\ score (session rs inputs) = 0
  /\ forall index, expl_state (explosion (session rs inputs) index) = 0.
Proof.
  intros Hnf.
  assert (Hq : quiet (session rs inputs)).
  { induction inputs as [|b inputs IH] using rev_ind.
    - apply session_start_quiet.
    - unfold never_fires in Hnf. rewrite forallb_app in Hnf.
      apply andb_prop in Hnf as (Hn1 & Hn2). cbn [forallb] in Hn2.
      rewrite session_snoc. apply frame_quiet; [apply IH, Hn1|].
      destruct (btn_fire b); [discriminate Hn2|reflexivity]. }
  destruct Hq as (Hc & Ht & He). unfold tally in Ht.
  injection Ht as Hh Hs.
  split; [exact Hc|]. split; [exact Hh|]. split; [exact Hs|].
  intros index. unfold explosion, item. rewrite He.
  destruct (replicate NUM_EXPLOSIONS zero_expl !! index) as [e|] eqn:El;
    [apply lookup_replicate in El as [-> _]|]; reflexivity.
Qed.

(** ** The ties of a session *)

Lemma session_ind (P : Game -> Prop) (rs : nat -> N) :
  P (Game_Init (Game_start rs)) ->
  (forall inputs b, P (session rs inputs) -> P (frame (session rs inputs) b)) ->
  forall inputs, P (session rs inputs).
Proof.
  intros H0 Hstep inputs.
  induction inputs as [|b inputs IH] using rev_ind.
  - exact H0.
  - rewrite session_snoc. apply Hstep, IH.
Qed.

Lemma Init_Tie_fresh (index : nat) (g : Game) :
  exists t, fresh_tie t /\ ties (Init_Tie index g) = <[index := t]> (ties g).
Proof.
  destruct (Init_Tie_ties index g)
    as (kx & ky & kxv & kyv & kzv & Hx & Hy & Hxv & Hyv & Hzv & Heq).
  eexists. split; [|exact Heq].
  exists kx, ky, kxv, kyv, kzv. auto 10.
Qed.

Lemma fresh_tie_flying (t : TIE) : fresh_tie t -> tie_flying t.
Proof.
  intros (kx & ky & kxv & kyv & kzv & _ & _ & Hxv & Hyv & Hzv & ->).
  split.
  - split; [reflexivity|]. cbn [tie_xv tie_yv tie_zv]. eauto 10.
  - cbn [tie_z]. vm_compute. reflexivity.
Qed.

Lemma move_tie_approaching (t : TIE) :
  tie_approaching t -> tie_approaching (move_tie t).
Proof. intros H. exact H. Qed.

Lemma every_tie_insert (P : TIE -> Prop) (t : TIE) (l : list TIE) (i : nat) :
  every_tie P l -> P t -> every_tie P (<[i := t]> l).
Proof.
  intros Hall Ht j Hj.
  destruct (item_insert_cases zero_tie t l i j) as [E|(_ & _ & E)];
    rewrite E; [apply Hall, Hj|exact Ht].
Qed.

Lemma every_tie_alter (P : TIE -> Prop) (f : TIE -> TIE) (l : list TIE)
    (i : nat) :
  every_tie P l -> (forall t, P t -> P (f t)) -> every_tie P (alter f i l).
Proof.
  intros Hall Hf j Hj.
  destruct (item_alter_cases zero_tie f l i j) as [E|(-> & _ & E)];
    rewrite E; [apply Hall, Hj|apply Hf, Hall, Hj].
Qed.

Lemma process_tie_approaching (index : nat) (g : Game) :
  every_tie tie_approaching (ties g) ->
  every_tie tie_approaching (ties (process_tie index g)).
Proof.
  intros Hall.
  destruct (process_tie_fields index g) as (_ & _ & _ & _ & E).
  destruct (Init_Tie_fresh index (set_ties (alter move_tie index (ties g)) g))
    as (t & Hfresh & Hnew).
  cbn [ties set_ties] in Hnew. rewrite Hnew in E. clear Hnew. rewrite E.
  assert (Hmoved : every_tie tie_approaching (alter move_tie index (ties g)))
    by (apply every_tie_alter; [exact Hall|apply move_tie_approaching]).
  destruct (_ =? 0); [exact Hall|].
  destruct (F32.leb _ _); [|exact Hmoved].
  apply every_tie_insert; [exact Hmoved|]. apply fresh_tie_flying, Hfresh.
Qed.

Lemma hit_tie_fresh (index : nat) (g : Game) :
  exists t, fresh_tie t /\ ties (hit_tie index g) = <[index := t]> (ties g).
Proof.
  unfold hit_tie. cbv zeta.
  destruct (scene_part_eq _ _ (Start_Explosion_scene index g)) as (Ht & _).
  set (g1 := Start_Explosion index g) in *. clearbody g1.
  set (g2 := set_hits _ (set_score _ g1)).
  destruct (Init_Tie_fresh index g2) as (t & Hfresh & Hnew).
  exists t. split; [exact Hfresh|]. rewrite Hnew. subst g2.
  cbn [ties set_hits set_score]. rewrite Ht. reflexivity.
Qed.

Lemma draw_tie_flying (index : nat) (acc : Game * list Event) :
  every_tie tie_flying (ties (fst acc)) ->
  every_tie tie_flying (ties (fst (draw_tie index acc))).
Proof.
  destruct acc as [g evs]. cbn [fst]. intros Hall. unfold draw_tie.
  destruct (_ =? 0); [exact Hall|].
  destruct (for_loop _ _ _) as [box evs'].
  destruct (_ && _); [|exact Hall]. cbn [fst].
  destruct (hit_tie_fresh index g) as (t & Hfresh & ->).
  apply every_tie_insert; [exact Hall|]. apply fresh_tie_flying, Hfresh.
Qed.

Lemma Draw_Ties_flying (g : Game) :
  every_tie tie_flying (ties g) ->
  every_tie tie_flying (ties (fst (Draw_Ties g))).
Proof.
  intros Hall. unfold Draw_Ties.
  apply (for_loop_ind (fun acc => every_tie tie_flying (ties (fst acc))));
    [exact Hall|].
  intros i acc _. apply draw_tie_flying.
Qed.

Lemma Process_Ties_flying (g : Game) :
  depths_ok g -> every_tie tie_approaching (ties g) ->
  every_tie tie_flying (ties (Process_Ties g)).
Proof.
  intros Hok Hall.
  destruct (Process_Ties_depths g Hok) as (_ & _ & Hbn).
  assert (Happ : every_tie tie_approaching (ties (Process_Ties g))).
  { unfold Process_Ties.
    apply (for_loop_ind (fun g' => every_tie tie_approaching (ties g')));
      [exact Hall|].
    intros i g' _. apply process_tie_approaching. }
  intros i Hi. split; [apply Happ, Hi|].
  apply Hbn; [exact Hi|]. destruct (Happ i Hi) as (Hs & _). rewrite Hs.
  discriminate.
Qed.

Lemma frame_ties (g : Game) (b : Buttons) :
  ties (frame g b)
  = ties (fst (Draw_Ties
       (Process_Explosions
          (Process_Ties (Move_Starfield (process_cannon (handle_input b g))))))).
Proof.
  rewrite frame_steps. unfold simulate.
  set (g3 := fst (Draw_Ties _)). clearbody g3.
  destruct (end_of_frame_fields g3) as (_ & _ & _ & Ht & _). exact Ht.
Qed.

Lemma frame_flying (g : Game) (b : Buttons) :
  depths_ok g -> every_tie tie_approaching (ties g) ->
  every_tie tie_flying (ties (frame g b)).
Proof.
  intros Hok Hall. rewrite frame_ties.
  pose proof (process_cannon_depths _ (handle_input_depths b g Hok)) as H1.
  destruct (handle_input_world b g) as (W1 & _).
  destruct (process_cannon_world (handle_input b g)) as (W2 & _).
  apply world_part_eq in W1 as (T1 & _). apply world_part_eq in W2 as (T2 & _).
  set (g1 := process_cannon (handle_input b g)) in *. clearbody g1.
  destruct (Move_Starfield_depths g1 H1) as (H2 & _).
  destruct (Move_Starfield_rest g1) as (_ & _ & T3 & _).
  set (g2 := Move_Starfield g1) in *. clearbody g2.
  assert (H3 : every_tie tie_flying (ties (Process_Ties g2)))
    by (apply Process_Ties_flying; [exact H2|]; rewrite T3, T2, T1; exact Hall).
  set (g3 := Process_Ties g2) in *. clearbody g3.
  destruct (Process_Explosions_fields g3) as (_ & _ & _ & T4 & _).
  apply Draw_Ties_flying. rewrite T4. exact H3.
Qed.

Lemma Game_Init_ties (rs : nat -> N) :
  every_tie tie_flying (ties (Game_Init (Game_start rs))).
Proof.
  unfold Game_Init. cbv zeta.
  set (g0 := for_loop NUM_TIE_EDGES _ _).
  assert (Hlen : length (ties g0) = NUM_TIES).
  { subst g0.
    rewrite (for_loop_keeps ties) by reflexivity.
    rewrite (for_loop_keeps ties) by reflexivity.
    rewrite (for_loop_keeps ties) by reflexivity.
    reflexivity. }
  clearbody g0.
  assert (H : forall i, (i < NUM_TIES)%nat ->
                tie_flying (item zero_tie (ties (for_loop NUM_TIES Init_Tie g0)) i)).
  { apply (for_loop_ind_idx
      (fun n g' =>
         length (ties g') = NUM_TIES
         /\ forall i, (i < n)%nat -> tie_flying (item zero_tie (ties g') i))).
    - split; [exact Hlen|]. intros i Hi. lia.
    - intros n g' Hn (Hl & Hdone).
      destruct (Init_Tie_fresh n g') as (t & Hfresh & ->).
      rewrite length_insert. split; [exact Hl|].
      intros i Hi. destruct (decide (i = n)) as [->|Hne].
      + rewrite item_insert_eq by lia. apply fresh_tie_flying, Hfresh.
      + rewrite item_insert_ne by congruence. apply Hdone. lia. }
  exact H.
Qed.

(** X6. In every session, after [Game_Init] and after every frame, each of
    the [NUM_TIES] ties is alive, has a velocity that [Init_Tie] draws
    (towards the viewer at 8 to 71 a frame, sideways at less than 5 a
    frame) and is at a depth beyond [NEAR_Z]: a tie that passes the near
    plane or is hit restarts in the same frame, so the tests for a dead tie
    never succeed. *)
Theorem ties_keep_coming (rs : nat -> N) (inputs : list Buttons) :
  every_tie tie_flying (ties (session rs inputs)).
Proof.
  apply (session_ind (fun g => every_tie tie_flying (ties g))).
  - apply Game_Init_ties.
  - intros inputs' b Hall.
    apply frame_flying; [apply session_depths|].
    intros i Hi. apply Hall, Hi.
Qed.

(** ** The cannon of a session *)

Lemma frame_cannon_ok (g : Game) (b : Buttons) :
  cannon_ok g -> cannon_ok (frame g b).
Proof.
  intros Hok. destruct (frame_cannon g b) as (Fs & Fc & _). cbv zeta in Fs, Fc.
  unfold cannon_ok. rewrite Fs, Fc. clear Fs Fc.
  destruct Hok as [(Hs & Hc)|[(Hs & Hc)|(Hs & Hc)]].
  - pose proof (handle_input_ready b g Hs) as Hin. cbv zeta in Hin.
    set (g1 := handle_input b g) in *. clearbody g1.
    destruct (btn_fire b && (game_state g =? GAME_RUNNING)).
    + destruct Hin as (Hs1 & Hc1 & _).
      destruct (process_cannon_at g1 0) as (Ps & Pc & _);
        [lia|exact Hs1|exact Hc1|].
      rewrite Ps, Pc. right; left. vm_compute. intuition discriminate.
    + destruct Hin as (Hs1 & Hc1 & _).
      rewrite (process_cannon_ready g1 Hs1). left. rewrite Hs1, Hc1. auto.
  - destruct (handle_input_busy b g) as (Hs1 & Hc1 & _); [lia|].
    set (g1 := handle_input b g) in *. clearbody g1.
    destruct (process_cannon_at g1 (cannon_count g)) as (Ps & Pc & _).
    + lia.
    + rewrite Hs1, Hs. unfold cannon_phase.
      destruct (Z.eqb_spec (cannon_count g) 0); [reflexivity|].
      destruct (Z.leb_spec (cannon_count g) 10); [reflexivity|lia].
    + rewrite Hc1. unfold cannon_counter.
      destruct (Z.leb_spec (cannon_count g) 10); [reflexivity|lia].
    + rewrite Ps, Pc. unfold cannon_phase, cannon_counter.
      destruct (Z.leb_spec (cannon_count g + 1) 10).
      * right; left. split; [reflexivity|lia].
      * destruct (Z.leb_spec (cannon_count g + 1) 14); [|lia].
        right; right. split; [reflexivity|lia].
  - destruct (handle_input_busy b g) as (Hs1 & Hc1 & _); [lia|].
    set (g1 := handle_input b g) in *. clearbody g1.
    destruct (process_cannon_at g1 (cannon_count g - 1)) as (Ps & Pc & _).
    + lia.
    + rewrite Hs1, Hs. unfold cannon_phase.
      destruct (Z.eqb_spec (cannon_count g - 1) 0); [lia|].
      destruct (Z.leb_spec (cannon_count g - 1) 10); [lia|].
      destruct (Z.leb_spec (cannon_count g - 1) 14); [reflexivity|lia].
    + rewrite Hc1. unfold cannon_counter.
      destruct (Z.leb_spec (cannon_count g - 1) 10); lia.
    + rewrite Ps, Pc. unfold cannon_phase, cannon_counter.
      replace (cannon_count g - 1 + 1) with (cannon_count g) by lia.
      destruct (Z.leb_spec (cannon_count g) 10); [lia|].
      destruct (Z.leb_spec (cannon_count g) 14).
      * right; right. split; [reflexivity|lia].
      * left. split; [reflexivity|]. right. lia.
Qed.

(** X7. In every session, after every frame, the cannon is ready with its
    counter at 0 or at 16, or firing with its counter between 1 and 10, or
    cooling down with its counter between 12 and 15: the state is always
    one of the three, and the [int8_t] counter the two phases share never
    goes past 16. *)
Theorem cannon_in_cycle (rs : nat -> N) (inputs : list Buttons) :
  cannon_ok (session rs inputs).
Proof.
  apply (session_ind cannon_ok).
  - destruct (player_part_eq _ _ (Game_Init_player (Game_start rs)))
      as (_ & _ & _ & _ & _ & _ & _ & Hs & Hc & _).
    left. rewrite Hs, Hc. auto.
  - intros inputs' b. apply frame_cannon_ok.
Qed.

(** ** The explosions of a session *)

Lemma process_explosion_ok (e : EXPL) : expl_ok e -> expl_ok (process_explosion e).
Proof.
  intros [(Hs & Hc)|(Hs & Hc)].
  - rewrite (process_explosion_idle e Hs). left. auto.
  - destruct (process_explosion_counter e) as (Ps & Pc); [lia|].
    cbv zeta in Ps, Pc. rewrite to_int8_small in Ps, Pc by lia.
    unfold expl_ok. rewrite Ps, Pc.
    destruct (Z.ltb_spec 100 (expl_counter e + 1)); [left; auto|].
    right. split; [exact Hs|lia].
Qed.

Lemma Process_Explosions_ok (g : Game) :
  all_items expl_ok zero_expl (explosions g) ->
  all_items expl_ok zero_expl (explosions (Process_Explosions g)).
Proof.
  intros Hall. destruct (Process_Explosions_fields g) as (_ & _ & _ & _ & E).
  rewrite E. apply all_items_for_loop_alter; [exact Hall|].
  apply process_explosion_ok.
Qed.

Lemma start_explosion_at_ok (tie index : nat) (g : Game) :
  all_items expl_ok zero_expl (explosions g) ->
  all_items expl_ok zero_expl (explosions (start_explosion_at tie index g)).
Proof.
  intros Hall. unfold start_explosion_at.
  apply (for_loop_ind (fun g' => all_items expl_ok zero_expl (explosions g'))).
  - cbn [explosions set_explosions]. apply all_items_alter; [exact Hall|].
    intros _. right. cbn [expl_state expl_counter]. split; [reflexivity|lia].
  - intros i g' _ H. rewrite explosion_edge_explosions.
    apply all_items_alter; [exact H|]. intros He. exact He.
Qed.

Lemma Start_Explosion_ok (tie : nat) (g : Game) :
  all_items expl_ok zero_expl (explosions g) ->
  all_items expl_ok zero_expl (explosions (Start_Explosion tie g)).
Proof.
  intros Hall. unfold Start_Explosion.
  induction (seq 0 NUM_EXPLOSIONS) as [|i l IH]; cbn [Start_Explosion_hunt];
    [exact Hall|].
  destruct (_ =? 0); [apply start_explosion_at_ok, Hall|exact IH].
Qed.

Lemma Draw_Ties_expl_ok (g : Game) :
  all_items expl_ok zero_expl (explosions g) ->
  all_items expl_ok zero_expl (explosions (fst (Draw_Ties g))).
Proof.
  intros Hall. unfold Draw_Ties.
  apply (for_loop_ind
    (fun acc => all_items expl_ok zero_expl (explosions (fst acc))));
    [exact Hall|].
  intros i [g' evs] _ H. cbn [fst] in H. unfold draw_tie.
  destruct (_ =? 0); [exact H|].
  destruct (for_loop _ _ _) as [box evs'].
  destruct (_ && _); [|exact H]. cbn [fst].
  destruct (hit_tie_fields i g') as (_ & _ & _ & E & _). rewrite E.
  apply Start_Explosion_ok, H.
Qed.

Lemma frame_expl_ok (g : Game) (b : Buttons) :
  all_items expl_ok zero_expl (explosions g) ->
  all_items expl_ok zero_expl (explosions (frame g b)).
Proof.
  intros Hall. rewrite frame_explosions.
  pose proof (moved_explosions g b) as Hm.
  set (g2 := Process_Ties _) in *. clearbody g2.
  apply Draw_Ties_expl_ok, Process_Explosions_ok. rewrite Hm. exact Hall.
Qed.

(** X8. In every session, after every frame, each explosion is off with
    its counter at 0, or on with its counter between 0 and 100. *)
Theorem explosions_in_bounds (rs : nat -> N) (inputs : list Buttons) :
  all_items expl_ok zero_expl (explosions (session rs inputs)).
Proof.
  apply (session_ind (fun g => all_items expl_ok zero_expl (explosions g))).
  - destruct (battle_part_eq _ _ (Game_Init_battle (Game_start rs)))
      as (He & _).
    rewrite He. apply all_items_replicate. left. auto.
  - intros inputs' b. apply frame_expl_ok.
Qed.

(** ** The crosshair of a session *)

Lemma f32_eqb_eq (a b : float32) : f32_eqb a b = true -> a = b.
Proof.
  destruct a as [s|s| |s m e], b as [s'|s'| |s' m' e']; cbn [f32_eqb];
    try discriminate; intros H.
  - apply Bool.eqb_prop in H. congruence.
  - apply Bool.eqb_prop in H. congruence.
  - reflexivity.
  - apply andb_prop in H as [H He]. apply andb_prop in H as [Hs Hm].
    apply Bool.eqb_prop in Hs. apply Pos.eqb_eq in Hm. apply Z.eqb_eq in He.
    congruence.
Qed.

(** The steps of the crosshair on whole offsets, by going through them. *)
Lemma cross_x_steps (k : Z) :
  - (WINDOW_WIDTH / 2) <= k <= WINDOW_WIDTH / 2 ->
  (if F32.ltb (float_of_int (WINDOW_WIDTH / 2))
        (F32.add (float_of_int k) (float_of_int CROSS_VEL))
   then float_of_int (Z.quot (- WINDOW_WIDTH) 2)
   else F32.add (float_of_int k) (float_of_int CROSS_VEL))
  = float_of_int (wrap_up (WINDOW_WIDTH / 2) k)
  /\ (if F32.ltb (F32.sub (float_of_int k) (float_of_int CROSS_VEL))
           (float_of_int (Z.quot (- WINDOW_WIDTH) 2))
      then float_of_int (WINDOW_WIDTH / 2)
      else F32.sub (float_of_int k) (float_of_int CROSS_VEL))
     = float_of_int (wrap_down (WINDOW_WIDTH / 2) k)
  /\ int_of_float (F32.add (float_of_int (WINDOW_WIDTH / 2)) (float_of_int k))
     = WINDOW_WIDTH / 2 + k.
Proof.
  intros Hk.
  pose proof (range_check
    (fun k =>
       f32_eqb
         (if F32.ltb (float_of_int (WINDOW_WIDTH / 2))
               (F32.add (float_of_int k) (float_of_int CROSS_VEL))
          then float_of_int (Z.quot (- WINDOW_WIDTH) 2)
          else F32.add (float_of_int k) (float_of_int CROSS_VEL))
         (float_of_int (wrap_up (WINDOW_WIDTH / 2) k))
       && f32_eqb
            (if F32.ltb (F32.sub (float_of_int k) (float_of_int CROSS_VEL))
                  (float_of_int (Z.quot (- WINDOW_WIDTH) 2))
             then float_of_int (WINDOW_WIDTH / 2)
             else F32.sub (float_of_int k) (float_of_int CROSS_VEL))
            (float_of_int (wrap_down (WINDOW_WIDTH / 2) k))
       && (int_of_float
             (F32.add (float_of_int (WINDOW_WIDTH / 2)) (float_of_int k))
           =? WINDOW_WIDTH / 2 + k))
    (-64) 129 ltac:(vm_compute; reflexivity) k
    ltac:(change (WINDOW_WIDTH / 2) with 64 in Hk; lia)) as H.
  cbv beta in H. apply andb_prop in H as [H H3]. apply andb_prop in H as [H1 H2].
  apply f32_eqb_eq in H1, H2. apply Z.eqb_eq in H3. auto.
Qed.

Lemma cross_y_steps (k : Z) :
  - (WINDOW_HEIGHT / 2) <= k <= WINDOW_HEIGHT / 2 ->
  (if F32.ltb (float_of_int (WINDOW_HEIGHT / 2))
        (F32.add (float_of_int k) (float_of_int CROSS_VEL))
   then float_of_int (Z.quot (- WINDOW_HEIGHT) 2)
   else F32.add (float_of_int k) (float_of_int CROSS_VEL))
  = float_of_int (wrap_up (WINDOW_HEIGHT / 2) k)
  /\ (if F32.ltb (F32.sub (float_of_int k) (float_of_int CROSS_VEL))
           (float_of_int (Z.quot (- WINDOW_HEIGHT) 2))
      then float_of_int (WINDOW_HEIGHT / 2)
      else F32.sub (float_of_int k) (float_of_int CROSS_VEL))
     = float_of_int (wrap_down (WINDOW_HEIGHT / 2) k)
  /\ int_of_float (F32.sub (float_of_int (WINDOW_HEIGHT / 2)) (float_of_int k))
     = WINDOW_HEIGHT / 2 - k.
Proof.
  intros Hk.
  pose proof (range_check
    (fun k =>
       f32_eqb
         (if F32.ltb (float_of_int (WINDOW_HEIGHT / 2))
               (F32.add (float_of_int k) (float_of_int CROSS_VEL))
          then float_of_int (Z.quot (- WINDOW_HEIGHT) 2)
          else F32.add (float_of_int k) (float_of_int CROSS_VEL))
         (float_of_int (wrap_up (WINDOW_HEIGHT / 2) k))
       && f32_eqb
            (if F32.ltb (F32.sub (float_of_int k) (float_of_int CROSS_VEL))
                  (float_of_int (Z.quot (- WINDOW_HEIGHT) 2))
             then float_of_int (WINDOW_HEIGHT / 2)
             else F32.sub (float_of_int k) (float_of_int CROSS_VEL))
            (float_of_int (wrap_down (WINDOW_HEIGHT / 2) k))
       && (int_of_float
             (F32.sub (float_of_int (WINDOW_HEIGHT / 2)) (float_of_int k))
           =? WINDOW_HEIGHT / 2 - k))
    (-80) 161 ltac:(vm_compute; reflexivity) k
    ltac:(change (WINDOW_HEIGHT / 2) with 80 in Hk; lia)) as H.
  cbv beta in H. apply andb_prop in H as [H H3]. apply andb_prop in H as [H1 H2].
  apply f32_eqb_eq in H1, H2. apply Z.eqb_eq in H3. auto.
Qed.

Lemma wrap_range (half k : Z) :
  CROSS_VEL <= half -> - half <= k <= half ->
  - half <= wrap_up half k <= half /\ - half <= wrap_down half k <= half.
Proof.
  unfold wrap_up, wrap_down, CROSS_VEL. intros Hh Hk.
  destruct (Z.ltb_spec half (k + 6)), (Z.ltb_spec (k - 6) (- half)); lia.
Qed.

Lemma move_crosshair_offsets (b : Buttons) (g : Game) :
  cross_x (move_crosshair b g)
  = (if btn_right b then
       if F32.ltb (float_of_int (WINDOW_WIDTH / 2))
            (F32.add (cross_x g) (float_of_int CROSS_VEL))
       then float_of_int (Z.quot (- WINDOW_WIDTH) 2)
       else F32.add (cross_x g) (float_of_int CROSS_VEL)
     else if btn_left b then
       if F32.ltb (F32.sub (cross_x g) (float_of_int CROSS_VEL))
            (float_of_int (Z.quot (- WINDOW_WIDTH) 2))
       then float_of_int (WINDOW_WIDTH / 2)
       else F32.sub (cross_x g) (float_of_int CROSS_VEL)
     else cross_x g)
  /\ cross_y (move_crosshair b g)
     = (if btn_down b then
          if F32.ltb (F32.sub (cross_y g) (float_of_int CROSS_VEL))
               (float_of_int (Z.quot (- WINDOW_HEIGHT) 2))
          then float_of_int (WINDOW_HEIGHT / 2)
          else F32.sub (cross_y g) (float_of_int CROSS_VEL)
        else if btn_up b then
          if F32.ltb (float_of_int (WINDOW_HEIGHT / 2))
               (F32.add (cross_y g) (float_of_int CROSS_VEL))
          then float_of_int (Z.quot (- WINDOW_HEIGHT) 2)
          else F32.add (cross_y g) (float_of_int CROSS_VEL)
        else cross_y g).
Proof.
  unfold move_crosshair. destruct g.
  destruct (btn_right b), (btn_left b), (btn_down b), (btn_up b);
    cbv zeta;
    repeat (cbn [cross_x cross_y set_cross_x set_cross_y];
            match goal with
            | |- context [if F32.ltb ?a ?b then _ else _] =>
                destruct (F32.ltb a b) eqn:?
            end);
    cbn [cross_x cross_y set_cross_x set_cross_y] in *;
    split; congruence.
Qed.

Lemma handle_input_offsets (b : Buttons) (g : Game) :
  (cross_x (handle_input b g) = cross_x (move_crosshair b g)
   /\ cross_y (handle_input b g) = cross_y (move_crosshair b g))
  \/ handle_input b g = g.
Proof.
  unfold handle_input.
  destruct (game_state g =? GAME_RUNNING); [left|right; reflexivity].
  unfold fire_cannon, speed_control.
  set (g1 := move_crosshair b g). clearbody g1.
  destruct (btn_fast b), (btn_slow b);
    repeat match goal with |- context [if ?c then _ else _] => destruct c end;
    cbn; auto.
Qed.

Lemma end_of_frame_screen (g : Game) :
  cross_x_screen (end_of_frame g)
  = int_of_float (F32.add (float_of_int (WINDOW_WIDTH / 2)) (cross_x g))
  /\ cross_y_screen (end_of_frame g)
     = int_of_float (F32.sub (float_of_int (WINDOW_HEIGHT / 2)) (cross_y g)).
Proof.
  rewrite end_of_frame_eq. cbv zeta.
  destruct (cannon_state g =? 1), (TIES_MISSED_END_GAME <? misses g);
    split; reflexivity.
Qed.

Lemma frame_screen (g : Game) (b : Buttons) :
  cross_x_screen (frame g b)
  = int_of_float
      (F32.add (float_of_int (WINDOW_WIDTH / 2)) (cross_x (frame g b)))
  /\ cross_y_screen (frame g b)
     = int_of_float
         (F32.sub (float_of_int (WINDOW_HEIGHT / 2)) (cross_y (frame g b))).
Proof.
  rewrite frame_steps.
  set (g3 := simulate _). clearbody g3.
  destruct (end_of_frame_screen g3) as (Hx & Hy).
  destruct (end_of_frame_fields g3) as (_ & _ & _ & _ & _ & _ & Ex & Ey & _).
  rewrite Hx, Hy, Ex, Ey. auto.
Qed.

Lemma frame_crosshair_ok (g : Game) (b : Buttons) :
  crosshair_ok g -> crosshair_ok (frame g b).
Proof.
  intros (kx & ky & Hkx & Hky & Hx & Hy & _).
  assert (Hin : exists kx' ky',
            - (WINDOW_WIDTH / 2) <= kx' <= WINDOW_WIDTH / 2
            /\ - (WINDOW_HEIGHT / 2) <= ky' <= WINDOW_HEIGHT / 2
            /\ cross_x (handle_input b g) = float_of_int kx'
            /\ cross_y (handle_input b g) = float_of_int ky').
  { destruct (handle_input_offsets b g) as [(Ex & Ey)|E].
    - destruct (move_crosshair_offsets b g) as (Mx & My).
      rewrite Ex, Ey, Mx, My, Hx, Hy.
      destruct (cross_x_steps kx Hkx) as (X1 & X2 & _).
      destruct (cross_y_steps ky Hky) as (Y1 & Y2 & _).
      rewrite X1, X2, Y1, Y2.
      destruct (wrap_range (WINDOW_WIDTH / 2) kx) as (Rx1 & Rx2);
        [vm_compute; discriminate|exact Hkx|].
      destruct (wrap_range (WINDOW_HEIGHT / 2) ky) as (Ry1 & Ry2);
        [vm_compute; discriminate|exact Hky|].
      destruct (btn_right b), (btn_left b), (btn_down b), (btn_up b);
        eauto 10.
    - rewrite E. eauto 10. }
  destruct Hin as (kx' & ky' & Hkx' & Hky' & Hx' & Hy').
  destruct (frame_player g b) as (Fx & Fy & _).
  destruct (frame_screen g b) as (Sx & Sy).
  set (gf := frame g b) in *. clearbody gf.
  rewrite Fx, Hx' in Sx. rewrite Fy, Hy' in Sy.
  destruct (cross_x_steps kx' Hkx') as (_ & _ & X3).
  destruct (cross_y_steps ky' Hky') as (_ & _ & Y3).
  exists kx', ky'. rewrite Fx, Fy, Sx, Sy, X3, Y3. auto 10.
Qed.

(** X9. In every session, after every frame, the crosshair is at whole
    offsets from the centre of the screen, at most half the width and half
    the height away from it, and its screen position is the centre plus
    these offsets (the vertical one inverted): from 0 to [WINDOW_WIDTH] and
    from 0 to [WINDOW_HEIGHT], both ends included. *)
Theorem crosshair_on_screen (rs : nat -> N) (inputs : list Buttons) :
  crosshair_ok (session rs inputs).
Proof.
  apply (session_ind crosshair_ok).
  - destruct (player_part_eq _ _ (Game_Init_player (Game_start rs)))
      as (Hx & Hy & Hsx & Hsy & _).
    exists 0, 0. rewrite Hx, Hy, Hsx, Hsy.
    vm_compute. intuition discriminate.
  - intros inputs' b. apply frame_crosshair_ok.
Qed.

(** ** What a frame draws *)

Lemma draw_tie_edge_lines (g : Game) (t : TIE) (color : Z) (edge : nat)
    (acc : BBox * list Event) :
  Forall line_or_division (snd acc) ->
  Forall line_or_division (snd (draw_tie_edge g t color edge acc)).
Proof.
  destruct acc as [box evs]. intros H. unfold draw_tie_edge. cbv zeta.
  cbn [snd] in *. apply Forall_app. split; [exact H|].
  repeat (apply Forall_cons; split; [exact I|]). apply Forall_nil_2.
Qed.

Lemma Draw_Ties_lines (g : Game) : Forall line_or_division (snd (Draw_Ties g)).
Proof.
  unfold Draw_Ties.
  apply (for_loop_ind (fun acc => Forall line_or_division (snd acc)));
    [constructor|].
  intros i [g' evs] _ H. cbn [snd] in H. unfold draw_tie.
  destruct (_ =? 0); [exact H|].
  assert (Hl : Forall line_or_division
                 (snd (for_loop NUM_TIE_EDGES
                         (draw_tie_edge g' (item zero_tie (ties g') i)
                            (tie_color (item zero_tie (ties g') i)))
                         (empty_box, evs)))).
  { apply (for_loop_ind (fun acc => Forall line_or_division (snd acc)));
      [exact H|].
    intros edge acc _. apply draw_tie_edge_lines. }
  destruct (for_loop _ _ _) as [box evs']. cbn [snd] in Hl.
  destruct (_ && _); exact Hl.
Qed.

Lemma Draw_Explosions_lines (g : Game) :
  Forall line_or_division (Draw_Explosions g).
Proof.
  unfold Draw_Explosions.
  apply Forall_flat_map_in. intros index _. unfold draw_explosion.
  destruct (_ =? 0); [constructor|].
  apply Forall_flat_map_in. intros edge _. unfold draw_explosion_edge.
  cbv zeta. destruct (_ && _); [constructor|].
  repeat (apply Forall_cons; split; [exact I|]). apply Forall_nil_2.
Qed.

Lemma draw_crosshair_lines (g : Game) :
  Forall line_or_division (snd (draw_crosshair g)).
Proof.
  unfold draw_crosshair. cbv zeta. cbn [snd].
  repeat (apply Forall_cons; split; [exact I|]). apply Forall_nil_2.
Qed.

Lemma draw_beam_lines (g : Game) : Forall line_or_division (snd (draw_beam g)).
Proof.
  unfold draw_beam. destruct (cannon_state g =? 1); [|constructor].
  cbn [rand fst snd]. destruct (_ =? 1); cbn [snd];
    (apply Forall_cons; split; [exact I|constructor]).
Qed.

Lemma Draw_Starfield_on_screen (g : Game) :
  Forall (fun ev => on_screen ev /\ is_text ev = false) (Draw_Starfield g).
Proof.
  unfold Draw_Starfield.
  apply Forall_flat_map_in. intros index _. unfold draw_star. cbv zeta.
  apply Forall_app. split.
  - repeat (apply Forall_cons; split; [split; [exact I|reflexivity]|]).
    apply Forall_nil_2.
  - destruct (Z.leb_spec WINDOW_WIDTH
                (screen_x (F32.div (persp_num (pt_x (item zero_point (stars g) index)))
                             (pt_z (item zero_point (stars g) index)))));
      [constructor|].
    destruct (Z.ltb_spec
                (screen_x (F32.div (persp_num (pt_x (item zero_point (stars g) index)))
                             (pt_z (item zero_point (stars g) index)))) 0);
      [constructor|].
    destruct (Z.leb_spec WINDOW_HEIGHT
                (screen_y (F32.div (persp_num (pt_y (item zero_point (stars g) index)))
                             (pt_z (item zero_point (stars g) index)))));
      [constructor|].
    destruct (Z.ltb_spec
                (screen_y (F32.div (persp_num (pt_y (item zero_point (stars g) index)))
                             (pt_z (item zero_point (stars g) index)))) 0);
      [constructor|].
    cbn [orb]. apply Forall_cons. split; [|constructor].
    split; [|reflexivity]. cbn [on_screen]. lia.
Qed.

Lemma lines_on_screen (evs : list Event) :
  Forall line_or_division evs ->
  Forall (fun ev => on_screen ev /\ is_text ev = false) evs.
Proof.
  apply List.Forall_impl. intros [who n d|c|x y c|x1 y1 x2 y2 c|s c x y] H;
    cbn in *; try contradiction; auto.
Qed.

(** The events of a frame but for the text at its end. *)
Lemma Game_Main_drawing (b : Buttons) (g : Game) :
  exists evs,
    snd (Game_Main b g) = evs ++ draw_game_over g
    /\ Forall (fun ev => on_screen ev /\ is_text ev = false) evs.
Proof.
  rewrite Game_Main_events. cbv zeta.
  destruct (handle_input_world b g) as (_ & _ & G1).
  destruct (process_cannon_world (handle_input b g)) as (_ & _ & G2 & _).
  set (g1 := process_cannon (handle_input b g)) in *. clearbody g1.
  destruct (player_part_eq _ _ (Move_Starfield_player g1))
    as (_ & _ & _ & _ & _ & _ & _ & _ & _ & G3).
  destruct (player_part_eq _ _ (Process_Ties_player (Move_Starfield g1)))
    as (_ & _ & _ & _ & _ & _ & _ & _ & _ & G4).
  destruct (player_part_eq _ _
              (Process_Explosions_player (Process_Ties (Move_Starfield g1))))
    as (_ & _ & _ & _ & _ & _ & _ & _ & _ & G5).
  set (g2 := Process_Explosions _) in *. clearbody g2.
  destruct (player_part_eq _ _ (Draw_Ties_player g2))
    as (_ & _ & _ & _ & _ & _ & _ & _ & _ & G6).
  pose proof (Draw_Ties_lines g2) as L2.
  set (g3 := fst (Draw_Ties g2)) in *.
  set (ev3 := snd (Draw_Ties g2)) in *. clearbody g3 ev3.
  assert (G7 : game_state (fst (draw_beam (fst (draw_crosshair g3))))
               = game_state g3).
  { rewrite draw_beam_calls. unfold draw_crosshair. cbv zeta. cbn [fst].
    destruct (_ =? 1); reflexivity. }
  assert (Hover : draw_game_over (fst (draw_beam (fst (draw_crosshair g3))))
                  = draw_game_over g).
  { unfold draw_game_over. rewrite G7, G6, G5, G4, G3, G2, G1. reflexivity. }
  rewrite Hover.
  exists (fillScreen ST77XX_BLACK
          :: Draw_Starfield g2 ++ ev3 ++ Draw_Explosions g3
             ++ snd (draw_crosshair g3)
             ++ snd (draw_beam (fst (draw_crosshair g3)))).
  split.
  - cbn [app]. f_equal. rewrite <- !app_assoc. reflexivity.
  - apply Forall_cons. split; [split; [exact I|reflexivity]|].
    apply Forall_app; split; [apply Draw_Starfield_on_screen|].
    apply Forall_app; split; [apply lines_on_screen, L2|].
    apply Forall_app; split; [apply lines_on_screen, Draw_Explosions_lines|].
    apply Forall_app; split; [apply lines_on_screen, draw_crosshair_lines|].
    apply lines_on_screen, draw_beam_lines.
Qed.

(** X10. Every pixel a frame draws is on the screen: its column is from 0
    to [WINDOW_WIDTH] - 1 and its row from 0 to [WINDOW_HEIGHT] - 1.  Only
    [Draw_Starfield] draws pixels, and it skips a star that projects
    outside. *)
Theorem pixels_on_screen (b : Buttons) (g : Game) :
  Forall on_screen (snd (Game_Main b g)).
Proof.
  destruct (Game_Main_drawing b g) as (evs & -> & Hevs).
  apply Forall_app. split.
  - revert Hevs. apply List.Forall_impl. intros ev (H & _). exact H.
  - unfold draw_game_over. destruct (_ =? _); [|constructor].
    apply Forall_cons. split; [exact I|constructor].
Qed.

(** X11. A frame writes a text exactly when the game was over at its
    start, and the text is then its last drawing command, the one of the
    source.  The flag is tested before the misses are checked, so the frame
    in which the game ends does not show the text yet. *)
Theorem game_over_text (b : Buttons) (g : Game) :
  existsb is_text (snd (Game_Main b g)) = (game_state g =? GAME_OVER)
  /\ (if game_state g =? GAME_OVER
      then last (snd (Game_Main b g))
           = Some (DrawText "G A M E  O V E R"%string (RGB16Bit 255 255 255)
                     20 128)
      else True).
Proof.
  destruct (Game_Main_drawing b g) as (evs & -> & Hevs).
  assert (Hno : existsb is_text evs = false).
  { induction Hevs as [|ev evs' (_ & Hev) _ IH]; [reflexivity|].
    cbn [existsb]. rewrite Hev, IH. reflexivity. }
  rewrite existsb_app, Hno. unfold draw_game_over.
  destruct (game_state g =? GAME_OVER).
  - split; [reflexivity|]. apply last_snoc.
  - split; [reflexivity|exact I].
Qed.

(** ** Game_Init *)

Lemma fill_list {A : Type} (d : A) (src l : list A) (n : nat) :
  length l = n -> length src = n ->
  for_loop n (fun i l => <[i := item d src i]> l) l = src.
Proof.
  intros Hl Hs.
  assert (H : forall k, (k <= n)%nat ->
            let l' := for_loop k (fun i l => <[i := item d src i]> l) l in
            length l' = n
            /\ forall j, l' !! j = if decide (j < k)%nat then src !! j else l !! j).
  { induction k as [|k IH]; intros Hk; cbv zeta.
    - split; [exact Hl|]. intros j.
      destruct (decide (j < 0)%nat); [lia|reflexivity].
    - rewrite for_loop_S. destruct (IH ltac:(lia)) as (IHl & IHj).
      cbv zeta in IHl, IHj. rewrite length_insert. split; [exact IHl|].
      intros j. destruct (decide (j = k)) as [->|Hne].
      + rewrite list_lookup_insert_eq by lia.
        destruct (decide (k < S k)%nat); [|lia].
        unfold item. destruct (lookup_lt_is_Some_2 src k ltac:(lia)) as [x Hx].
        rewrite Hx. reflexivity.
      + rewrite list_lookup_insert_ne by congruence. rewrite IHj.
        destruct (decide (j < k)%nat), (decide (j < S k)%nat);
          try reflexivity; lia. }
  destruct (H n (Nat.le_refl n)) as (Hlen & Hj). cbv zeta in Hlen, Hj.
  apply list_eq. intros j. rewrite Hj.
  destruct (decide (j < n)%nat); [reflexivity|].
  rewrite !lookup_ge_None_2 by lia. reflexivity.
Qed.

Lemma load_vlist (n : nat) (g : Game) :
  for_loop n
    (fun index g =>
       set_tie_vlist
         (<[index := item zero_point (temp_tie_vlist g) index]> (tie_vlist g)) g)
    g
  = set_tie_vlist
      (for_loop n
         (fun i l => <[i := item zero_point (temp_tie_vlist g) i]> l)
         (tie_vlist g))
      g.
Proof.
  induction n as [|n IH]; [reflexivity|].
  rewrite !for_loop_S, IH. reflexivity.
Qed.

Lemma load_shape (n : nat) (g : Game) :
  for_loop n
    (fun index g =>
       set_tie_shape
         (<[index := item zero_line (temp_tie_shape g) index]> (tie_shape g)) g)
    g
  = set_tie_shape
      (for_loop n
         (fun i l => <[i := item zero_line (temp_tie_shape g) i]> l)
         (tie_shape g))
      g.
Proof.
  induction n as [|n IH]; [reflexivity|].
  rewrite !for_loop_S, IH. reflexivity.
Qed.

Lemma init_star_fresh (index : nat) (g : Game) :
  rgb_white g = RGB16Bit 255 255 255 ->
  exists s, fresh_star s /\ stars (init_star index g) = <[index := s]> (stars g).
Proof.
  intros Hw. unfold init_star, rand.
  cbn [fst snd rand_seq rand_calls set_rand_calls set_stars stars rgb_white].
  set (r1 := Z.of_N _). set (r2 := Z.of_N _). set (r3 := Z.of_N _).
  assert (H1 : 0 <= r1) by apply N2Z.is_nonneg.
  assert (H2 : 0 <= r2) by apply N2Z.is_nonneg.
  assert (H3 : 0 <= r3) by apply N2Z.is_nonneg.
  clearbody r1 r2 r3.
  pose proof (int_rem_range r1 (WINDOW_WIDTH * 4) H1 ltac:(reflexivity)).
  pose proof (int_rem_range r2 (WINDOW_HEIGHT * 4) H2 ltac:(reflexivity)).
  pose proof (int_rem_range r3 (FAR_Z / 2 - NEAR_Z) H3 ltac:(reflexivity)).
  eexists. split; [|reflexivity]. rewrite Hw.
  exists (int_add (-2 * WINDOW_WIDTH) (int_rem r1 (WINDOW_WIDTH * 4))),
    (int_add (-2 * WINDOW_HEIGHT) (int_rem r2 (WINDOW_HEIGHT * 4))),
    (int_add NEAR_Z (int_rem r3 (FAR_Z / 2 - NEAR_Z))).
  change (FAR_Z / 2 - NEAR_Z) with 490 in *. change (FAR_Z / 2) with 500.
  unfold int_add, WINDOW_WIDTH, WINDOW_HEIGHT, NEAR_Z in *.
  rewrite !to_int16_small by lia.
  repeat split; lia.
Qed.

(** The loop of the stars. *)
Lemma init_stars (g : Game) :
  length (stars g) = NUM_STARS -> rgb_white g = RGB16Bit 255 255 255 ->
  let g' := for_loop NUM_STARS init_star g in
  length (stars g') = NUM_STARS
  /\ rand_calls g' = (rand_calls g + 3 * NUM_STARS)%nat
  /\ forall i, (i < NUM_STARS)%nat -> fresh_star (item zero_point (stars g') i).
Proof.
  intros Hlen Hw. cbv zeta.
  apply (for_loop_ind_idx
    (fun n g' =>
       rgb_white g' = RGB16Bit 255 255 255
       /\ length (stars g') = NUM_STARS
       /\ rand_calls g' = (rand_calls g + 3 * n)%nat
       /\ forall i, (i < n)%nat -> fresh_star (item zero_point (stars g') i))
    NUM_STARS init_star g).
  - split; [exact Hw|]. split; [exact Hlen|]. split; [lia|]. intros i Hi. lia.
  - intros n g' Hn (Hw' & Hl & Hr & Hdone).
    destruct (init_star_fresh n g' Hw') as (s & Hs & ->).
    rewrite length_insert.
    split; [exact Hw'|]. split; [exact Hl|]. split.
    + change (rand_calls (init_star n g')) with (S (S (S (rand_calls g')))).
      lia.
    + intros i Hi. destruct (decide (i = n)) as [->|Hne].
      * rewrite item_insert_eq by lia. exact Hs.
      * rewrite item_insert_ne by congruence. apply Hdone. lia.
Qed.

(** The loop of the ties. *)
Lemma init_ties (g : Game) :
  length (ties g) = NUM_TIES ->
  let g' := for_loop NUM_TIES Init_Tie g in
  length (ties g') = NUM_TIES
  /\ rand_calls g' = (rand_calls g + 5 * NUM_TIES)%nat
  /\ every_tie fresh_tie (ties g').
Proof.
  intros Hlen. cbv zeta.
  apply (for_loop_ind_idx
    (fun n g' =>
       length (ties g') = NUM_TIES
       /\ rand_calls g' = (rand_calls g + 5 * n)%nat
       /\ forall i, (i < n)%nat -> fresh_tie (item zero_tie (ties g') i))
    NUM_TIES Init_Tie g).
  - split; [exact Hlen|]. split; [lia|]. intros i Hi. lia.
  - intros n g' Hn (Hl & Hr & Hdone).
    destruct (Init_Tie_fresh n g') as (t & Hfresh & ->).
    rewrite length_insert. split; [exact Hl|]. split.
    + change (rand_calls (Init_Tie n g'))
        with (S (S (S (S (S (rand_calls g')))))).
      lia.
    + intros i Hi. destruct (decide (i = n)) as [->|Hne].
      * rewrite item_insert_eq by lia. exact Hfresh.
      * rewrite item_insert_ne by congruence. apply Hdone. lia.
Qed.

Lemma init_stars_keeps (g : Game) :
  let g' := for_loop NUM_STARS init_star g in
  fixed_part g' = fixed_part g /\ player_part g' = player_part g
  /\ battle_part g' = battle_part g /\ ties g' = ties g.
Proof.
  cbv zeta.
  rewrite (for_loop_keeps fixed_part) by reflexivity.
  rewrite (for_loop_keeps player_part) by reflexivity.
  rewrite (for_loop_keeps battle_part) by reflexivity.
  rewrite (for_loop_keeps ties) by reflexivity.
  auto.
Qed.

Lemma init_ties_keeps (g : Game) :
  let g' := for_loop NUM_TIES Init_Tie g in
  fixed_part g' = fixed_part g /\ player_part g' = player_part g
  /\ battle_part g' = battle_part g /\ stars g' = stars g.
Proof.
  cbv zeta.
  rewrite (for_loop_keeps fixed_part) by reflexivity.
  rewrite (for_loop_keeps player_part) by reflexivity.
  rewrite (for_loop_keeps battle_part) by reflexivity.
  rewrite (for_loop_keeps stars) by reflexivity.
  auto.
Qed.

(** [Game_Init] as its four loops on the state with the colours set. *)
Lemma Game_Init_stages (g : Game) :
  length (tie_vlist g) = NUM_TIE_VERTS -> length (tie_shape g) = NUM_TIE_EDGES ->
  let g1 :=
    set_rgb_red (RGB16Bit 255 0 0)
      (set_rgb_blue (RGB16Bit 0 0 255)
         (set_rgb_white (RGB16Bit 255 255 255)
            (set_rgb_green (RGB16Bit 0 255 0) g))) in
  let g2 := for_loop NUM_STARS init_star g1 in
  Game_Init g
  = for_loop NUM_TIES Init_Tie
      (set_tie_shape (temp_tie_shape g2)
         (set_tie_vlist (temp_tie_vlist g2) g2)).
Proof.
  intros Hv Hs. cbv zeta. unfold Game_Init. cbv zeta.
  set (g2 := for_loop NUM_STARS init_star _).
  assert (Hv2 : length (tie_vlist g2) = NUM_TIE_VERTS).
  { subst g2. rewrite (for_loop_keeps tie_vlist) by reflexivity. exact Hv. }
  assert (Hs2 : length (tie_shape g2) = NUM_TIE_EDGES).
  { subst g2. rewrite (for_loop_keeps tie_shape) by reflexivity. exact Hs. }
  clearbody g2.
  rewrite load_vlist, (fill_list zero_point (temp_tie_vlist g2))
    by (exact Hv2 || reflexivity).
  rewrite load_shape.
  change (temp_tie_shape (set_tie_vlist (temp_tie_vlist g2) g2))
    with (temp_tie_shape g2).
  change (tie_shape (set_tie_vlist (temp_tie_vlist g2) g2))
    with (tie_shape g2).
  rewrite (fill_list zero_line (temp_tie_shape g2))
    by (exact Hs2 || reflexivity).
  reflexivity.
Qed.

Lemma Game_Init_post (g : Game) :
  arrays_ok g ->
  let g' := Game_Init g in
  colours g' = (2016, 65535, 31, 63488)
  /\ tie_vlist g' = temp_tie_vlist g' /\ tie_shape g' = temp_tie_shape g'
  /\ (forall i, (i < NUM_STARS)%nat ->
        fresh_star (item zero_point (stars g') i))
  /\ every_tie fresh_tie (ties g')
  /\ rand_calls g' = (rand_calls g + 82)%nat
  /\ player_part g' = player_part g /\ battle_part g' = battle_part g
  /\ arrays_ok g'.
Proof.
  intros (Hv & Hs & Ht & Hst & He & Hedges). cbv zeta.
  rewrite (Game_Init_stages g Hv Hs). cbv zeta.
  set (g1 := set_rgb_red _ _).
  assert (F1 : colours g1 = (2016, 65535, 31, 63488)) by reflexivity.
  assert (W1 : rgb_white g1 = RGB16Bit 255 255 255) by reflexivity.
  assert (S1 : length (stars g1) = NUM_STARS) by exact Hst.
  assert (T1 : ties g1 = ties g) by reflexivity.
  assert (R1 : rand_calls g1 = rand_calls g) by reflexivity.
  assert (P1 : player_part g1 = player_part g) by reflexivity.
  assert (B1 : battle_part g1 = battle_part g) by reflexivity.
  clearbody g1.
  destruct (init_stars g1 S1 W1) as (S2 & R2 & Hstars).
  destruct (init_stars_keeps g1) as (F2 & P2 & B2 & T2).
  cbv zeta in S2, R2, Hstars, F2, P2, B2, T2.
  set (g2 := for_loop NUM_STARS init_star g1) in *.
  assert (C2 : colours g2 = colours g1).
  { apply fixed_part_eq in F2 as (_ & _ & Cg & Cw & Cr & Cb & _).
    unfold colours. rewrite Cg, Cw, Cr, Cb. reflexivity. }
  clearbody g2.
  set (g4 := set_tie_shape _ _).
  assert (C4 : colours g4 = colours g2) by reflexivity.
  assert (V4 : tie_vlist g4 = temp_tie_vlist g4) by reflexivity.
  assert (L4 : tie_shape g4 = temp_tie_shape g4) by reflexivity.
  assert (S4 : stars g4 = stars g2) by reflexivity.
  assert (T4 : ties g4 = ties g2) by reflexivity.
  assert (R4 : rand_calls g4 = rand_calls g2) by reflexivity.
  assert (P4 : player_part g4 = player_part g2) by reflexivity.
  assert (B4 : battle_part g4 = battle_part g2) by reflexivity.
  clearbody g4.
  destruct (init_ties g4) as (T5 & R5 & Hties);
    [rewrite T4, T2, T1; exact Ht|].
  destruct (init_ties_keeps g4) as (F5 & P5 & B5 & S5).
  cbv zeta in T5, R5, Hties, F5, P5, B5, S5.
  set (g5 := for_loop NUM_TIES Init_Tie g4) in *. clearbody g5.
  apply fixed_part_eq in F5 as (Fv & Fs & Cg & Cw & Cr & Cb & _).
  assert (C5 : colours g5 = colours g4)
    by (unfold colours; rewrite Cg, Cw, Cr, Cb; reflexivity).
  assert (V5 : tie_vlist g5 = temp_tie_vlist g5)
    by (rewrite Fv, V4; unfold temp_tie_vlist; rewrite Cw; reflexivity).
  assert (L5 : tie_shape g5 = temp_tie_shape g5)
    by (rewrite Fs, L4; unfold temp_tie_shape; rewrite Cg; reflexivity).
  split; [congruence|]. split; [exact V5|]. split; [exact L5|].
  split; [rewrite S5, S4; exact Hstars|]. split; [exact Hties|].
  split; [rewrite R5, R4, R2, R1; unfold NUM_TIES, NUM_STARS; lia|].
  split; [congruence|]. split; [congruence|].
  apply battle_part_eq in B5 as (E5 & _). apply battle_part_eq in B4 as (E4 & _).
  apply battle_part_eq in B2 as (E2 & _). apply battle_part_eq in B1 as (E1 & _).
  unfold arrays_ok. rewrite V5, L5, T5, S5, S4, S2, E5, E4, E2, E1.
  auto 10.
Qed.

(** X12. Called with the arrays at their declared sizes, [Game_Init] sets
    the four colours to their 5-6-5 values, loads the model of the tie
    fighter (ten vertices, eight edges), places each of the [NUM_STARS]
    stars at whole coordinates with x in -256..255, y in -320..319 and z in
    10..499, starts each of the [NUM_TIES] ties as [Init_Tie] does, and
    makes 82 calls of [rand()] for it; it leaves the player's variables, the
    cannon, the counters and the explosions as they are, and the arrays at
    their sizes. *)
Theorem Game_Init_sets (g : Game) :
  arrays_ok g ->
  let g' := Game_Init g in
  colours g' = (2016, 65535, 31, 63488)
  /\ tie_vlist g' = temp_tie_vlist g' /\ tie_shape g' = temp_tie_shape g'
  /\ (forall i, (i < NUM_STARS)%nat ->
        fresh_star (item zero_point (stars g') i))
  /\ every_tie fresh_tie (ties g')
  /\ rand_calls g' = (rand_calls g + 82)%nat
  /\ player_part g' = player_part g /\ battle_part g' = battle_part g
  /\ arrays_ok g'.
Proof. apply Game_Init_post. Qed.

(** ** The sizes of the arrays *)

Lemma arrays_ok_with (g g' : Game) :
  fixed_part g' = fixed_part g ->
  length (ties g') = length (ties g) -> length (stars g') = length (stars g) ->
  length (explosions g') = length (explosions g) ->
  Forall edges_ok (explosions g') ->
  arrays_ok g -> arrays_ok g'.
Proof.
  intros Hf Ht Hs He Hall (Hv & Hsh & Hlt & Hls & Hle & _).
  apply fixed_part_eq in Hf as (Fv & Fs & _).
  unfold arrays_ok. rewrite Fv, Fs, Ht, Hs, He. auto 10.
Qed.

Lemma arrays_ok_world (g g' : Game) :
  world_part g' = world_part g -> fixed_part g' = fixed_part g ->
  arrays_ok g -> arrays_ok g'.
Proof.
  intros Hw Hf Hok. apply world_part_eq in Hw as (Ht & Hs & He & _).
  apply (arrays_ok_with g); try assumption; try congruence.
  rewrite He. apply Hok.
Qed.

Lemma Move_Starfield_arrays (g : Game) :
  arrays_ok g -> arrays_ok (Move_Starfield g).
Proof.
  intros Hok. destruct (Move_Starfield_rest g) as (_ & _ & Ht & He).
  apply (arrays_ok_with g); try assumption.
  - apply Move_Starfield_fixed.
  - congruence.
  - apply Move_Starfield_length.
  - congruence.
  - rewrite He. apply Hok.
Qed.

Lemma process_tie_arrays (index : nat) (g : Game) :
  arrays_ok g -> arrays_ok (process_tie index g).
Proof.
  intros Hok. destruct (process_tie_fields index g) as (_ & Hs & _ & He & Ht).
  destruct (Init_Tie_fresh index (set_ties (alter move_tie index (ties g)) g))
    as (t & _ & Hnew).
  cbn [ties set_ties] in Hnew. rewrite Hnew in Ht. clear Hnew.
  apply (arrays_ok_with g); try assumption.
  - apply process_tie_fixed.
  - rewrite Ht. destruct (_ =? 0); [reflexivity|].
    destruct (F32.leb _ _); rewrite ?length_insert, length_alter; reflexivity.
  - congruence.
  - congruence.
  - rewrite He. apply Hok.
Qed.

Lemma move_edge_sized (edge : nat) (e : EXPL) :
  edges_ok e -> edges_ok (move_edge edge e).
Proof.
  intros (H1 & H2 & H3). unfold edges_ok, move_edge.
  cbn [expl_p1 expl_p2 expl_vel]. rewrite !length_alter. auto.
Qed.

Lemma process_explosion_sized (e : EXPL) :
  edges_ok e -> edges_ok (process_explosion e).
Proof.
  intros Hok. unfold process_explosion.
  destruct (_ =? 0); [exact Hok|]. cbv zeta.
  assert (H : edges_ok (for_loop NUM_TIE_EDGES move_edge e))
    by (apply (for_loop_ind edges_ok); [exact Hok|];
        intros i e' _; apply move_edge_sized).
  destruct (100 <? _); exact H.
Qed.

Lemma Process_Explosions_arrays (g : Game) :
  arrays_ok g -> arrays_ok (Process_Explosions g).
Proof.
  intros Hok.
  destruct (Process_Explosions_fields g) as (_ & Hs & _ & Ht & He).
  apply (arrays_ok_with g); try assumption.
  - apply Process_Explosions_fixed.
  - congruence.
  - congruence.
  - rewrite He. apply for_loop_alter_length.
  - rewrite He.
    apply (for_loop_ind (Forall edges_ok)); [apply Hok|].
    intros i l _ Hl. apply Forall_alter; [exact Hl|].
    intros e _. apply process_explosion_sized.
Qed.

Lemma start_explosion_at_arrays (tie index : nat) (g : Game) :
  arrays_ok g -> arrays_ok (start_explosion_at tie index g).
Proof.
  intros Hok.
  destruct (scene_part_eq _ _ (start_explosion_at_scene tie index g))
    as (Ht & Hs & _).
  assert (He : length (explosions (start_explosion_at tie index g))
               = length (explosions g)
               /\ Forall edges_ok (explosions (start_explosion_at tie index g))).
  { unfold start_explosion_at.
    apply (for_loop_ind
      (fun g' => length (explosions g') = length (explosions g)
                 /\ Forall edges_ok (explosions g'))).
    - cbn [explosions set_explosions]. rewrite length_alter.
      split; [reflexivity|]. apply Forall_alter; [apply Hok|].
      intros e _ He. exact He.
    - intros i g' _ (Hl & Hall). rewrite explosion_edge_explosions.
      rewrite length_alter. split; [exact Hl|].
      apply Forall_alter; [exact Hall|]. intros e _. apply blow_edge_ok. }
  destruct He as (Hl & Hall).
  apply (arrays_ok_with g); try assumption.
  - apply start_explosion_at_fixed.
  - congruence.
  - congruence.
Qed.

Lemma Start_Explosion_arrays (tie : nat) (g : Game) :
  arrays_ok g -> arrays_ok (Start_Explosion tie g).
Proof.
  intros Hok. unfold Start_Explosion.
  induction (seq 0 NUM_EXPLOSIONS) as [|i l IH]; cbn [Start_Explosion_hunt];
    [exact Hok|].
  destruct (_ =? 0); [apply start_explosion_at_arrays, Hok|exact IH].
Qed.

Lemma hit_tie_arrays (index : nat) (g : Game) :
  arrays_ok g -> arrays_ok (hit_tie index g).
Proof.
  intros Hok. pose proof (Start_Explosion_arrays index g Hok) as H1.
  destruct (hit_tie_fields index g) as (_ & Hs & _ & He & t & Ht & _).
  apply (arrays_ok_with g); try assumption.
  - apply hit_tie_fixed.
  - rewrite Ht. apply length_insert.
  - congruence.
  - rewrite He. destruct H1 as (_ & _ & _ & _ & Hl & _).
    destruct Hok as (_ & _ & _ & _ & Hl' & _). congruence.
  - rewrite He. apply H1.
Qed.

Lemma Draw_Ties_arrays (g : Game) :
  arrays_ok g -> arrays_ok (fst (Draw_Ties g)).
Proof.
  intros Hok. unfold Draw_Ties.
  apply (for_loop_ind (fun acc => arrays_ok (fst acc))); [exact Hok|].
  intros i [g' evs] _ H. cbn [fst] in H. unfold draw_tie.
  destruct (_ =? 0); [exact H|].
  destruct (for_loop _ _ _) as [box evs'].
  destruct (_ && _); [|exact H]. cbn [fst]. apply hit_tie_arrays, H.
Qed.

Lemma end_of_frame_arrays (g : Game) : arrays_ok g -> arrays_ok (end_of_frame g).
Proof.
  intros Hok.
  destruct (end_of_frame_fields g)
    as (_ & _ & _ & Ht & Hs & He & _ & _ & _ & _ & _ & Hf & _).
  apply (arrays_ok_with g); try assumption; try congruence.
  rewrite He. apply Hok.
Qed.

Lemma frame_arrays (g : Game) (b : Buttons) :
  arrays_ok g -> arrays_ok (frame g b).
Proof.
  intros Hok. rewrite frame_steps. apply end_of_frame_arrays.
  unfold simulate.
  apply Draw_Ties_arrays, Process_Explosions_arrays.
  unfold Process_Ties.
  apply (for_loop_ind arrays_ok); [|intros i g' _; apply process_tie_arrays].
  apply Move_Starfield_arrays.
  destruct (handle_input_world b g) as (W1 & F1 & _).
  destruct (process_cannon_world (handle_input b g)) as (W2 & F2 & _).
  apply (arrays_ok_world (handle_input b g)); [exact W2|exact F2|].
  apply (arrays_ok_world g); assumption.
Qed.

Lemma Game_start_arrays (rs : nat -> N) : arrays_ok (Game_start rs).
Proof.
  unfold arrays_ok, Game_start.
  cbn [tie_vlist tie_shape ties stars explosions].
  rewrite !length_replicate.
  repeat split. apply Forall_replicate. repeat split.
Qed.

(** The lists of a session keep the sizes of the arrays they stand for. *)
Lemma session_arrays (rs : nat -> N) (inputs : list Buttons) :
  arrays_ok (session rs inputs).
Proof.
  apply (session_ind arrays_ok).
  - pose proof (Game_Init_post (Game_start rs) (Game_start_arrays rs)) as H.
    cbv zeta in H.
    destruct H as (_ & _ & _ & _ & _ & _ & _ & _ & H). exact H.
  - intros inputs' b. apply frame_arrays.
Qed.

(** ** The speed buttons *)

Lemma handle_input_speed (b : Buttons) (g : Game) :
  player_z_vel (handle_input b g)
  = if game_state g =? GAME_RUNNING
    then if btn_fast b then to_int8 (player_z_vel g + 1)
         else if btn_slow b then to_int8 (player_z_vel g - 1)
         else player_z_vel g
    else player_z_vel g.
Proof.
  unfold handle_input.
  destruct (game_state g =? GAME_RUNNING); [|reflexivity].
  pose proof (move_crosshair_vel b g) as Hm.
  set (g1 := move_crosshair b g) in *. clearbody g1.
  unfold fire_cannon, speed_control.
  destruct (btn_fast b), (btn_slow b);
    repeat match goal with |- context [if ?c then _ else _] => destruct c end;
    cbn; rewrite ?Hm; reflexivity.
Qed.

(** X14. The speed of the ship after a frame: while the game is running
    the fast button adds one to [player_z_vel] and, only when the fast
    button is up, the slow button takes one off, both in [int8_t] arithmetic
    (127 + 1 is -128) and with no other bound; no other step of the frame
    writes it, and a game that is over ignores both buttons. *)
Theorem speed_buttons (g : Game) (b : Buttons) :
  player_z_vel (frame g b)
  = if game_state g =? GAME_RUNNING
    then if btn_fast b then to_int8 (player_z_vel g + 1)
         else if btn_slow b then to_int8 (player_z_vel g - 1)
         else player_z_vel g
    else player_z_vel g.
Proof.
  destruct (frame_player g b) as (_ & _ & Hv). rewrite Hv.
  apply handle_input_speed.
Qed.

(** ** The stars of a session *)

Lemma move_star_placed (v : Z) (s : POINT3D) :
  star_placed s -> star_placed (move_star v s).
Proof. intros H. exact H. Qed.

Lemma Move_Starfield_placed (g : Game) :
  every_star star_placed (stars g) ->
  every_star star_placed (stars (Move_Starfield g)).
Proof.
  intros Hall i Hi. specialize (Hall i Hi). unfold item in *.
  rewrite Move_Starfield_lookup.
  destruct (decide (i < NUM_STARS)%nat); [|contradiction].
  destruct (stars g !! i) as [s|]; [|exact Hall].
  apply move_star_placed, Hall.
Qed.

Lemma frame_stars_placed (g : Game) (b : Buttons) :
  every_star star_placed (stars g) ->
  every_star star_placed (stars (frame g b)).
Proof.
  intros Hall. rewrite frame_stars. apply Move_Starfield_placed.
  destruct (handle_input_world b g) as (W1 & _).
  destruct (process_cannon_world (handle_input b g)) as (W2 & _).
  apply world_part_stars in W1, W2. rewrite W2, W1. exact Hall.
Qed.

Lemma frame_stars_beyond (g : Game) (b : Buttons) :
  depths_ok g -> stars_beyond_near (stars (frame g b)).
Proof.
  intros Hok. rewrite frame_stars.
  apply Move_Starfield_depths, process_cannon_depths, handle_input_depths, Hok.
Qed.

Lemma fresh_star_placed (s : POINT3D) : fresh_star s -> star_placed s.
Proof.
  intros (kx & ky & kz & Hx & Hy & _ & ->). exists kx, ky. auto 10.
Qed.

Lemma frame_same_place (g0 g : Game) (b : Buttons) :
  (forall i, same_place (item zero_point (stars g0) i)
               (item zero_point (stars g) i)) ->
  forall i, same_place (item zero_point (stars g0) i)
              (item zero_point (stars (frame g b)) i).
Proof.
  intros Hall i. specialize (Hall i).
  assert (Hi : same_place (item zero_point (stars g) i)
                 (item zero_point (stars (frame g b)) i)).
  { rewrite frame_stars.
    destruct (handle_input_world b g) as (W1 & _).
    destruct (process_cannon_world (handle_input b g)) as (W2 & _).
    apply world_part_stars in W1, W2.
    set (g1 := process_cannon (handle_input b g)) in *. clearbody g1.
    unfold item. rewrite Move_Starfield_lookup, W2, W1.
    destruct (decide (i < NUM_STARS)%nat); [|repeat split].
    destruct (stars g !! i) as [s|]; repeat split. }
  destruct Hall as (H1 & H2 & H3), Hi as (I1 & I2 & I3).
  unfold same_place. rewrite I1, I2, I3. auto.
Qed.

(** X15. In every session every star keeps, after every frame, the x, the
    y and the colour it had after [Game_Init]; these are whole coordinates
    with x in -256..255 and y in -320..319, and white; and after every frame
    the depth of every star is beyond [NEAR_Z]. *)
Theorem stars_stay_put (rs : nat -> N) (inputs : list Buttons) :
  (forall i,
     same_place (item zero_point (stars (session rs [])) i)
       (item zero_point (stars (session rs inputs)) i))
  /\ every_star star_placed (stars (session rs inputs))
  /\ forall b,
       every_star (fun s => beyond_near (pt_z s))
         (stars (frame (session rs inputs) b)).
Proof.
  split; [|split].
  - apply (session_ind
      (fun g => forall i,
         same_place (item zero_point (stars (session rs [])) i)
           (item zero_point (stars g) i))).
    + intros i. repeat split.
    + intros inputs' b. apply frame_same_place.
  - apply (session_ind (fun g => every_star star_placed (stars g))).
    + pose proof (Game_Init_post (Game_start rs) (Game_start_arrays rs)) as H.
      cbv zeta in H. destruct H as (_ & _ & _ & H & _).
      intros i Hi. apply fresh_star_placed, H, Hi.
    + intros inputs' b. apply frame_stars_placed.
  - intros b. apply frame_stars_beyond, session_depths.
Qed.

(** ** The colour of a tie *)

Lemma green_shades (u : Z) :
  0 <= u < 256 -> RGB16Bit 0 u 0 = Z.shiftl (Z.shiftr u 2) 5.
Proof.
  intros Hu.
  pose proof (range_check
    (fun u => RGB16Bit 0 u 0 =? Z.shiftl (Z.shiftr u 2) 5)
    0 256 ltac:(vm_compute; reflexivity) u ltac:(lia)) as H.
  cbv beta in H. apply Z.eqb_eq. exact H.
Qed.

(** X16. Whatever the depth of a tie, the colour its edges are drawn in
    has the green field only: it is [i << 5] for an [i] of 0..63.  The
    intensity comes out of a conversion to [uint8_t], so neither clamp of
    [Draw_Ties] ever changes it. *)
Theorem tie_color_green (t : TIE) :
  exists i, 0 <= i < 64 /\ tie_color t = Z.shiftl i 5.
Proof.
  unfold tie_color. set (u := uint8_of_float _).
  assert (Hu : 0 <= u < 256)
    by (subst u; unfold uint8_of_float, to_uint8; apply Z.mod_pos_bound; lia).
  clearbody u. cbv zeta.
  destruct (Z.ltb_spec 255 u); [lia|].
  destruct (Z.ltb_spec u 0); [lia|].
  exists (Z.shiftr u 2). split; [|apply green_shades, Hu].
  apply shiftr_range; lia.
Qed.

(** ** The beam *)

(** X17. While the cannon is firing, with the target on the screen, the
    beam of a frame is one line from the bottom left or the bottom right
    corner of the screen to a point at most 4 to the left or above and 3 to
    the right or below the latched target, in a colour [RGB16Bit 32 32 blue]
    with [blue] from 128 to 255, and drawing it makes four calls of
    [rand()]. *)
Theorem beam_near_target (g : Game) :
  cannon_state g = 1 ->
  0 <= target_x_screen g <= WINDOW_WIDTH ->
  0 <= target_y_screen g <= WINDOW_HEIGHT ->
  exists ev,
    snd (draw_beam g) = [ev]
    /\ beam_to (target_x_screen g) (target_y_screen g) ev
    /\ rand_calls (fst (draw_beam g)) = (4 + rand_calls g)%nat.
Proof.
  intros Hs Hx Hy. unfold WINDOW_WIDTH, WINDOW_HEIGHT in *.
  rewrite draw_beam_calls, Hs. cbn [Z.eqb Pos.eqb rand_calls set_rand_calls].
  unfold draw_beam. rewrite Hs. cbn [Z.eqb Pos.eqb rand fst snd].
  cbn [target_x_screen target_y_screen set_rand_calls rand_seq rand_calls].
  set (r1 := Z.of_N (rand_seq g (rand_calls g))).
  set (r2 := Z.of_N (rand_seq g (S (rand_calls g)))).
  set (r3 := Z.of_N (rand_seq g (S (S (rand_calls g))))).
  set (r4 := Z.of_N (rand_seq g (S (S (S (rand_calls g)))))).
  assert (H1 : 0 <= r1) by apply N2Z.is_nonneg.
  assert (H3 : 0 <= r3) by apply N2Z.is_nonneg.
  assert (H4 : 0 <= r4) by apply N2Z.is_nonneg.
  clearbody r1 r2 r3 r4.
  pose proof (int_rem_range r1 128 H1 ltac:(reflexivity)) as B1.
  pose proof (int_rem_range r3 8 H3 ltac:(reflexivity)) as B3.
  pose proof (int_rem_range r4 8 H4 ltac:(reflexivity)) as B4.
  assert (Hbeam : forall x1,
            x1 = 0 \/ x1 = 127 ->
            beam_to (target_x_screen g) (target_y_screen g)
              (drawLine x1 (160 - 1)
                 (int_add (int_add (-4) (int_rem r4 8)) (target_x_screen g))
                 (int_add (int_add (-4) (int_rem r3 8)) (target_y_screen g))
                 (RGB16Bit 32 32 (int_add 128 (int_rem r1 128))))).
  { intros x1 Hx1. unfold beam_to, int_add, WINDOW_WIDTH, WINDOW_HEIGHT.
    rewrite !to_int16_small by (rewrite ?to_int16_small; lia).
    split; [lia|]. split; [reflexivity|]. split; [lia|]. split; [lia|].
    exists (128 + int_rem r1 128). split; [lia|reflexivity]. }
  destruct (int_rem r2 2 =? 1); cbn [snd]; eexists;
    (split; [reflexivity|split; [apply Hbeam; auto|reflexivity]]).
Qed.

(** ** The bounding box of a tie *)

Lemma reached_min (f : Z * Z -> Z) (init m : Z) (pts : list (Z * Z))
    (a b : Z * Z) :
  reached f init m pts ->
  reached f init (Z.min m (Z.min (f a) (f b))) (pts ++ [a; b]).
Proof.
  intros Hr. unfold reached in *.
  destruct (Z.min_spec m (Z.min (f a) (f b))) as [(_ & ->)|(_ & ->)].
  - destruct Hr as [H|(p & Hin & Hp)]; [left; exact H|].
    right. exists p. split; [apply in_or_app; left; exact Hin|exact Hp].
  - right. destruct (Z.min_spec (f a) (f b)) as [(_ & ->)|(_ & ->)].
    + exists a. split; [apply in_or_app; right; left|]; reflexivity.
    + exists b. split; [apply in_or_app; right; right; left|]; reflexivity.
Qed.

Lemma reached_max (f : Z * Z -> Z) (init m : Z) (pts : list (Z * Z))
    (a b : Z * Z) :
  reached f init m pts ->
  reached f init (Z.max m (Z.max (f a) (f b))) (pts ++ [a; b]).
Proof.
  intros Hr. unfold reached in *.
  destruct (Z.max_spec m (Z.max (f a) (f b))) as [(_ & ->)|(_ & ->)].
  - right. destruct (Z.max_spec (f a) (f b)) as [(_ & ->)|(_ & ->)].
    + exists b. split; [apply in_or_app; right; right; left|]; reflexivity.
    + exists a. split; [apply in_or_app; right; left|]; reflexivity.
  - destruct Hr as [H|(p & Hin & Hp)]; [left; exact H|].
    right. exists p. split; [apply in_or_app; left; exact Hin|exact Hp].
Qed.

Lemma box_of_grows (box : BBox) (pts : list (Z * Z)) (x1 y1 x2 y2 : Z) :
  box_of box pts ->
  box_of
    (Build_BBox (Z.min (bmin_x box) (Z.min x1 x2))
       (Z.min (bmin_y box) (Z.min y1 y2))
       (Z.max (bmax_x box) (Z.max x1 x2))
       (Z.max (bmax_y box) (Z.max y1 y2)))
    (pts ++ [(x1, y1); (x2, y2)]).
Proof.
  intros (Hall & Hx1 & Hx2 & Hy1 & Hy2). unfold box_of.
  cbn [bmin_x bmin_y bmax_x bmax_y].
  split; [|split; [|split; [|split]]].
  - apply Forall_app. split.
    + revert Hall. apply List.Forall_impl. intros p (Hx & Hy).
      unfold covers in *. cbn [bmin_x bmin_y bmax_x bmax_y]. lia.
    + repeat (apply Forall_cons; split;
              [unfold covers; cbn [bmin_x bmin_y bmax_x bmax_y fst snd]; lia|]).
      apply Forall_nil_2.
  - apply (reached_min fst 4000 _ pts (x1, y1) (x2, y2) Hx1).
  - apply (reached_max fst (-4000) _ pts (x1, y1) (x2, y2) Hx2).
  - apply (reached_min snd 4000 _ pts (x1, y1) (x2, y2) Hy1).
  - apply (reached_max snd (-4000) _ pts (x1, y1) (x2, y2) Hy2).
Qed.

Lemma end_points_app (evs evs' : list Event) :
  end_points (evs ++ evs') = end_points evs ++ end_points evs'.
Proof. unfold end_points. apply flat_map_app. Qed.

Lemma draw_tie_edges_box (g : Game) (t : TIE) (color : Z) (n : nat)
    (evs : list Event) :
  exists new,
    snd (for_loop n (draw_tie_edge g t color) (empty_box, evs)) = evs ++ new
    /\ box_of (fst (for_loop n (draw_tie_edge g t color) (empty_box, evs)))
         (end_points new).
Proof.
  apply (for_loop_ind
    (fun r => exists new, snd r = evs ++ new /\ box_of (fst r) (end_points new))).
  - exists []. split; [symmetry; apply app_nil_r|].
    unfold box_of, reached. cbn. split; [constructor|]. auto.
  - intros edge [box evs'] _ (new & Hnew & Hbox). cbn [fst snd] in *.
    subst evs'. unfold draw_tie_edge. cbv zeta. cbn [fst snd].
    eexists. split; [rewrite <- app_assoc; reflexivity|].
    rewrite end_points_app. cbn [end_points flat_map app].
    apply box_of_grows, Hbox.
Qed.

Lemma box_of_target (g : Game) (box : BBox) (pts : list (Z * Z)) :
  box_of box pts ->
  -4000 <= target_x_screen g <= 4000 -> -4000 <= target_y_screen g <= 4000 ->
  target_in_box g box = true ->
  exists p1 p2 p3 p4,
    In p1 pts /\ In p2 pts /\ In p3 pts /\ In p4 pts
    /\ fst p1 < target_x_screen g < fst p2
    /\ snd p3 < target_y_screen g < snd p4.
Proof.
  intros (_ & Hx1 & Hx2 & Hy1 & Hy2) Htx Hty Hin. unfold target_in_box in Hin.
  apply andb_prop in Hin as [Hin H4]. apply andb_prop in Hin as [Hin H3].
  apply andb_prop in Hin as [H1 H2].
  apply Z.ltb_lt in H1, H2, H3, H4.
  destruct Hx1 as [E|(p1 & I1 & E1)]; [lia|].
  destruct Hx2 as [E|(p2 & I2 & E2)]; [lia|].
  destruct Hy1 as [E|(p3 & I3 & E3)]; [lia|].
  destruct Hy2 as [E|(p4 & I4 & E4)]; [lia|].
  exists p1, p2, p3, p4. repeat split; try assumption; lia.
Qed.

(** X18. The box [Draw_Ties] tests a shot against holds every end point
    of the edges it has just drawn for the tie, and each of its bounds is
    the coordinate of one of these end points unless no end point is beyond
    the value (4000 or -4000) the bound was reset to.  So a target on the
    screen that the test finds inside the box has end points of the tie's
    edges strictly to its left and to its right, and strictly above and
    below it. *)
Theorem tie_box_spans (g : Game) (t : TIE) (color : Z) (evs : list Event) :
  let r := for_loop NUM_TIE_EDGES (draw_tie_edge g t color) (empty_box, evs) in
  exists new,
    snd r = evs ++ new
    /\ Forall (covers (fst r)) (end_points new)
    /\ (-4000 <= target_x_screen g <= 4000 ->
        -4000 <= target_y_screen g <= 4000 ->
        target_in_box g (fst r) = true ->
        exists p1 p2 p3 p4,
          In p1 (end_points new) /\ In p2 (end_points new)
          /\ In p3 (end_points new) /\ In p4 (end_points new)
          /\ fst p1 < target_x_screen g < fst p2
          /\ snd p3 < target_y_screen g < snd p4).
Proof.
  cbv zeta.
  destruct (draw_tie_edges_box g t color NUM_TIE_EDGES evs)
    as (new & Hnew & Hbox).
  exists new. split; [exact Hnew|]. split; [apply Hbox|].
  apply box_of_target, Hbox.
Qed.

(** ** The misses of a session *)

Lemma escaped_range (l : list TIE) (n : nat) : 0 <= escaped l n <= Z.of_nat n.
Proof.
  induction n as [|n IH]; [cbn; lia|].
  cbn [escaped]. destruct (escapes _); lia.
Qed.

Lemma Draw_Ties_misses (g : Game) : misses (fst (Draw_Ties g)) = misses g.
Proof.
  unfold Draw_Ties.
  apply (for_loop_keeps (fun acc => misses (fst acc))).
  intros i [g' evs]. cbn [fst]. unfold draw_tie.
  destruct (_ =? 0); [reflexivity|].
  destruct (for_loop _ _ _) as [box evs'].
  destruct (_ && _); [|reflexivity]. cbn [fst]. apply hit_tie_scored.
Qed.

Lemma frame_misses_steps (g g1 gf : Game) :
  misses g1 = misses g -> -128 <= misses g < 128 ->
  gf = end_of_frame (simulate g1) ->
  exists k, 0 <= k <= Z.of_nat NUM_TIES /\ misses gf = to_int8 (misses g + k).
Proof.
  intros H1 Hm Hf. unfold simulate in Hf.
  assert (H2 : misses (Move_Starfield g1) = misses g1)
    by (unfold Move_Starfield; apply (for_loop_keeps misses); reflexivity).
  destruct (Move_Starfield_rest g1) as (_ & _ & Ht & _).
  set (g2 := Move_Starfield g1) in *. clearbody g2.
  destruct (Process_Ties_post g2) as (H3 & _); [rewrite H2, H1; exact Hm|].
  set (g3 := Process_Ties g2) in *. clearbody g3.
  assert (H4 : misses (Process_Explosions g3) = misses g3)
    by (unfold Process_Explosions; apply (for_loop_keeps misses); reflexivity).
  set (g4 := Process_Explosions g3) in *. clearbody g4.
  pose proof (Draw_Ties_misses g4) as H5.
  set (g5 := fst (Draw_Ties g4)) in *. clearbody g5.
  destruct (end_of_frame_fields g5) as (H6 & _). rewrite <- Hf in H6.
  exists (escaped (ties g2) NUM_TIES). split; [apply escaped_range|].
  rewrite H6, H5, H4, H3, H2, H1. reflexivity.
Qed.

Lemma frame_misses (g : Game) (b : Buttons) :
  -128 <= misses g < 128 ->
  exists k,
    0 <= k <= Z.of_nat NUM_TIES /\ misses (frame g b) = to_int8 (misses g + k).
Proof.
  intros Hm.
  apply (frame_misses_steps g (process_cannon (handle_input b g))).
  - destruct (handle_input_world b g) as (W1 & _).
    destruct (process_cannon_world (handle_input b g)) as (W2 & _).
    apply world_part_eq in W1 as (_ & _ & _ & M1 & _).
    apply world_part_eq in W2 as (_ & _ & _ & M2 & _).
    congruence.
  - exact Hm.
  - apply frame_steps.
Qed.

Lemma in_play_step (g gf : Game) :
  in_play g ->
  game_state gf
  = (if TIES_MISSED_END_GAME <? misses gf then GAME_OVER else game_state g) ->
  (-128 <= misses g < 128 ->
   exists k, 0 <= k <= Z.of_nat NUM_TIES /\ misses gf = to_int8 (misses g + k)) ->
  in_play gf
  /\ (game_state g = GAME_RUNNING -> game_state gf = GAME_OVER ->
      TIES_MISSED_END_GAME < misses gf
      <= TIES_MISSED_END_GAME + Z.of_nat NUM_TIES).
Proof.
  intros Hin Hg Hmisses.
  unfold in_play, TIES_MISSED_END_GAME, NUM_TIES, GAME_RUNNING, GAME_OVER in *.
  destruct Hin as [(Hrun & Hm)|Hover].
  - destruct Hmisses as (k & Hk & Hf); [lia|].
    rewrite to_int8_small in Hf by lia.
    destruct (Z.ltb_spec 16 (misses gf)).
    + split; [right; exact Hg|]. intros _ _. lia.
    + split; [left; split; [congruence|lia]|].
      intros _ Hover. rewrite Hg, Hrun in Hover. discriminate Hover.
  - split.
    + right. rewrite Hg, Hover. destruct (_ <? _); reflexivity.
    + intros Hrun. rewrite Hover in Hrun. discriminate Hrun.
Qed.

Lemma frame_in_play (g : Game) (b : Buttons) :
  in_play g ->
  in_play (frame g b)
  /\ (game_state g = GAME_RUNNING -> game_state (frame g b) = GAME_OVER ->
      TIES_MISSED_END_GAME < misses (frame g b)
      <= TIES_MISSED_END_GAME + Z.of_nat NUM_TIES).
Proof.
  intros Hin. apply (in_play_step g (frame g b) Hin).
  - apply frame_game_state.
  - apply frame_misses.
Qed.

(** X19. In every session, as long as the game is running the misses are
    from 0 to [TIES_MISSED_END_GAME]; the game state is always one of the
    two; and the frame that ends the game leaves the misses at 17 or 18,
    one or two ties having escaped in it. *)
Theorem misses_in_play (rs : nat -> N) (inputs : list Buttons) :
  in_play (session rs inputs)
  /\ forall b,
       game_state (session rs inputs) = GAME_RUNNING ->
       game_state (frame (session rs inputs) b) = GAME_OVER ->
       TIES_MISSED_END_GAME < misses (frame (session rs inputs) b)
       <= TIES_MISSED_END_GAME + Z.of_nat NUM_TIES.
Proof.
  assert (H : in_play (session rs inputs)).
  { apply (session_ind in_play).
    - left. split; [apply (session_start rs)|].
      destruct (battle_part_eq _ _ (Game_Init_battle (Game_start rs)))
        as (_ & Hm & _).
      rewrite Hm. vm_compute. split; discriminate.
    - intros inputs' b Hin. apply frame_in_play, Hin. }
  split; [exact H|]. intros b. apply frame_in_play, H.
Qed.

(** ** The model and the shrapnel *)

Lemma frame_fixed (g : Game) (b : Buttons) : fixed_part (frame g b) = fixed_part g.
Proof.
  rewrite frame_steps.
  destruct (handle_input_world b g) as (_ & F1 & _).
  destruct (process_cannon_world (handle_input b g)) as (_ & F2 & _).
  pose proof (simulate_fixed (process_cannon (handle_input b g))) as F3.
  set (g3 := simulate _) in *. clearbody g3.
  destruct (end_of_frame_fields g3)
    as (_ & _ & _ & _ & _ & _ & _ & _ & _ & _ & _ & F4 & _).
  congruence.
Qed.

Lemma temp_tie_shape_in_bounds (g : Game) (edge : nat) :
  edge_in_bounds (item zero_line (temp_tie_shape g) edge).
Proof.
  unfold temp_tie_shape.
  do 8 (destruct edge as [|edge]; [vm_compute; intuition discriminate|]).
  vm_compute. intuition discriminate.
Qed.

(** X20. In every session, after [Game_Init] and after every frame, the
    four colours are the 5-6-5 values [Game_Init] computed, the vertex list
    and the edge list are the tables of [Game_Init], and both vertex
    indices of every edge are from 0 to [NUM_TIE_VERTS] - 1: no frame
    writes the model, and every access [tie_vlist[tie_shape[edge].v1]] and
    [tie_vlist[tie_shape[edge].v2]] is inside the vertex list. *)
Theorem model_in_bounds (rs : nat -> N) (inputs : list Buttons) :
  colours (session rs inputs) = (2016, 65535, 31, 63488)
  /\ tie_vlist (session rs inputs) = temp_tie_vlist (session rs inputs)
  /\ tie_shape (session rs inputs) = temp_tie_shape (session rs inputs)
  /\ all_items edge_in_bounds zero_line (tie_shape (session rs inputs)).
Proof.
  assert (H : colours (session rs inputs) = (2016, 65535, 31, 63488)
              /\ tie_vlist (session rs inputs)
                 = temp_tie_vlist (session rs inputs)
              /\ tie_shape (session rs inputs)
                 = temp_tie_shape (session rs inputs)).
  { apply (session_ind
      (fun g => colours g = (2016, 65535, 31, 63488)
                /\ tie_vlist g = temp_tie_vlist g
                /\ tie_shape g = temp_tie_shape g)).
    - pose proof (Game_Init_post (Game_start rs) (Game_start_arrays rs)) as H.
      cbv zeta in H. destruct H as (Hc & Hv & Hs & _). auto.
    - intros inputs' b (Hc & Hv & Hs).
      destruct (fixed_part_eq _ _ (frame_fixed (session rs inputs') b))
        as (Fv & Fs & Cg & Cw & Cr & Cb & _).
      set (gf := frame _ b) in *. clearbody gf.
      set (g := session rs inputs') in *. clearbody g.
      unfold colours, temp_tie_vlist, temp_tie_shape in *.
      rewrite Fv, Fs, Cg, Cw, Cr, Cb. auto. }
  destruct H as (Hc & Hv & Hs). split; [exact Hc|]. split; [exact Hv|].
  split; [exact Hs|]. rewrite Hs. intros edge. apply temp_tie_shape_in_bounds.
Qed.

Lemma process_explosion_vel (e : EXPL) :
  expl_vel (process_explosion e) = expl_vel e.
Proof.
  unfold process_explosion. destruct (_ =? 0); [reflexivity|]. cbv zeta.
  destruct (move_edges_header NUM_TIE_EDGES e) as (_ & _ & _ & Hv).
  cbv zeta in Hv. destruct (100 <? _); exact Hv.
Qed.

Lemma shrapnel_ok (g : Game) (tie : nat) : vel_ok (shrapnel g tie).
Proof.
  unfold vel_ok, shrapnel. cbv zeta. cbn [vec_z].
  set (r3 := Z.of_N (rand_seq g (S (S (rand_calls g))))).
  assert (H3 : 0 <= r3) by apply N2Z.is_nonneg. clearbody r3.
  pose proof (int_rem_range r3 8 H3 ltac:(reflexivity)) as B3.
  exists (int_add (-7) (int_rem r3 8)). split; [|reflexivity].
  unfold int_add. rewrite to_int16_small by lia. lia.
Qed.

Lemma blow_edge_drifts (g : Game) (tie edge : nat) (e : EXPL) :
  expl_drifts e -> expl_drifts (blow_edge g tie edge e).
Proof.
  intros H. unfold expl_drifts, blow_edge. cbn [expl_vel].
  apply all_items_insert; [exact H|apply shrapnel_ok].
Qed.

Lemma Start_Explosion_drifts (tie : nat) (g : Game) :
  all_items expl_drifts zero_expl (explosions g) ->
  all_items expl_drifts zero_expl (explosions (Start_Explosion tie g)).
Proof.
  intros Hall. unfold Start_Explosion.
  induction (seq 0 NUM_EXPLOSIONS) as [|i l IH]; cbn [Start_Explosion_hunt];
    [exact Hall|].
  destruct (_ =? 0); [|exact IH]. unfold start_explosion_at.
  apply (for_loop_ind
    (fun g' => all_items expl_drifts zero_expl (explosions g'))).
  - cbn [explosions set_explosions]. apply all_items_alter; [exact Hall|].
    intros He. exact He.
  - intros edge g' _ H. rewrite explosion_edge_explosions.
    apply all_items_alter; [exact H|]. apply blow_edge_drifts.
Qed.

Lemma frame_drifts (g : Game) (b : Buttons) :
  all_items expl_drifts zero_expl (explosions g) ->
  all_items expl_drifts zero_expl (explosions (frame g b)).
Proof.
  intros Hall. rewrite frame_explosions.
  pose proof (moved_explosions g b) as Hm.
  set (g2 := Process_Ties _) in *. clearbody g2.
  assert (H3 : all_items expl_drifts zero_expl
                 (explosions (Process_Explosions g2))).
  { destruct (Process_Explosions_fields g2) as (_ & _ & _ & _ & E).
    rewrite E, Hm. apply all_items_for_loop_alter; [exact Hall|].
    intros e He. unfold expl_drifts. rewrite process_explosion_vel. exact He. }
  set (g3 := Process_Explosions g2) in *. clearbody g3.
  unfold Draw_Ties.
  apply (for_loop_ind
    (fun acc => all_items expl_drifts zero_expl (explosions (fst acc))));
    [exact H3|].
  intros i [g' evs] _ H. cbn [fst] in H. unfold draw_tie.
  destruct (_ =? 0); [exact H|].
  destruct (for_loop _ _ _) as [box evs'].
  destruct (_ && _); [|exact H]. cbn [fst].
  destruct (hit_tie_fields i g') as (_ & _ & _ & E & _). rewrite E.
  apply Start_Explosion_drifts, H.
Qed.

(** X21. In every session the shrapnel of every explosion has, on the
    depth axis, a velocity that is a whole number from -7 to 0: the edges
    of an explosion drift towards the viewer or keep their depth, and never
    move away. *)
Theorem shrapnel_approaches (rs : nat -> N) (inputs : list Buttons) :
  all_items expl_drifts zero_expl (explosions (session rs inputs)).
Proof.
  apply (session_ind
    (fun g => all_items expl_drifts zero_expl (explosions g))).
  - destruct (battle_part_eq _ _ (Game_Init_battle (Game_start rs)))
      as (He & _).
    rewrite He. apply all_items_replicate. unfold expl_drifts, zero_expl.
    cbn [expl_vel]. apply all_items_replicate. exists 0.
    split; [lia|reflexivity].
  - intros inputs' b. apply frame_drifts.
Qed.

(** ** What the drawing functions draw *)

Lemma draw_star_events (s : POINT3D) :
  draw_star s
  = [ PerspDiv OfStar (persp_num (pt_x s)) (pt_z s);
      PerspDiv OfStar (persp_num (pt_y s)) (pt_z s) ]
    ++ (if off_screen (project_here (pt_x s) (pt_y s) (pt_z s))
        then [] else [star_pixel s]).
Proof. reflexivity. Qed.

Lemma draw_explosion_edge_events (e : EXPL) (edge : nat) :
  let p1 := item zero_point (expl_p1 e) edge in
  let p2 := item zero_point (expl_p2 e) edge in
  draw_explosion_edge e edge
  = if edge_clipped e edge then []
    else [ PerspDiv OfExplosion (persp_num (pt_x p1)) (pt_z p1);
           PerspDiv OfExplosion (persp_num (pt_y p1)) (pt_z p1);
           PerspDiv OfExplosion (persp_num (pt_x p2)) (pt_z p2);
           PerspDiv OfExplosion (persp_num (pt_y p2)) (pt_z p2);
           explosion_edge_line e edge ].
Proof. reflexivity. Qed.

Lemma Draw_Starfield_draws (g : Game) (index : nat) :
  (index < NUM_STARS)%nat ->
  let s := item zero_point (stars g) index in
  off_screen (project_here (pt_x s) (pt_y s) (pt_z s)) = false ->
  In (star_pixel s) (Draw_Starfield g).
Proof.
  intros Hi s Hon. unfold Draw_Starfield. apply in_flat_map.
  exists index. split; [apply in_seq; lia|]. fold s.
  rewrite draw_star_events, Hon. apply in_or_app. right. left. reflexivity.
Qed.

Lemma Draw_Explosions_draws (g : Game) (index edge : nat) :
  (index < NUM_EXPLOSIONS)%nat -> (edge < NUM_TIE_EDGES)%nat ->
  let e := item zero_expl (explosions g) index in
  expl_state e <> 0 -> edge_clipped e edge = false ->
  In (explosion_edge_line e edge) (Draw_Explosions g).
Proof.
  intros Hi He e Hrun Hclip. unfold Draw_Explosions. apply in_flat_map.
  exists index. split; [apply in_seq; lia|]. fold e. unfold draw_explosion.
  destruct (Z.eqb_spec (expl_state e) 0) as [E|_]; [contradiction|].
  apply in_flat_map. exists edge. split; [apply in_seq; lia|].
  pose proof (draw_explosion_edge_events e edge) as Hev. cbv zeta in Hev.
  rewrite Hev, Hclip. do 4 right. left. reflexivity.
Qed.

Lemma draw_tie_edges_draw (g : Game) (t : TIE) (color : Z) (n : nat)
    (evs : list Event) :
  (forall ev, In ev evs ->
     In ev (snd (for_loop n (draw_tie_edge g t color) (empty_box, evs))))
  /\ forall edge, (edge < n)%nat ->
       In (tie_edge_line g t color edge)
         (snd (for_loop n (draw_tie_edge g t color) (empty_box, evs))).
Proof.
  apply (for_loop_ind_idx
    (fun n acc =>
       (forall ev, In ev evs -> In ev (snd acc))
       /\ forall edge, (edge < n)%nat ->
            In (tie_edge_line g t color edge) (snd acc))).
  - split; [auto|]. intros edge He. lia.
  - intros i [box evs'] _ (Hold & Hdone). cbn [snd] in *.
    assert (Hs : snd (draw_tie_edge g t color i (box, evs'))
                 = evs' ++ [ PerspDiv OfTie
                               (persp_num (F32.add (tie_x t) (pt_x (edge_start g i))))
                               (F32.add (pt_z (edge_start g i)) (tie_z t));
                             PerspDiv OfTie
                               (persp_num (F32.add (tie_y t) (pt_y (edge_start g i))))
                               (F32.add (pt_z (edge_start g i)) (tie_z t));
                             PerspDiv OfTie
                               (persp_num (F32.add (tie_x t) (pt_x (edge_end g i))))
                               (F32.add (pt_z (edge_end g i)) (tie_z t));
                             PerspDiv OfTie
                               (persp_num (F32.add (tie_y t) (pt_y (edge_end g i))))
                               (F32.add (pt_z (edge_end g i)) (tie_z t));
                             tie_edge_line g t color i ])
      by reflexivity.
    rewrite Hs. split.
    + intros ev Hev. apply in_or_app. left. apply Hold, Hev.
    + intros edge He. apply in_or_app.
      destruct (decide (edge = i)) as [->|Hne].
      * right. do 4 right. left. reflexivity.
      * left. apply Hdone. lia.
Qed.

Lemma draw_tie_draws (index : nat) (g : Game) (evs : list Event) :
  (forall ev, In ev evs -> In ev (snd (draw_tie index (g, evs))))
  /\ (tie_state (item zero_tie (ties g) index) <> 0 ->
      forall edge, (edge < NUM_TIE_EDGES)%nat ->
        In (tie_edge_line g (item zero_tie (ties g) index)
              (tie_color (item zero_tie (ties g) index)) edge)
          (snd (draw_tie index (g, evs)))).
Proof.
  unfold draw_tie.
  destruct (Z.eqb_spec (tie_state (item zero_tie (ties g) index)) 0) as [E|E].
  - split; [auto|]. intros H. contradiction.
  - destruct (draw_tie_edges_draw g (item zero_tie (ties g) index)
                (tie_color (item zero_tie (ties g) index)) NUM_TIE_EDGES evs)
      as (Hold & Hnew).
    destruct (for_loop NUM_TIE_EDGES _ (empty_box, evs)) as [box evs'].
    cbn [snd] in *. destruct (_ && _); cbn [snd]; auto.
Qed.

Lemma draw_tie_others (index : nat) (g : Game) (evs : list Event) (j : nat) :
  j <> index ->
  item zero_tie (ties (fst (draw_tie index (g, evs)))) j
  = item zero_tie (ties g) j.
Proof.
  intros Hne. unfold draw_tie.
  destruct (_ =? 0); [reflexivity|].
  destruct (for_loop _ _ _) as [box evs'].
  destruct (_ && _); [|reflexivity]. cbn [fst].
  destruct (hit_tie_fresh index g) as (t & _ & ->).
  apply item_insert_ne. congruence.
Qed.

Lemma tie_edge_line_fixed (g g' : Game) (t : TIE) (color : Z) (edge : nat) :
  fixed_part g' = fixed_part g ->
  tie_edge_line g' t color edge = tie_edge_line g t color edge.
Proof.
  intros H. apply fixed_part_eq in H as (Hv & Hs & _).
  unfold tie_edge_line, edge_start, edge_end. rewrite Hv, Hs. reflexivity.
Qed.

Lemma Draw_Ties_draws (g : Game) (index edge : nat) :
  (index < NUM_TIES)%nat -> (edge < NUM_TIE_EDGES)%nat ->
  let t := item zero_tie (ties g) index in
  tie_state t <> 0 ->
  In (tie_edge_line g t (tie_color t) edge) (snd (Draw_Ties g)).
Proof.
  intros Hi He t Halive. subst t. unfold Draw_Ties.
  assert (H : forall n acc,
            acc = for_loop n draw_tie (g, []) ->
            fixed_part (fst acc) = fixed_part g
            /\ (forall j, (n <= j)%nat ->
                  item zero_tie (ties (fst acc)) j = item zero_tie (ties g) j)
            /\ ((index < n)%nat ->
                In (tie_edge_line g (item zero_tie (ties g) index)
                      (tie_color (item zero_tie (ties g) index)) edge)
                  (snd acc))).
  { induction n as [|n IH]; intros acc ->.
    - cbn. split; [reflexivity|]. split; [reflexivity|]. lia.
    - rewrite for_loop_S.
      destruct (IH _ eq_refl) as (Hf & Hsame & Hdone).
      destruct (for_loop n draw_tie (g, [])) as [g' evs]. cbn [fst snd] in *.
      split; [|split].
      + rewrite (draw_tie_fixed n (g', evs)). exact Hf.
      + intros j Hj. rewrite draw_tie_others by lia. apply Hsame. lia.
      + intros Hlt. destruct (draw_tie_draws n g' evs) as (Hold & Hnew).
        destruct (decide (index = n)) as [->|Hne].
        * rewrite (Hsame n (Nat.le_refl n)) in Hnew.
          specialize (Hnew Halive edge He).
          rewrite (tie_edge_line_fixed g g') in Hnew by exact Hf.
          exact Hnew.
        * apply Hold, Hdone. lia. }
  apply (H NUM_TIES _ eq_refl). exact Hi.
Qed.

(** C7. The three drawing functions compute screen coordinates as the
    spec's [project] does, with the view distance 64 on the 128 by 160
    screen: x is half the width plus [V*worldX/worldZ] and y is half the
    height minus [V*worldY/worldZ].  A star's pixel is [project] of its
    position; the line of a tie's edge joins [project] of the two model
    vertices translated to the tie; the line of an explosion edge joins
    [project] of its two end points.  The point (0,0,100) projects to
    exactly (64,80), and a point above the axis lands above the centre of
    the screen, the y axis being inverted.  And these are drawn: one pass
    of each drawing loop sends exactly its divisions followed by that pixel
    (when it is on the screen) or that line (when the explosion edge is not
    clipped), [Draw_Starfield] draws the pixel of every star that projects
    onto the screen, [Draw_Ties] every edge of every tie that is alive, and
    [Draw_Explosions] every edge that is not clipped of every explosion
    that is running. *)
Theorem projection_formula :
  (forall (s : POINT3D) (x y c : Z),
     In (drawPixel x y c) (draw_star s) ->
     (x, y) = project_here (pt_x s) (pt_y s) (pt_z s))
  /\ (forall (g : Game) (t : TIE) (color : Z) (edge : nat) (box : BBox)
        (x0 y0 x1 y1 c : Z),
        In (drawLine x0 y0 x1 y1 c)
          (snd (draw_tie_edge g t color edge (box, []))) ->
        (x0, y0)
        = project_here (F32.add (tie_x t) (pt_x (edge_start g edge)))
            (F32.add (tie_y t) (pt_y (edge_start g edge)))
            (F32.add (pt_z (edge_start g edge)) (tie_z t))
        /\ (x1, y1)
           = project_here (F32.add (tie_x t) (pt_x (edge_end g edge)))
               (F32.add (tie_y t) (pt_y (edge_end g edge)))
               (F32.add (pt_z (edge_end g edge)) (tie_z t)))
  /\ (forall (e : EXPL) (edge : nat) (x0 y0 x1 y1 c : Z),
        In (drawLine x0 y0 x1 y1 c) (draw_explosion_edge e edge) ->
        let p1 := item zero_point (expl_p1 e) edge in
        let p2 := item zero_point (expl_p2 e) edge in
        (x0, y0) = project_here (pt_x p1) (pt_y p1) (pt_z p1)
        /\ (x1, y1) = project_here (pt_x p2) (pt_y p2) (pt_z p2))
  /\ project (float_of_int 0) (float_of_int 0) (float_of_int 100)
       (float_of_int 64) 128 160 = (64, 80)
  /\ draw_star (vertex 65535 0 0 100)
     = [ PerspDiv OfStar fzero (float_of_int 100);
         PerspDiv OfStar fzero (float_of_int 100);
         drawPixel 64 80 65535 ]
  /\ project_here (float_of_int 0) (float_of_int 50) (float_of_int 100)
     = (64, 48)
  /\ project_here (float_of_int 0) (float_of_int (-50)) (float_of_int 100)
     = (64, 112)
  /\ (forall s : POINT3D,
        draw_star s
        = [ PerspDiv OfStar (persp_num (pt_x s)) (pt_z s);
            PerspDiv OfStar (persp_num (pt_y s)) (pt_z s) ]
          ++ (if off_screen (project_here (pt_x s) (pt_y s) (pt_z s))
              then [] else [star_pixel s]))
  /\ (forall (g : Game) (t : TIE) (color : Z) (edge : nat) (box : BBox)
        (evs : list Event),
        let a := edge_start g edge in
        let b := edge_end g edge in
        snd (draw_tie_edge g t color edge (box, evs))
        = evs
          ++ [ PerspDiv OfTie (persp_num (F32.add (tie_x t) (pt_x a)))
                 (F32.add (pt_z a) (tie_z t));
               PerspDiv OfTie (persp_num (F32.add (tie_y t) (pt_y a)))
                 (F32.add (pt_z a) (tie_z t));
               PerspDiv OfTie (persp_num (F32.add (tie_x t) (pt_x b)))
                 (F32.add (pt_z b) (tie_z t));
               PerspDiv OfTie (persp_num (F32.add (tie_y t) (pt_y b)))
                 (F32.add (pt_z b) (tie_z t));
               tie_edge_line g t color edge ])
  /\ (forall (e : EXPL) (edge : nat),
        let p1 := item zero_point (expl_p1 e) edge in
        let p2 := item zero_point (expl_p2 e) edge in
        draw_explosion_edge e edge
        = if edge_clipped e edge then []
          else [ PerspDiv OfExplosion (persp_num (pt_x p1)) (pt_z p1);
                 PerspDiv OfExplosion (persp_num (pt_y p1)) (pt_z p1);
                 PerspDiv OfExplosion (persp_num (pt_x p2)) (pt_z p2);
                 PerspDiv OfExplosion (persp_num (pt_y p2)) (pt_z p2);
                 explosion_edge_line e edge ])
  /\ (forall (g : Game) (index : nat),
        (index < NUM_STARS)%nat ->
        let s := item zero_point (stars g) index in
        off_screen (project_here (pt_x s) (pt_y s) (pt_z s)) = false ->
        In (star_pixel s) (Draw_Starfield g))
  /\ (forall (g : Game) (index edge : nat),
        (index < NUM_TIES)%nat -> (edge < NUM_TIE_EDGES)%nat ->
        let t := item zero_tie (ties g) index in
        tie_state t <> 0 ->
        In (tie_edge_line g t (tie_color t) edge) (snd (Draw_Ties g)))
  /\ (forall (g : Game) (index edge : nat),
        (index < NUM_EXPLOSIONS)%nat -> (edge < NUM_TIE_EDGES)%nat ->
        let e := item zero_expl (explosions g) index in
        expl_state e <> 0 -> edge_clipped e edge = false ->
        In (explosion_edge_line e edge) (Draw_Explosions g)).
Proof.
  repeat match goal with |- _ /\ _ => split end.
  - intros s x y c H. unfold draw_star in H. cbv zeta in H.
    apply in_app_or in H as [H|H].
    + destruct H as [H|[H|[]]]; discriminate H.
    + destruct (_ || _) in H; [destruct H|].
      destruct H as [H|[]]. injection H as <- <- _. reflexivity.
  - intros g t color edge box x0 y0 x1 y1 c H.
    unfold draw_tie_edge in H. cbv zeta in H. cbn [snd app] in H.
    destruct H as [H|[H|[H|[H|[H|[]]]]]]; try discriminate H.
    injection H as <- <- <- <- _. split; reflexivity.
  - intros e edge x0 y0 x1 y1 c H p1 p2.
    unfold draw_explosion_edge in H. cbv zeta in H. fold p1 p2 in H.
    destruct (_ && _) in H; [destruct H|].
    destruct H as [H|[H|[H|[H|[H|[]]]]]]; try discriminate H.
    injection H as <- <- <- <- _. split; reflexivity.
  - vm_compute. reflexivity.
  - vm_compute. reflexivity.
  - vm_compute. reflexivity.
  - vm_compute. reflexivity.
  - apply draw_star_events.
  - intros g t color edge box evs. reflexivity.
  - apply draw_explosion_edge_events.
  - apply Draw_Starfield_draws.
  - apply Draw_Ties_draws.
  - apply Draw_Explosions_draws.
Qed.

(** ** The hit test of [Draw_Ties] *)

Lemma tie_box_any_events (g : Game) (t : TIE) (color : Z) (n : nat)
    (evs : list Event) :
  fst (for_loop n (draw_tie_edge g t color) (empty_box, evs))
  = fst (for_loop n (draw_tie_edge g t color) (empty_box, [])).
Proof.
  induction n as [|n IH]; [reflexivity|].
  rewrite !for_loop_S.
  destruct (for_loop n _ (empty_box, evs)) as [box evs1].
  destruct (for_loop n _ (empty_box, [])) as [box' evs2].
  cbn [fst] in IH. subst box'. reflexivity.
Qed.

Lemma tie_box_fixed (g g' : Game) (t : TIE) :
  fixed_part g' = fixed_part g -> tie_box g' t = tie_box g t.
Proof.
  intros H. apply fixed_part_eq in H as (Hv & Hs & _). unfold tie_box.
  f_equal. generalize (empty_box, @nil Event).
  induction NUM_TIE_EDGES as [|n IH]; intros acc; [reflexivity|].
  rewrite !for_loop_S, IH. unfold draw_tie_edge. rewrite Hv, Hs. reflexivity.
Qed.

Lemma struck_same (g g' : Game) (n : nat) :
  fixed_part g' = fixed_part g -> player_part g' = player_part g ->
  item zero_tie (ties g') n = item zero_tie (ties g) n ->
  struck g' n = struck g n.
Proof.
  intros Hf Hp Ht. unfold struck, target_in_box. cbv zeta.
  rewrite Ht, (tie_box_fixed g g' _ Hf).
  apply player_part_eq in Hp as (_ & _ & _ & _ & Hx & Hy & _ & Hc & _).
  rewrite Hx, Hy, Hc. reflexivity.
Qed.

(** One pass of the loop of [Draw_Ties], on the state. *)
Lemma draw_tie_fst (index : nat) (g : Game) (evs : list Event) :
  fst (draw_tie index (g, evs))
  = if struck g index then hit_tie index g else g.
Proof.
  unfold draw_tie, struck. cbv zeta.
  destruct (Z.eqb_spec (tie_state (item zero_tie (ties g) index)) 0) as [E|E];
    [reflexivity|].
  pose proof (tie_box_any_events g (item zero_tie (ties g) index)
                (tie_color (item zero_tie (ties g) index)) NUM_TIE_EDGES evs)
    as Hbox.
  fold (tie_box g (item zero_tie (ties g) index)) in Hbox.
  destruct (for_loop NUM_TIE_EDGES _ (empty_box, evs)) as [box evs'].
  cbn [fst] in Hbox. subst box. cbn [negb andb].
  destruct (_ && _); reflexivity.
Qed.

Lemma struck_alive (g : Game) (index : nat) :
  struck g index = true -> (index < length (ties g))%nat.
Proof.
  unfold struck. cbv zeta. intros H. apply alive_in_range.
  destruct (Z.eqb_spec (tie_state (item zero_tie (ties g) index)) 0) as [E|E];
    [discriminate H|exact E].
Qed.

(** The loop of [Draw_Ties] after [n] passes. *)
Lemma Draw_Ties_upto (g : Game) (n : nat) :
  let g' := fst (for_loop n draw_tie (g, [])) in
  fixed_part g' = fixed_part g /\ player_part g' = player_part g
  /\ (forall j, (n <= j)%nat ->
        item zero_tie (ties g') j = item zero_tie (ties g) j)
  /\ (-128 <= hits g < 128 -> hits g' = to_int8 (hits g + strikes g n))
  /\ forall i, (i < n)%nat ->
       (struck g i = true -> fresh_tie (item zero_tie (ties g') i))
       /\ (struck g i = false ->
           item zero_tie (ties g') i = item zero_tie (ties g) i).
Proof.
  cbv zeta. induction n as [|n IH].
  - cbn [for_loop seq fold_left fst strikes].
    split; [reflexivity|]. split; [reflexivity|]. split; [reflexivity|].
    split; [intros Hh; rewrite Z.add_0_r, to_int8_small by exact Hh;
            reflexivity|].
    intros i Hi. lia.
  - rewrite for_loop_S. destruct IH as (Hf & Hp & Hsame & Hhits & Hdone).
    destruct (for_loop n draw_tie (g, [])) as [g' evs]. cbn [fst] in *.
    rewrite draw_tie_fst.
    rewrite (struck_same g g' n Hf Hp (Hsame n (Nat.le_refl n))).
    cbn [strikes].
    destruct (struck g n) eqn:Hst.
    + assert (Hlen : (n < length (ties g'))%nat).
      { apply struck_alive.
        rewrite (struck_same g g' n Hf Hp (Hsame n (Nat.le_refl n))).
        exact Hst. }
      destruct (hit_tie_fresh n g') as (t & Hfresh & Ht).
      destruct (hit_tie_scored n g') as (Hs & _).
      split; [rewrite hit_tie_fixed; exact Hf|].
      split; [rewrite hit_tie_player; exact Hp|].
      split; [|split].
      * intros j Hj. rewrite Ht, item_insert_ne by lia. apply Hsame. lia.
      * intros Hh. rewrite Hs, (Hhits Hh), to_int8_add_l. f_equal. lia.
      * intros i Hi. rewrite Ht. destruct (decide (i = n)) as [->|Hne].
        -- rewrite item_insert_eq by exact Hlen. rewrite Hst.
           split; [intros _; exact Hfresh|intros H; discriminate H].
        -- rewrite item_insert_ne by congruence. apply Hdone. lia.
    + split; [exact Hf|]. split; [exact Hp|]. split; [|split].
      * intros j Hj. apply Hsame. lia.
      * intros Hh. rewrite (Hhits Hh). f_equal. lia.
      * intros i Hi. destruct (decide (i = n)) as [->|Hne].
        -- rewrite Hst. split; [intros H; discriminate H|].
           intros _. apply Hsame. lia.
        -- apply Hdone. lia.
Qed.

(** [Draw_Ties] as a whole: each tie that is shot restarts as [Init_Tie]
    makes it and counts as a hit, the others are left alone. *)
Lemma Draw_Ties_strikes (g : Game) :
  (-128 <= hits g < 128 ->
   hits (fst (Draw_Ties g)) = to_int8 (hits g + strikes g NUM_TIES))
  /\ forall i, (i < NUM_TIES)%nat ->
       (struck g i = true ->
        fresh_tie (item zero_tie (ties (fst (Draw_Ties g))) i))
       /\ (struck g i = false ->
           item zero_tie (ties (fst (Draw_Ties g))) i
           = item zero_tie (ties g) i).
Proof.
  destruct (Draw_Ties_upto g NUM_TIES) as (_ & _ & _ & H1 & H2).
  split; [exact H1|exact H2].
Qed.

(** The ties whatever the hits: [Draw_Ties] leaves a tie or restarts it. *)
Lemma Draw_Ties_item (g : Game) (i : nat) :
  item zero_tie (ties (fst (Draw_Ties g))) i = item zero_tie (ties g) i
  \/ fresh_tie (item zero_tie (ties (fst (Draw_Ties g))) i).
Proof.
  unfold Draw_Ties.
  apply (for_loop_ind
    (fun acc => item zero_tie (ties (fst acc)) i = item zero_tie (ties g) i
                \/ fresh_tie (item zero_tie (ties (fst acc)) i)));
    [left; reflexivity|].
  intros n [g' evs] _ H. cbn [fst] in H. rewrite draw_tie_fst.
  destruct (struck g' n); [|exact H].
  destruct (hit_tie_fresh n g') as (t & Hfresh & ->).
  destruct (item_insert_cases zero_tie t (ties g') n i) as [E|(_ & _ & E)];
    rewrite E; [exact H|right; exact Hfresh].
Qed.

(** The ties after [Process_Ties], whatever the misses. *)
Lemma Process_Ties_items (g : Game) (i : nat) :
  (i < NUM_TIES)%nat ->
  (escapes (item zero_tie (ties g) i) = true ->
   tie_state (item zero_tie (ties (Process_Ties g)) i) = 1
   /\ tie_z (item zero_tie (ties (Process_Ties g)) i)
      = float_of_int (2 * FAR_Z))
  /\ (escapes (item zero_tie (ties g) i) = false ->
      item zero_tie (ties (Process_Ties g)) i
      = if tie_state (item zero_tie (ties g) i) =? 0
        then item zero_tie (ties g) i
        else move_tie (item zero_tie (ties g) i)).
Proof.
  intros Hi. unfold Process_Ties.
  assert (H : (forall j, (NUM_TIES <= j)%nat ->
                 item zero_tie (ties (for_loop NUM_TIES process_tie g)) j
                 = item zero_tie (ties g) j)
              /\ forall i, (i < NUM_TIES)%nat ->
                   (escapes (item zero_tie (ties g) i) = true ->
                    tie_state
                      (item zero_tie (ties (for_loop NUM_TIES process_tie g)) i)
                    = 1
                    /\ tie_z
                         (item zero_tie
                            (ties (for_loop NUM_TIES process_tie g)) i)
                       = float_of_int (2 * FAR_Z))
                   /\ (escapes (item zero_tie (ties g) i) = false ->
                       item zero_tie (ties (for_loop NUM_TIES process_tie g)) i
                       = if tie_state (item zero_tie (ties g) i) =? 0
                         then item zero_tie (ties g) i
                         else move_tie (item zero_tie (ties g) i))).
  { apply (for_loop_ind_idx
      (fun n g' =>
         (forall j, (n <= j)%nat ->
            item zero_tie (ties g') j = item zero_tie (ties g) j)
         /\ forall i, (i < n)%nat ->
              (escapes (item zero_tie (ties g) i) = true ->
               tie_state (item zero_tie (ties g') i) = 1
               /\ tie_z (item zero_tie (ties g') i) = float_of_int (2 * FAR_Z))
              /\ (escapes (item zero_tie (ties g) i) = false ->
                  item zero_tie (ties g') i
                  = if tie_state (item zero_tie (ties g) i) =? 0
                    then item zero_tie (ties g) i
                    else move_tie (item zero_tie (ties g) i)))).
    - split; [reflexivity|]. intros k Hk. lia.
    - intros n g' Hn (Irest & Idone).
      destruct (process_tie_item n g') as (Po & Pe & Pk). cbv zeta in Pe, Pk.
      rewrite (Irest n (Nat.le_refl n)) in Pe, Pk.
      set (g2 := process_tie n g') in *. clearbody g2. split.
      + intros j Hj. rewrite Po by lia. apply Irest. lia.
      + intros k Hk. destruct (decide (k = n)) as [->|Hne].
        * split; assumption.
        * rewrite (Po k Hne). apply Idone. lia. }
  apply H, Hi.
Qed.

(** ** A frame, from the state its drawing finds *)

Lemma frame_drawn (g : Game) (b : Buttons) :
  frame g b = end_of_frame (fst (Draw_Ties (drawn_state b g))).
Proof. rewrite frame_steps. reflexivity. Qed.

(** What a frame does to the ties, the misses and the hits, from the state
    [g1] its moves start from and the state [gd] its drawing finds. *)
Lemma frame_battle_steps (g g1 gd gf : Game) :
  ties g1 = ties g -> misses g1 = misses g -> hits g1 = hits g ->
  gd = Process_Explosions (Process_Ties (Move_Starfield g1)) ->
  gf = end_of_frame (fst (Draw_Ties gd)) ->
  (-128 <= misses g < 128 ->
   misses gf = to_int8 (misses g + escaped (ties g) NUM_TIES))
  /\ (forall i, (i < NUM_TIES)%nat ->
        escapes (item zero_tie (ties g) i) = true ->
        tie_state (item zero_tie (ties gf) i) = 1
        /\ tie_z (item zero_tie (ties gf) i) = float_of_int (2 * FAR_Z))
  /\ (forall i, (i < NUM_TIES)%nat ->
        escapes (item zero_tie (ties g) i) = false -> struck gd i = false ->
        item zero_tie (ties gf) i
        = if tie_state (item zero_tie (ties g) i) =? 0
          then item zero_tie (ties g) i
          else move_tie (item zero_tie (ties g) i))
  /\ (forall i, (i < NUM_TIES)%nat -> struck gd i = true ->
        fresh_tie (item zero_tie (ties gf) i))
  /\ (-128 <= hits g < 128 ->
      hits gf = to_int8 (hits g + strikes gd NUM_TIES)).
Proof.
  intros Ht1 Hm1 Hh1 Hgd Hgf.
  destruct (Move_Starfield_rest g1) as (_ & _ & Dt1 & _).
  assert (Dm1 : misses (Move_Starfield g1) = misses g1)
    by (unfold Move_Starfield; apply (for_loop_keeps misses); reflexivity).
  pose proof (moved_tally g1) as Dtally. rewrite <- Hgd in Dtally.
  apply tally_eq in Dtally as (Dh & _).
  set (g2 := Move_Starfield g1) in *. clearbody g2.
  assert (Hpost : -128 <= misses g < 128 ->
            misses (Process_Ties g2)
            = to_int8 (misses g + escaped (ties g) NUM_TIES)).
  { intros Hm. destruct (Process_Ties_post g2) as (H & _);
      [rewrite Dm1, Hm1; exact Hm|].
    rewrite H, Dm1, Hm1, Dt1, Ht1. reflexivity. }
  pose proof (Process_Ties_items g2) as Hitems. rewrite Dt1, Ht1 in Hitems.
  set (g3 := Process_Ties g2) in *. clearbody g3. clear Dt1 Dm1.
  destruct (Process_Explosions_fields g3) as (_ & _ & _ & Dt & _).
  assert (Dm : misses (Process_Explosions g3) = misses g3)
    by (unfold Process_Explosions; apply (for_loop_keeps misses); reflexivity).
  rewrite <- Hgd in Dt, Dm. clear Hgd.
  rewrite <- Dt in Hitems. rewrite <- Dm in Hpost. clear Dt Dm.
  destruct (end_of_frame_fields (fst (Draw_Ties gd)))
    as (Em & Eh & _ & Et & _).
  rewrite <- Hgf in Em, Eh, Et. rewrite Et, Em, Eh. clear Em Eh Et Hgf.
  pose proof (Draw_Ties_misses gd) as Hdm.
  destruct (Draw_Ties_strikes gd) as (S1 & S2).
  pose proof (Draw_Ties_item gd) as Hitem.
  set (g4 := fst (Draw_Ties gd)) in *. clearbody g4.
  split; [|split; [|split; [|split]]].
  - intros Hm. rewrite Hdm. apply Hpost, Hm.
  - intros i Hi Hesc. destruct (Hitems i Hi) as (H1 & _).
    specialize (H1 Hesc).
    destruct (Hitem i)
      as [E|(kx & ky & kxv & kyv & kzv & _ & _ & _ & _ & _ & E)];
      rewrite E; [exact H1|split; reflexivity].
  - intros i Hi Hesc Hst. destruct (Hitems i Hi) as (_ & H2).
    destruct (S2 i Hi) as (_ & Hkeep). rewrite (Hkeep Hst). apply H2, Hesc.
  - intros i Hi Hst. apply (S2 i Hi), Hst.
  - intros Hh. rewrite S1, Dh, Hh1; [reflexivity|].
    rewrite Dh, Hh1. exact Hh.
Qed.

(** ** A frame of a game that is over *)

Lemma game_over_input_skipped (g : Game) (b : Buttons) :
  game_state g = GAME_OVER ->
  Game_Main b g = Game_Main no_buttons g
  /\ frame g b
     = check_game_over
         (fst (draw_beam
            (fst (draw_crosshair
               (fst (Draw_Ties
                  (Process_Explosions
                     (Process_Ties
                        (Move_Starfield (process_cannon g)))))))))) 
  /\ cross_x (frame g b) = cross_x g
  /\ cross_y (frame g b) = cross_y g
  /\ player_z_vel (frame g b) = player_z_vel g
  /\ target_x_screen (frame g b) = target_x_screen g
  /\ target_y_screen (frame g b) = target_y_screen g
  /\ game_state (frame g b) = GAME_OVER.
Proof.
  intros Hover.
  pose proof (handle_input_over b g Hover) as Hb.
  pose proof (handle_input_over no_buttons g Hover) as Hn.
  split; [|split].
  - unfold Game_Main. rewrite Hb, Hn. reflexivity.
  - rewrite frame_steps, Hb. reflexivity.
  - destruct (frame_player g b) as (Fx & Fy & Fv).
    destruct (frame_cannon g b) as (_ & _ & Tx & Ty).
    destruct (process_cannon_world (handle_input b g))
      as (_ & _ & _ & _ & _ & _ & _ & _ & Px & Py).
    rewrite Fx, Fy, Fv, Tx, Ty, Px, Py, Hb, frame_game_state, Hover.
    repeat split. destruct (_ <? _); reflexivity.
Qed.

Lemma game_over_stars (g : Game) (b : Buttons) (index : nat) (s : POINT3D) :
  game_state g = GAME_OVER ->
  (index < NUM_STARS)%nat -> stars g !! index = Some s ->
  stars (frame g b) !! index
  = Some (Build_POINT3D (pt_color s) (pt_x s) (pt_y s)
            (if F32.leb (F32.sub (pt_z s) (float_of_int (player_z_vel g)))
                  (float_of_int NEAR_Z)
             then float_of_int FAR_Z
             else F32.sub (pt_z s) (float_of_int (player_z_vel g)))).
Proof.
  intros Hover Hi Hs. rewrite frame_stars, (handle_input_over b g Hover).
  destruct (process_cannon_world g) as (W & _ & _ & _ & _ & Hv & _).
  apply world_part_stars in W.
  set (g1 := process_cannon g) in *. clearbody g1.
  rewrite Move_Starfield_lookup, W, Hs, Hv.
  destruct (decide (index < NUM_STARS)%nat); [reflexivity|contradiction].
Qed.

Lemma game_over_ready (g : Game) (b : Buttons) :
  game_state g = GAME_OVER -> cannon_state g = 0 ->
  cannon_state (frame g b) = 0 /\ cannon_count (frame g b) = cannon_count g.
Proof.
  intros Hover Hready.
  destruct (frame_cannon g b) as (Fs & Fc & _). cbv zeta in Fs, Fc.
  rewrite (handle_input_over b g Hover) in Fs, Fc.
  rewrite (process_cannon_ready g Hready) in Fs, Fc.
  rewrite Fs, Fc. auto.
Qed.

Lemma game_over_battle (g : Game) (b : Buttons) :
  game_state g = GAME_OVER ->
  (-128 <= misses g < 128 ->
   misses (frame g b) = to_int8 (misses g + escaped (ties g) NUM_TIES))
  /\ (forall i, (i < NUM_TIES)%nat ->
        escapes (item zero_tie (ties g) i) = true ->
        tie_state (item zero_tie (ties (frame g b)) i) = 1
        /\ tie_z (item zero_tie (ties (frame g b)) i)
           = float_of_int (2 * FAR_Z))
  /\ (forall i, (i < NUM_TIES)%nat ->
        escapes (item zero_tie (ties g) i) = false ->
        struck (drawn_state b g) i = false ->
        item zero_tie (ties (frame g b)) i
        = if tie_state (item zero_tie (ties g) i) =? 0
          then item zero_tie (ties g) i
          else move_tie (item zero_tie (ties g) i))
  /\ (forall i, (i < NUM_TIES)%nat -> struck (drawn_state b g) i = true ->
        fresh_tie (item zero_tie (ties (frame g b)) i))
  /\ (-128 <= hits g < 128 ->
      hits (frame g b)
      = to_int8 (hits g + strikes (drawn_state b g) NUM_TIES)).
Proof.
  intros Hover.
  destruct (process_cannon_world g) as (W & _).
  apply world_part_eq in W as (Wt & _ & _ & Wm & Wh & _).
  apply (frame_battle_steps g (process_cannon g)).
  - exact Wt.
  - exact Wm.
  - exact Wh.
  - unfold drawn_state. rewrite (handle_input_over b g Hover). reflexivity.
  - apply frame_drawn.
Qed.

(** C10. When the game is over a frame skips the input block and nothing
    else.  The buttons change nothing of the frame, and the crosshair
    offsets, the player's depth velocity and the latched target are as
    before it.  The simulation goes on: every star moves towards the viewer
    by the player's velocity and restarts at [FAR_Z] when that takes it to
    [NEAR_Z] or less; the misses grow, in [int8_t] arithmetic and past the
    threshold, by the number of live ties that escape; a tie that escapes
    restarts alive at the depth 2 * FAR_Z, a tie that neither escapes nor is
    shot moves by its velocity, a tie that is shot restarts as [Init_Tie]
    makes it and the hits grow by the number of ties shot, the test being
    the one of [Draw_Ties] under a cannon that is firing; a running
    explosion ages by one; a cannon that is firing or cooling down goes
    through its cycle (10 frames firing, 4 cooling down, then ready), the
    game staying over; and a cannon that is ready stays so, the fire button
    being ignored. *)
Theorem game_over_frame (g : Game) (b : Buttons) :
  game_state g = GAME_OVER ->
  Game_Main b g = Game_Main no_buttons g
  /\ frame g b
     = check_game_over
         (fst (draw_beam
            (fst (draw_crosshair
               (fst (Draw_Ties
                  (Process_Explosions
                     (Process_Ties
                        (Move_Starfield (process_cannon g)))))))))) 
  /\ cross_x (frame g b) = cross_x g
  /\ cross_y (frame g b) = cross_y g
  /\ player_z_vel (frame g b) = player_z_vel g
  /\ target_x_screen (frame g b) = target_x_screen g
  /\ target_y_screen (frame g b) = target_y_screen g
  /\ game_state (frame g b) = GAME_OVER
  /\ (forall (index : nat) (s : POINT3D),
        (index < NUM_STARS)%nat -> stars g !! index = Some s ->
        stars (frame g b) !! index
        = Some (Build_POINT3D (pt_color s) (pt_x s) (pt_y s)
                  (if F32.leb
                        (F32.sub (pt_z s) (float_of_int (player_z_vel g)))
                        (float_of_int NEAR_Z)
                   then float_of_int FAR_Z
                   else F32.sub (pt_z s) (float_of_int (player_z_vel g)))))
  /\ (-128 <= misses g < 128 ->
      misses (frame g b) = to_int8 (misses g + escaped (ties g) NUM_TIES))
  /\ (forall i, (i < NUM_TIES)%nat ->
        escapes (item zero_tie (ties g) i) = true ->
        tie_state (item zero_tie (ties (frame g b)) i) = 1
        /\ tie_z (item zero_tie (ties (frame g b)) i)
           = float_of_int (2 * FAR_Z))
  /\ (forall i, (i < NUM_TIES)%nat ->
        escapes (item zero_tie (ties g) i) = false ->
        struck (drawn_state b g) i = false ->
        item zero_tie (ties (frame g b)) i
        = if tie_state (item zero_tie (ties g) i) =? 0
          then item zero_tie (ties g) i
          else move_tie (item zero_tie (ties g) i))
  /\ (forall i, (i < NUM_TIES)%nat -> struck (drawn_state b g) i = true ->
        fresh_tie (item zero_tie (ties (frame g b)) i))
  /\ (-128 <= hits g < 128 ->
      hits (frame g b)
      = to_int8 (hits g + strikes (drawn_state b g) NUM_TIES))
  /\ (forall index,
        (index < NUM_EXPLOSIONS)%nat ->
        expl_state (explosion g index) <> 0 ->
        0 <= expl_counter (explosion g index) < 100 ->
        expl_state (explosion (frame g b) index)
        = expl_state (explosion g index)
        /\ expl_counter (explosion (frame g b) index)
           = expl_counter (explosion g index) + 1)
  /\ (forall (bs : list Buttons) (n tx ty : Z),
        1 <= n -> n + Z.of_nat (length bs) <= 15 ->
        cannon_at g n tx ty ->
        cannon_at (run bs g) (n + Z.of_nat (length bs)) tx ty
        /\ game_state (run bs g) = GAME_OVER)
  /\ (cannon_state g = 0 ->
      cannon_state (frame g b) = 0
      /\ cannon_count (frame g b) = cannon_count g).
Proof.
  intros Hover.
  destruct (game_over_input_skipped g b Hover)
    as (A1 & A2 & A3 & A4 & A5 & A6 & A7 & A8).
  destruct (game_over_battle g b Hover) as (B1 & B2 & B3 & B4 & B5).
  refine (conj A1 (conj A2 (conj A3 (conj A4 (conj A5 (conj A6 (conj A7
            (conj A8 (conj _ (conj B1 (conj B2 (conj B3 (conj B4 (conj B5
               (conj _ (conj _ _)))))))))))))))).
  - intros index s. apply game_over_stars, Hover.
  - intros index. apply frame_ages.
  - intros bs n tx ty Hn Hlen Hat.
    split; [apply cannon_at_run; assumption|apply run_stays_over, Hover].
  - apply game_over_ready, Hover.
Qed.

(** * Examples *)

Lemma cannon_cycle_witness :
  cannon_trace (session rand_fives []) (fire_only :: repeat no_buttons 14)
  = [1; 1; 1; 1; 1; 1; 1; 1; 1; 1; 2; 2; 2; 2; 0].
Proof.
  apply (proj1 (proj2 cannon_cycle)); vm_compute; reflexivity.
Defined.

(** C1 as the spec words it has the cooldown hold for more ticks than the
    firing.  In this session the shot is on the first frame: the cannon is
    [firing] at the end of 10 frames and in [cooldown] at the end of 4. *)
Lemma cannon_cooldown_is_shorter :
  let trace :=
    cannon_trace (session rand_fives []) (fire_only :: repeat no_buttons 14) in
  trace = [1; 1; 1; 1; 1; 1; 1; 1; 1; 1; 2; 2; 2; 2; 0]
  /\ frames_in 1 trace = 10%nat
  /\ frames_in 2 trace = 4%nat
  /\ ~ (frames_in 1 trace < frames_in 2 trace)%nat.
Proof.
  vm_compute. repeat split. intros H. apply Nat.leb_le in H. discriminate H.
Qed.

(** C2 as the spec words it fails on an explosion.  The tie is shot in
    frame 28 at depth 12; its shrapnel drifts to depth 10 in frame 29, which
    [Draw_Explosions] does not clip ([10 < NEAR_Z] is false) and divides
    by. *)
Lemma explosion_divided_by_near_z :
  let g := session rand_head_on (repeat no_buttons 27 ++ [fire_only]) in
  let events := snd (Game_Main no_buttons g) in
  existsb divides_by_near_z events = true /\ ~ Forall beyond_event events.
Proof.
  cbv zeta.
  assert (H : existsb divides_by_near_z
                (snd (Game_Main no_buttons
                        (session rand_head_on
                           (repeat no_buttons 27 ++ [fire_only])))) = true)
    by (vm_compute; reflexivity).
  split; [exact H|]. intros Hall.
  apply existsb_exists in H as (ev & Hin & Hev).
  rewrite Forall_forall in Hall. apply list_elem_of_In in Hin.
  specialize (Hall ev Hin).
  destruct ev as [who num den| | | |]; try discriminate Hev.
  destruct who; try discriminate Hev. cbn [beyond_event divides_by_near_z] in *.
  apply andb_prop in Hev as [H1 H2].
  unfold F32.ltb, F32.leb, SFltb, SFleb in *.
  destruct (f32_compare_total den (float_of_int NEAR_Z)) as [c Hc].
  - destruct den; try reflexivity. discriminate H1.
  - apply float_of_int_not_nan.
  - rewrite (f32_compare_antisym _ _ _ Hc) in Hall.
    rewrite Hc in H1. destruct c; cbn in Hall; discriminate.
Qed.

Lemma star_recycling_witness :
  exists s' : POINT3D,
    stars (Move_Starfield (session rand_fives [])) !! 0%nat = Some s'
    /\ pt_z s' = float_of_int FAR_Z.
Proof.
  destruct (star_recycling (session rand_fives []) 0
              (vertex 65535 (-251) (-315) 15))
    as ((s' & Hs & _ & _ & _ & Hz & _) & _).
  - unfold NUM_STARS. lia.
  - vm_compute. reflexivity.
  - exists s'. split; [exact Hs|]. apply Hz. vm_compute. reflexivity.
Defined.

Lemma Init_Tie_respawn_witness :
  exists t : TIE,
    ties (Init_Tie 1 (session rand_fives [])) !! 1%nat = Some t
    /\ tie_state t = 1 /\ tie_z t = float_of_int (2 * FAR_Z).
Proof.
  destruct (Init_Tie_respawn 1 (session rand_fives []))
    as (t & Ht & Hs & Hz & _).
  - vm_compute. lia.
  - exists t. auto.
Defined.

(** Both explosions are running when a third tie is shot: the hit counts,
    and no explosion starts. *)
Lemma explosion_trigger_witness :
  let g := session rand_in_step (repeat fire_only 39) in
  Start_Explosion 0 g = g /\ hits (hit_tie 0 g) = to_int8 (hits g + 1).
Proof.
  cbv zeta.
  destruct (explosion_trigger 0 (session rand_in_step (repeat fire_only 39)))
    as (Hfull & _ & Hhits & _).
  - vm_compute. repeat split; repeat constructor.
  - split; [|exact Hhits]. apply Hfull.
    intros index Hi. unfold NUM_EXPLOSIONS, NUM_TIES in Hi.
    destruct index as [|[|index]]; [vm_compute; discriminate..|lia].
Defined.

(** The same in play: frame 20 shoots both ties and starts both explosions,
    frame 40 shoots both ties again, and the explosions are the ones of
    frame 20, twenty frames old. *)
Example pool_exhausted_in_play :
  let g := session rand_in_step (repeat fire_only 40) in
  hits (session rand_in_step (repeat fire_only 20)) = 2
  /\ hits g = 4
  /\ map (fun e => (expl_state e, expl_counter e)) (explosions g)
     = [(1, 20); (1, 20)].
Proof. vm_compute. repeat split. Qed.

Lemma projection_formula_witness :
  (64, 80) = project_here (float_of_int 0) (float_of_int 0) (float_of_int 100)
  /\ In (tie_edge_line (session rand_fives [])
           (item zero_tie (ties (session rand_fives [])) 0)
           (tie_color (item zero_tie (ties (session rand_fives [])) 0)) 0)
       (snd (Draw_Ties (session rand_fives [])))
  /\ In (explosion_edge_line
           (item zero_expl
              (explosions (Start_Explosion 0 (session rand_fives []))) 0) 0)
       (Draw_Explosions (Start_Explosion 0 (session rand_fives []))).
Proof.
  destruct projection_formula
    as (Hstar & _ & _ & _ & _ & _ & _ & _ & _ & _ & _ & Hties & Hexpl).
  split; [|split].
  - apply (Hstar (vertex 65535 0 0 100) 64 80 65535). vm_compute. auto.
  - refine (Hties (session rand_fives []) 0%nat 0%nat _ _ _).
    + unfold NUM_TIES. lia.
    + unfold NUM_TIE_EDGES. lia.
    + vm_compute. discriminate.
  - refine (Hexpl (Start_Explosion 0 (session rand_fives [])) 0%nat 0%nat
              _ _ _ _).
    + unfold NUM_EXPLOSIONS, NUM_TIES. lia.
    + unfold NUM_TIE_EDGES. lia.
    + vm_compute. discriminate.
    + vm_compute. reflexivity.
Defined.

Lemma crosshair_wraps_witness :
  cross_x (frame (session rand_fives (repeat right_only 10)) right_only)
  = float_of_int (- (WINDOW_WIDTH / 2)).
Proof.
  refine (proj1 (crosshair_wraps (session rand_fives (repeat right_only 10))
                   right_only _) _ _); vm_compute; reflexivity.
Defined.

(** C8 as the spec words it gives each of the four buttons its wrap.  With
    the right and the left button held the code only steps to the right:
    at the offset -60, where one step to the left passes minus half the
    width, the frame leaves -54 and not plus half the width.  With the up
    and the down button held it only steps down: at 78, where one step up
    passes half the height, the frame leaves 72 and not minus half the
    height. *)
Lemma held_together_no_wrap :
  let left := Build_Buttons false true false false false false false in
  let up := Build_Buttons false false true false false false false in
  let right_left := Build_Buttons true true false false false false false in
  let up_down := Build_Buttons false false true true false false false in
  let g := session rand_fives (repeat left 10) in
  let g' := session rand_fives (repeat up 13) in
  (game_state g = GAME_RUNNING /\ btn_left right_left = true
   /\ cross_x g = float_of_int (-60)
   /\ F32.ltb (F32.sub (cross_x g) (float_of_int CROSS_VEL))
        (float_of_int (- (WINDOW_WIDTH / 2))) = true
   /\ cross_x (frame g right_left) = float_of_int (-54)
   /\ cross_x (frame g right_left) <> float_of_int (WINDOW_WIDTH / 2)
   /\ cross_x (frame g left) = float_of_int (WINDOW_WIDTH / 2))
  /\ (game_state g' = GAME_RUNNING /\ btn_up up_down = true
      /\ cross_y g' = float_of_int 78
      /\ F32.ltb (float_of_int (WINDOW_HEIGHT / 2))
           (F32.add (cross_y g') (float_of_int CROSS_VEL)) = true
      /\ cross_y (frame g' up_down) = float_of_int 72
      /\ cross_y (frame g' up_down) <> float_of_int (- (WINDOW_HEIGHT / 2))
      /\ cross_y (frame g' up) = float_of_int (- (WINDOW_HEIGHT / 2))).
Proof. vm_compute. repeat split; discriminate. Qed.

Lemma game_over_frame_witness :
  let g := session rand_out_of_step
             (repeat no_buttons 274 ++ fire_only :: repeat no_buttons 5) in
  game_state g = GAME_OVER
  /\ cross_x (frame g right_only) = cross_x g
  /\ hits g = 0
  /\ strikes (drawn_state right_only g) NUM_TIES = 1
  /\ hits (frame g right_only) = 1
  /\ game_state (frame g right_only) = GAME_OVER.
Proof.
  assert (let g := session rand_out_of_step
                     (repeat no_buttons 274 ++ fire_only :: repeat no_buttons 5) in
          game_state g = GAME_OVER /\ hits g = 0
          /\ strikes (drawn_state right_only g) NUM_TIES = 1) as Hfacts
    by (vm_compute; repeat split).
  cbv zeta in *. destruct Hfacts as (Hover & Hhits & Hstrikes).
  destruct (game_over_frame _ right_only Hover)
    as (_ & _ & Hx & _ & _ & _ & _ & Hstays & _ & _ & _ & _ & _ & Hcount & _).
  refine (conj Hover (conj Hx (conj Hhits (conj Hstrikes (conj _ Hstays))))).
  refine (eq_trans (Hcount _) _).
  - refine (eq_ind_r (fun h => -128 <= h < 128) _ Hhits). lia.
  - refine (eq_trans (f_equal2 (fun h k => to_int8 (h + k)) Hhits Hstrikes) _).
    reflexivity.
Defined.

(** A game that is over goes on: the shot of frame 275, the frame that ends
    the game, is still in flight; it hits a tie in frame 281, the cannon
    cools down and is ready again, and a tie that escapes in frame 304 is
    counted. *)
Example game_over_goes_on :
  let g := session rand_out_of_step (repeat no_buttons 274 ++ [fire_only]) in
  let later (n : nat) := run (repeat no_buttons n) g in
  (game_state g, cannon_state g, hits g, misses g) = (GAME_OVER, 1, 0, 17)
  /\ (hits (later 5%nat), hits (later 6%nat)) = (0, 1)
  /\ map (fun n => cannon_state (later n)) [9; 10; 13; 14]%nat = [1; 2; 2; 0]
  /\ (misses (later 28%nat), misses (later 29%nat)) = (17, 18)
  /\ game_state (later 29%nat) = GAME_OVER.
Proof. vm_compute. repeat split. Qed.

(** ** Instances of the further properties *)

Lemma explosion_lifetime_witness :
  let g := Start_Explosion 0 (session rand_fives []) in
  expl_counter
    (explosion (run [no_buttons; fire_only; right_only] g) 0%nat) = 3.
Proof.
  cbv zeta.
  destruct (explosion_lifetime (Start_Explosion 0 (session rand_fives []))
              [no_buttons; fire_only; right_only] 0) as (_ & Hc).
  - unfold NUM_EXPLOSIONS, NUM_TIES. lia.
  - vm_compute. discriminate.
  - vm_compute. discriminate.
  - vm_compute. discriminate.
  - rewrite Hc. vm_compute. reflexivity.
Defined.

Lemma explosion_expires_witness :
  let g :=
    Nat.iter 100 Process_Explosions (Start_Explosion 0 (session rand_fives [])) in
  expl_counter (explosion g 0%nat) = 100
  /\ expl_state (explosion (Process_Explosions g) 0%nat) = 0.
Proof.
  cbv zeta. split; [vm_compute; reflexivity|].
  destruct (explosion_expires
              (Nat.iter 100 Process_Explosions
                 (Start_Explosion 0 (session rand_fives []))) 0)
    as (Hs & _); [| | |exact Hs].
  - unfold NUM_EXPLOSIONS, NUM_TIES. lia.
  - vm_compute. discriminate.
  - vm_compute. split; [discriminate|reflexivity].
Defined.


Lemma no_hit_unless_firing_witness :
  hits (frame (session rand_fives []) right_only)
  = hits (session rand_fives []).
Proof.
  destruct (no_hit_unless_firing (session rand_fives []) right_only)
    as (Hh & _); [|exact Hh].
  vm_compute. discriminate.
Defined.

Lemma never_fired_witness :
  score (session rand_fives [right_only; no_buttons]) = 0.
Proof.
  destruct (never_fired rand_fives [right_only; no_buttons])
    as (_ & _ & Hs & _); [reflexivity|exact Hs].
Defined.

Lemma ties_keep_coming_witness :
  tie_flying (item zero_tie (ties (session rand_fives [fire_only])) 1%nat).
Proof.
  apply (ties_keep_coming rand_fives [fire_only] 1%nat).
  unfold NUM_TIES. lia.
Defined.

Lemma Game_Init_sets_witness :
  rand_calls (Game_Init (Game_start rand_fives)) = 82%nat.
Proof.
  pose proof (Game_Init_sets (Game_start rand_fives)) as H. cbv zeta in H.
  destruct H as (_ & _ & _ & _ & _ & Hr & _); [|exact Hr].
  vm_compute. repeat split; repeat constructor.
Defined.

Lemma beam_near_target_witness :
  exists ev,
    snd (draw_beam (session rand_fives [fire_only])) = [ev]
    /\ beam_to 64 80 ev.
Proof.
  destruct (beam_near_target (session rand_fives [fire_only]))
    as (ev & Hev & Hbeam & _).
  - vm_compute. reflexivity.
  - vm_compute. split; discriminate.
  - vm_compute. split; discriminate.
  - exists ev. split; [exact Hev|]. exact Hbeam.
Defined.

(** The shot of frame 28 of this session finds its target inside the box
    of the first tie, between end points of the tie's edges. *)
Example shot_inside_the_tie :
  let g27 := session rand_head_on (repeat no_buttons 27) in
  let g :=
    Process_Explosions
      (Process_Ties
         (Move_Starfield (process_cannon (handle_input fire_only g27)))) in
  let t := item zero_tie (ties g) 0 in
  let r := for_loop NUM_TIE_EDGES (draw_tie_edge g t (tie_color t))
             (empty_box, []) in
  target_in_box g (fst r) = true
  /\ (target_x_screen g, target_y_screen g) = (64, 80)
  /\ (bmin_x (fst r), bmax_x (fst r), bmin_y (fst r), bmax_y (fst r))
     = (-149, 277, -133, 293).
Proof. vm_compute. repeat split. Qed.
